(** * Reconciliation of managed Airbyte elements

    A shallow embedding of
    [dagster_airbyte/managed/reconciliation.py]: the functions that diff a
    configured set of sources, destinations and connections against an
    Airbyte instance and, unless [dry_run] is set, issue the requests that
    make the instance match.

    Python values that travel through the Airbyte API are JSON values; the
    [AirbyteResource] is an oracle over an abstract world; every call made
    on it is recorded, in order, in a trace. *)

From Stdlib Require Import String List ZArith Bool Lia.
Import ListNotations.
Open Scope string_scope.
Open Scope list_scope.

Set Implicit Arguments.
Set Warnings "-register-all".

(* ===================================================================== *)
(** ** JSON values and Python dictionaries *)
(* ===================================================================== *)

(** The payloads of requests and responses. [JNull] is Python's [None]. *)
Inductive json : Type :=
| JNull
| JBool (b : bool)
| JNum (n : Z)
| JStr (s : string)
| JList (items : list json)
| JDict (entries : list (string * json)).

(** A [dict] with [str] keys, in insertion order.  Lookups return the first
    binding of a key; [dict_set] keeps keys unique. *)
Definition dict (V : Type) : Type := list (string * V).

Fixpoint dict_get {V} (d : dict V) (k : string) : option V :=
  match d with
  | [] => None
  | (k', v) :: rest => if String.eqb k k' then Some v else dict_get rest k
  end.

Definition dict_mem {V} (d : dict V) (k : string) : bool :=
  match dict_get d k with Some _ => true | None => false end.

(** [d[k] = v]: replaces the value of an existing key in place, otherwise
    appends the binding. *)
Fixpoint dict_set {V} (d : dict V) (k : string) (v : V) : dict V :=
  match d with
  | [] => [(k, v)]
  | (k', v') :: rest =>
      if String.eqb k k' then (k', v) :: rest else (k', v') :: dict_set rest k v
  end.

Definition dict_keys {V} (d : dict V) : list string := map fst d.

(** [{key(x): value(x) for x in xs}] for already computed pairs. *)
Definition dict_of_pairs {V} (kvs : list (string * V)) : dict V :=
  fold_left (fun d kv => dict_set d (fst kv) (snd kv)) kvs [].

(** Python truthiness of a JSON value ([if x:], [x and y]). *)
Definition truthy (j : json) : bool :=
  match j with
  | JNull => false
  | JBool b => b
  | JNum n => negb (Z.eqb n 0)
  | JStr s => negb (String.eqb s "")
  | JList l => match l with [] => false | _ => true end
  | JDict d => match d with [] => false | _ => true end
  end.

(** Structural equality of JSON values. *)
Fixpoint json_eqb (a b : json) {struct a} : bool :=
  match a, b with
  | JNull, JNull => true
  | JBool x, JBool y => Bool.eqb x y
  | JNum x, JNum y => Z.eqb x y
  | JStr x, JStr y => String.eqb x y
  | JList xs, JList ys =>
      (fix items (xs ys : list json) {struct xs} : bool :=
         match xs, ys with
         | [], [] => true
         | x :: xs', y :: ys' => json_eqb x y && items xs' ys'
         | _, _ => false
         end) xs ys
  | JDict xs, JDict ys =>
      (fix entries (xs ys : list (string * json)) {struct xs} : bool :=
         match xs, ys with
         | [], [] => true
         | (k, x) :: xs', (k', y) :: ys' =>
             String.eqb k k' && json_eqb x y && entries xs' ys'
         | _, _ => false
         end) xs ys
  | _, _ => false
  end.

(** Keys are unique in every dictionary of a JSON value, as they are in
    every Python [dict]. *)
Fixpoint unique_keys (ks : list string) : bool :=
  match ks with
  | [] => true
  | k :: rest => negb (existsb (String.eqb k) rest) && unique_keys rest
  end.

Fixpoint json_wf (j : json) : bool :=
  match j with
  | JList xs =>
      (fix items (xs : list json) : bool :=
         match xs with [] => true | x :: xs' => json_wf x && items xs' end) xs
  | JDict es =>
      unique_keys (map fst es)
      && (fix entries (es : list (string * json)) : bool :=
            match es with
            | [] => true
            | (_, x) :: es' => json_wf x && entries es'
            end) es
  | _ => true
  end.

Definition dict_wf (d : dict json) : bool := json_wf (JDict d).

(* ===================================================================== *)
(** ** Entities ([dagster_airbyte.managed.types]) *)
(* ===================================================================== *)

(** Modelled from the spec: the entity classes are missing from the sources.
    Each record has the fields of the data model of the specification, under
    the names by which [reconciliation.py] reads them.  The source and the
    destination of a connection may be [None]: [conn_dict] tests for it. *)
Module AirbyteSource.
Record t : Type := mk {
  name : string;
  source_type : string;
  source_configuration : dict json
}.
End AirbyteSource.

Module AirbyteDestination.
Record t : Type := mk {
  name : string;
  destination_type : string;
  destination_configuration : dict json
}.
End AirbyteDestination.

(** Modelled from the spec: the declaration of [AirbyteSyncMode] is missing
    from the sources.  It is an enumeration member: its [name] and its
    [value], the sync-mode pair (sync mode, destination sync mode). *)
Module AirbyteSyncMode.
Record t : Type := mk {
  name : string;
  value : string * string
}.
End AirbyteSyncMode.

Module AirbyteConnection.
Record t : Type := mk {
  name : string;
  source : option AirbyteSource.t;
  destination : option AirbyteDestination.t;
  stream_config : dict AirbyteSyncMode.t;
  normalize_data : option bool
}.
End AirbyteConnection.

Module InitializedAirbyteSource.
Record t : Type := mk {
  source : AirbyteSource.t;
  source_id : json;
  source_definition_id : json
}.
End InitializedAirbyteSource.

Module InitializedAirbyteDestination.
Record t : Type := mk {
  destination : AirbyteDestination.t;
  destination_id : json;
  destination_definition_id : json
}.
End InitializedAirbyteDestination.

Module InitializedAirbyteConnection.
Record t : Type := mk {
  connection : AirbyteConnection.t;
  connection_id : json
}.
End InitializedAirbyteConnection.

(** Modelled from the spec: [must_be_recreated] of the three entity classes
    is missing from the sources.  An observed entity must be recreated when
    the desired entity's immutable type differs from its type. *)
Definition source_must_be_recreated (self other : AirbyteSource.t) : bool :=
  negb (String.eqb (AirbyteSource.source_type self) (AirbyteSource.source_type other)).

Definition destination_must_be_recreated (self other : AirbyteDestination.t) : bool :=
  negb (String.eqb (AirbyteDestination.destination_type self)
                   (AirbyteDestination.destination_type other)).

(** Modelled from the spec: the recreate decision for an entity a connection
    refers to.  The observed one exists and the desired one is absent or of
    another type. *)
Definition referenced_recreated {A} (recreate : A -> A -> bool)
    (desired observed : option A) : bool :=
  match observed with
  | None => false
  | Some o => match desired with None => true | Some d => recreate d o end
  end.

(** Modelled from the spec: a connection must be recreated when a source or
    destination it refers to is deleted or recreated, by the same predicate
    applied to the entities it refers to. *)
Definition connection_must_be_recreated (self other : AirbyteConnection.t) : bool :=
  referenced_recreated source_must_be_recreated
    (AirbyteConnection.source self) (AirbyteConnection.source other)
  || referenced_recreated destination_must_be_recreated
       (AirbyteConnection.destination self) (AirbyteConnection.destination other).

(* ===================================================================== *)
(** ** Diffs ([dagster_managed_elements]) *)
(* ===================================================================== *)

(** Modelled from the spec: [ManagedElementDiff] and [diff_dicts] are missing
    from the sources.  A diff is a tree: the keys added, removed and changed
    at this level, and the diffs nested under a key. *)
Inductive ManagedElementDiff : Type :=
| Diff (additions deletions : list (string * json))
       (modifications : list (string * (json * json)))
       (nested : list (string * ManagedElementDiff)).

Definition empty_diff : ManagedElementDiff := Diff [] [] [] [].

(** Modelled from the spec: [is_empty] holds when there is no added, removed
    or changed leaf anywhere in the tree. *)
Fixpoint is_empty (d : ManagedElementDiff) : bool :=
  match d with
  | Diff a r m n =>
      match a, r, m with
      | [], [], [] =>
          (fix all_empty (n : list (string * ManagedElementDiff)) : bool :=
             match n with
             | [] => true
             | (_, d') :: n' => is_empty d' && all_empty n'
             end) n
      | _, _, _ => false
      end
  end.

(** Modelled from the spec: [join] merges two trees without loss. *)
Definition join (d1 d2 : ManagedElementDiff) : ManagedElementDiff :=
  match d1, d2 with
  | Diff a1 r1 m1 n1, Diff a2 r2 m2 n2 =>
      Diff (a1 ++ a2) (r1 ++ r2) (m1 ++ m2) (n1 ++ n2)
  end.

(** Modelled from the spec: [with_nested] puts the diff [inner] under [key]. *)
Definition with_nested (key : string) (inner d : ManagedElementDiff)
  : ManagedElementDiff :=
  match d with Diff a r m n => Diff a r m (n ++ [(key, inner)]) end.

(** The keys of [b] that [a] does not have. *)
Definition removed_entries (a b : dict json) : list (string * json) :=
  filter (fun kv => negb (dict_mem a (fst kv))) b.

(** Modelled from the spec: the diff contributed by key [key], bound to [a]
    on the configured side and to [b], if at all, on the other side.  A key
    absent on the other side is added; two dictionaries are compared in
    turn, the keys only the other side has being removed; any other two
    values that differ are a change. *)
Fixpoint diff_value (key : string) (a : json) (b : option json) {struct a}
  : ManagedElementDiff :=
  match b with
  | None => Diff [(key, a)] [] [] []
  | Some b' =>
      match a, b' with
      | JDict ea, JDict eb =>
          with_nested key
            ((fix present (es : list (string * json)) : ManagedElementDiff :=
                match es with
                | [] => Diff [] (removed_entries ea eb) [] []
                | (k, v) :: es' => join (diff_value k v (dict_get eb k)) (present es')
                end) ea)
            empty_diff
      | _, _ =>
          if json_eqb a b' then empty_diff else Diff [] [] [(key, (a, b'))] []
      end
  end.

Fixpoint diff_present (es : list (string * json)) (b : dict json)
  : ManagedElementDiff :=
  match es with
  | [] => empty_diff
  | (k, v) :: es' => join (diff_value k v (dict_get b k)) (diff_present es' b)
  end.

(** Modelled from the spec: [diff_dicts] compares two dictionaries key by
    key. *)
Definition diff_dicts (config_dict dst_dict : dict json) : ManagedElementDiff :=
  join (diff_present config_dict dst_dict)
       (Diff [] (removed_entries config_dict dst_dict) [] []).

(* ===================================================================== *)
(** ** Merging dictionaries ([dagster._utils.merger]) *)
(* ===================================================================== *)

(** Modelled from the spec: [deep_merge_dicts] is missing from the sources.
    It combines two dictionaries: a key of [from] that [onto] lacks is
    added; where both hold a dictionary the two are merged in turn;
    otherwise the value of [from] replaces the one of [onto]. *)
Fixpoint deep_merge_value (onto from : json) {struct from} : json :=
  match from, onto with
  | JDict fs, JDict os =>
      JDict
        ((fix merge (os : dict json) (fs : list (string * json)) : dict json :=
            match fs with
            | [] => os
            | (k, v) :: fs' =>
                merge (dict_set os k
                         (match dict_get os k with
                          | Some o => deep_merge_value o v
                          | None => v
                          end)) fs'
            end) os fs)
  | _, _ => from
  end.

Definition deep_merge_dicts (onto_dict from_dict : dict json) : dict json :=
  match deep_merge_value (JDict onto_dict) (JDict from_dict) with
  | JDict d => d
  | _ => onto_dict
  end.

(* ===================================================================== *)
(** ** Exceptions, calls on the resource, and the effect monad *)
(* ===================================================================== *)

Inductive exn : Type :=
| KeyError (key : json)            (* d[k] with k absent *)
| TypeError                        (* a JSON value of the wrong shape *)
| AttributeError (attr : string)   (* x.attr on an object without it *)
| CheckError                       (* check.not_none(None) *)
| PyException (msg : string)       (* raise Exception(msg) *)
| RemoteError (msg : string).      (* raised inside the AirbyteResource *)

Inductive outcome (A : Type) : Type :=
| Return (a : A)
| Raise (e : exn).
Arguments Return {A} a.
Arguments Raise {A} e.

(** What the reconciler asks of the [AirbyteResource]. *)
Inductive call : Type :=
| make_request (endpoint : string) (data : json)
| get_default_workspace
| get_source_definition_by_name (name : string) (workspace_id : json)
| get_destination_definition_by_name (name : string) (workspace_id : json)
| does_dest_support_normalization (definition_id workspace_id : json)
| get_source_schema (source_id : json)
| get_source_catalog_id (source_id : json).

(** A call changes the remote state: it is neither a listing nor one of the
    lookups of the resource. *)
Definition mutating (c : call) : bool :=
  match c with
  | make_request endpoint _ =>
      negb (existsb (String.eqb endpoint)
              ["/sources/list"; "/destinations/list"; "/connections/list";
               "/operations/list"])
  | _ => false
  end.

(** The environment of a run.  [remote] is the [AirbyteResource] in front of
    an Airbyte instance in state [World]: it answers a call with a JSON
    value or raises, and moves the instance to its next state.  The
    decoders of [dagster_airbyte.managed.types] and the predicate
    [is_basic_normalization_operation] of [dagster_airbyte.utils] are not
    part of the sources and are left open, as is the order in which CPython
    iterates over a [set] of names: [set_order] of the names put into the
    set visits each of them once. *)
Class Env : Type := {
  World : Type;
  remote : World -> call -> World * (string + json);
  set_order : list string -> list string;
  set_order_In : forall names x, In x (set_order names) <-> In x names;
  set_order_NoDup : forall names, NoDup (set_order names);
  source_from_api_json : json -> outcome InitializedAirbyteSource.t;
  destination_from_api_json : json -> outcome InitializedAirbyteDestination.t;
  connection_from_api_json :
    json -> dict InitializedAirbyteSource.t ->
    dict InitializedAirbyteDestination.t ->
    outcome InitializedAirbyteConnection.t;
  is_basic_normalization_operation : json -> bool
}.

(** A computation: from a state of the instance to the state reached, the
    calls made on the way in the order they were made, and the value
    returned or the exception raised.  Calls made before an exception are
    kept: nothing is rolled back. *)
Definition M {E : Env} (A : Type) : Type :=
  World -> World * list call * outcome A.

Definition ret {E : Env} {A} (a : A) : M A := fun w => (w, [], Return a).

Definition raise {E : Env} {A} (e : exn) : M A := fun w => (w, [], Raise e).

Definition bind {E : Env} {A B} (m : M A) (f : A -> M B) : M B :=
  fun w =>
    match m w with
    | (w1, t1, Return a) =>
        match f a w1 with (w2, t2, r) => (w2, t1 ++ t2, r) end
    | (w1, t1, Raise e) => (w1, t1, Raise e)
    end.

Definition lift {E : Env} {A} (o : outcome A) : M A := fun w => (w, [], o).

(** One call on the resource. *)
Definition perform {E : Env} (c : call) : M json :=
  fun w =>
    match remote w c with
    | (w', inr j) => (w', [c], Return j)
    | (w', inl msg) => (w', [c], Raise (RemoteError msg))
    end.

Declare Scope py_scope.
Delimit Scope py_scope with py.
Notation "x <- m ;; k" := (bind m (fun x => k))
  (at level 61, m at next level, right associativity) : py_scope.
Notation "' pat <- m ;; k" := (bind m (fun x => match x with pat => k end))
  (at level 61, pat pattern, m at next level, right associativity) : py_scope.
Notation "m ;; k" := (bind m (fun _ => k))
  (at level 61, right associativity) : py_scope.
Open Scope py_scope.

Definition trace_of {E : Env} {A} (r : World * list call * outcome A) : list call :=
  snd (fst r).
Definition outcome_of {E : Env} {A} (r : World * list call * outcome A) : outcome A :=
  snd r.
Definition world_of {E : Env} {A} (r : World * list call * outcome A) : World :=
  fst (fst r).

(** [for x in xs: acc = body(acc, x)]. *)
Fixpoint for_each {E : Env} {A S} (xs : list A) (body : S -> A -> M S) (acc : S)
  : M S :=
  match xs with
  | [] => ret acc
  | x :: xs' => acc' <- body acc x ;; for_each xs' body acc'
  end.

(** [check.not_none]. *)
Definition not_none {E : Env} (j : json) : M json :=
  match j with JNull => raise CheckError | _ => ret j end.

(** [d[key]] on a JSON value. *)
Definition getitem (j : json) (key : string) : outcome json :=
  match j with
  | JDict d =>
      match dict_get d key with
      | Some v => Return v
      | None => Raise (KeyError (JStr key))
      end
  | _ => Raise TypeError
  end.

(** [d.get(key, default)] on a JSON value. *)
Definition get_default (j : json) (key : string) (default : json) : outcome json :=
  match j with
  | JDict d =>
      match dict_get d key with Some v => Return v | None => Return default end
  | _ => Raise (AttributeError "get")
  end.

(** The items a [for] loop, or a comprehension, draws from a JSON value. *)
Definition iterate (j : json) : outcome (list json) :=
  match j with
  | JList l => Return l
  | JDict d => Return (map (fun kv => JStr (fst kv)) d)
  | JStr s => Return (map (fun c => JStr (String c EmptyString)) (list_ascii_of_string s))
  | _ => Raise TypeError
  end.

(** A name read from a response is a [str]; names of any other type are
    outside the model. *)
Definition as_str (j : json) : outcome string :=
  match j with JStr s => Return s | _ => Raise TypeError end.

(** [mapping[key]] on a dictionary of entities. *)
Definition index {E : Env} {V} (d : dict V) (key : string) : M V :=
  match dict_get d key with Some v => ret v | None => raise (KeyError (JStr key)) end.

(** [mapping[key]] and [key in mapping] when the key is a value read from a
    response: a list or a dictionary is not hashable, and a key that is not
    a [str] is a key the mapping does not have. *)
Definition index_json {V} (d : dict V) (key : json) : outcome V :=
  match key with
  | JStr k =>
      match dict_get d k with Some v => Return v | None => Raise (KeyError key) end
  | JList _ | JDict _ => Raise TypeError
  | _ => Raise (KeyError key)
  end.

Definition contains {V} (d : dict V) (key : json) : outcome bool :=
  match key with
  | JStr k => Return (dict_mem d k)
  | JList _ | JDict _ => Raise TypeError
  | _ => Return false
  end.

(** Sequencing of pure steps that may raise. *)
Definition and_then {A B} (o : outcome A) (f : A -> outcome B) : outcome B :=
  match o with Return a => f a | Raise e => Raise e end.

(** [x.attr] where [x] may be [None]. *)
Definition attr {E : Env} {A} (x : option A) (name : string) : M A :=
  match x with Some a => ret a | None => raise (AttributeError name) end.

Definition is_some {A} (x : option A) : bool :=
  match x with Some _ => true | None => false end.

(* ===================================================================== *)
(** ** [reconciliation.py] *)
(* ===================================================================== *)

(** [source_stream["stream"]["name"]]. *)
Definition stream_name (source_stream : json) : outcome json :=
  and_then (getitem source_stream "stream") (fun s => getitem s "name").

Definition sync_mode_json (config : AirbyteSyncMode.t) : dict json :=
  [("config",
    JDict [("syncMode", JStr (fst (AirbyteSyncMode.value config)));
           ("destinationSyncMode", JStr (snd (AirbyteSyncMode.value config)))])].

Definition gen_configured_stream_json (source_stream : json)
    (user_stream_config : dict AirbyteSyncMode.t) : outcome json :=
  and_then (stream_name source_stream) (fun name =>
  and_then (index_json user_stream_config name) (fun config =>
  match source_stream with
  | JDict stream => Return (JDict (deep_merge_dicts stream (sync_mode_json config)))
  | _ => Raise TypeError
  end)).

Definition diff_sources (config_src curr_src : option AirbyteSource.t)
  : ManagedElementDiff :=
  let diff :=
    diff_dicts
      (match config_src with
       | Some s => AirbyteSource.source_configuration s | None => [] end)
      (match curr_src with
       | Some s => AirbyteSource.source_configuration s | None => [] end) in
  if negb (is_empty diff) then
    let name :=
      match config_src with
      | Some s => AirbyteSource.name s
      | None =>
          match curr_src with Some s => AirbyteSource.name s | None => "Unknown" end
      end in
    with_nested name diff empty_diff
  else empty_diff.

Definition diff_destinations (config_dst curr_dst : option AirbyteDestination.t)
  : ManagedElementDiff :=
  let diff :=
    diff_dicts
      (match config_dst with
       | Some d => AirbyteDestination.destination_configuration d | None => [] end)
      (match curr_dst with
       | Some d => AirbyteDestination.destination_configuration d | None => [] end) in
  if negb (is_empty diff) then
    let name :=
      match config_dst with
      | Some d => AirbyteDestination.name d
      | None =>
          match curr_dst with
          | Some d => AirbyteDestination.name d | None => "Unknown" end
      end in
    with_nested name diff empty_diff
  else empty_diff.

Definition conn_dict (conn : option AirbyteConnection.t) : dict json :=
  match conn with
  | None => []
  | Some conn =>
      [("source",
        JStr (match AirbyteConnection.source conn with
              | Some s => AirbyteSource.name s | None => "Unknown" end));
       ("destination",
        JStr (match AirbyteConnection.destination conn with
              | Some d => AirbyteDestination.name d | None => "Unknown" end));
       ("normalize data",
        match AirbyteConnection.normalize_data conn with
        | Some b => JBool b | None => JNull end);
       ("streams",
        JDict (map (fun kv => (fst kv, JStr (AirbyteSyncMode.name (snd kv))))
                   (AirbyteConnection.stream_config conn)))]
  end.

Definition diff_connections (config_conn curr_conn : option AirbyteConnection.t)
  : ManagedElementDiff :=
  let diff := diff_dicts (conn_dict config_conn) (conn_dict curr_conn) in
  if negb (is_empty diff) then
    let name :=
      match config_conn with
      | Some c => AirbyteConnection.name c
      | None =>
          match curr_conn with
          | Some c => AirbyteConnection.name c | None => "Unknown" end
      end in
    with_nested name diff empty_diff
  else empty_diff.

(** The list comprehension of [reconcile_connections_post] that builds
    [configured_streams]: the streams of the discovered catalog whose name
    is a key of the connection's [stream_config], each one through
    [gen_configured_stream_json]. *)
Fixpoint configured_streams_of (base_streams : list json)
    (stream_config : dict AirbyteSyncMode.t) : outcome (list json) :=
  match base_streams with
  | [] => Return []
  | stream :: rest =>
      and_then (stream_name stream) (fun name =>
      and_then (contains stream_config name) (fun selected =>
      if selected then
        and_then (gen_configured_stream_json stream stream_config) (fun configured =>
        and_then (configured_streams_of rest stream_config) (fun others =>
        Return (configured :: others)))
      else configured_streams_of rest stream_config))
  end.

Section Reconciliation.
Context {E : Env}.

(** [if not dry_run: res.make_request(endpoint=..., data=...)], the
    response dropped. *)
Definition unless_dry_run (dry_run : bool) (endpoint : string) (data : json)
  : M unit :=
  if dry_run then ret tt else (perform (make_request endpoint data) ;; ret tt).

(** [cast(..., check.not_none(res.make_request(endpoint=..., data=...)))]. *)
Definition request (endpoint : string) (data : json) : M json :=
  r <- perform (make_request endpoint data) ;; not_none r.

(** [{x["name"]: from_api_json(x) for x in raw.get(field, [])}]. *)
Definition decode_by_name {V} (raw : json) (field : string)
    (from_api_json : json -> outcome V) : M (dict V) :=
  listed <- lift (get_default raw field (JList [])) ;;
  items <- lift (iterate listed) ;;
  for_each items
    (fun decoded item =>
       name <- lift (and_then (getitem item "name") as_str) ;;
       entity <- lift (from_api_json item) ;;
       ret (dict_set decoded name entity))
    [].

(** The body of the loop of [reconcile_sources], from the accumulated
    [(initialized_sources, diff)] to their next values. *)
Definition reconcile_sources_body
    (config_sources : dict AirbyteSource.t)
    (existing_sources : dict InitializedAirbyteSource.t)
    (workspace_id : json) (dry_run should_delete : bool)
    (acc : dict InitializedAirbyteSource.t * ManagedElementDiff)
    (source_name : string)
  : M (dict InitializedAirbyteSource.t * ManagedElementDiff) :=
  let '(initialized_sources, diff) := acc in
  let configured_source := dict_get config_sources source_name in
  let existing_source := dict_get existing_sources source_name in
  match should_delete, existing_source, configured_source with
  | false, Some existing, None =>
      (* not mentioned in the user config: kept as it is *)
      ret (dict_set initialized_sources source_name existing, diff)
  | _, _, _ =>
      let diff :=
        join diff
          (diff_sources configured_source
             (option_map InitializedAirbyteSource.source existing_source)) in
      '(initialized_sources, existing_source) <-
        match existing_source with
        | Some existing =>
            if match configured_source with
               | None => true
               | Some configured =>
                   source_must_be_recreated configured
                     (InitializedAirbyteSource.source existing)
               end
            then
              unless_dry_run dry_run "/sources/delete"
                (JDict [("sourceId", InitializedAirbyteSource.source_id existing)]) ;;
              ret (dict_set initialized_sources source_name existing, None)
            else ret (initialized_sources, Some existing)
        | None => ret (initialized_sources, None)
        end ;;
      match configured_source with
      | None => ret (initialized_sources, diff)
      | Some configured =>
          defn_id <-
            (found <- perform (get_source_definition_by_name
                                 (AirbyteSource.source_type configured) workspace_id) ;;
             not_none found) ;;
          let base_source_defn_dict :=
            [("name", JStr (AirbyteSource.name configured));
             ("connectionConfiguration",
              JDict (AirbyteSource.source_configuration configured))] in
          source_id <-
            match existing_source with
            | Some existing =>
                let source_id := InitializedAirbyteSource.source_id existing in
                unless_dry_run dry_run "/sources/update"
                  (JDict (("sourceId", source_id) :: base_source_defn_dict)) ;;
                ret source_id
            | None =>
                if dry_run then ret (JStr "")
                else
                  create_result <-
                    request "/sources/create"
                      (JDict (("sourceDefinitionId", defn_id)
                              :: ("workspaceId", workspace_id)
                              :: base_source_defn_dict)) ;;
                  lift (getitem create_result "sourceId")
            end ;;
          ret (dict_set initialized_sources source_name
                 (InitializedAirbyteSource.mk configured source_id defn_id),
               diff)
      end
  end.

Definition reconcile_sources
    (config_sources : dict AirbyteSource.t)
    (existing_sources : dict InitializedAirbyteSource.t)
    (workspace_id : json) (dry_run should_delete : bool)
  : M (dict InitializedAirbyteSource.t * ManagedElementDiff) :=
  for_each
    (set_order (dict_keys config_sources ++ dict_keys existing_sources))
    (reconcile_sources_body config_sources existing_sources workspace_id
       dry_run should_delete)
    ([], empty_diff).

(** The body of the loop of [reconcile_destinations]. *)
Definition reconcile_destinations_body
    (config_destinations : dict AirbyteDestination.t)
    (existing_destinations : dict InitializedAirbyteDestination.t)
    (workspace_id : json) (dry_run should_delete : bool)
    (acc : dict InitializedAirbyteDestination.t * ManagedElementDiff)
    (destination_name : string)
  : M (dict InitializedAirbyteDestination.t * ManagedElementDiff) :=
  let '(initialized_destinations, diff) := acc in
  let configured_destination := dict_get config_destinations destination_name in
  let existing_destination := dict_get existing_destinations destination_name in
  match should_delete, existing_destination, configured_destination with
  | false, Some existing, None =>
      ret (dict_set initialized_destinations destination_name existing, diff)
  | _, _, _ =>
      let diff :=
        join diff
          (diff_destinations configured_destination
             (option_map InitializedAirbyteDestination.destination
                existing_destination)) in
      let recreate :=
        match existing_destination with
        | Some existing =>
            match configured_destination with
            | None => true
            | Some configured =>
                destination_must_be_recreated configured
                  (InitializedAirbyteDestination.destination existing)
            end
        | None => false
        end in
      match existing_destination, recreate, configured_destination with
      | Some existing, true, _ =>
          unless_dry_run dry_run "/destinations/delete"
            (JDict [("destinationId",
                     InitializedAirbyteDestination.destination_id existing)]) ;;
          ret (dict_set initialized_destinations destination_name existing, diff)
      | _, _, Some configured =>
          (* the [elif] branch *)
          defn_id <-
            perform (get_destination_definition_by_name
                       (AirbyteDestination.destination_type configured)
                       workspace_id) ;;
          let base_destination_defn_dict :=
            [("name", JStr (AirbyteDestination.name configured));
             ("connectionConfiguration",
              JDict (AirbyteDestination.destination_configuration configured))] in
          destination_id <-
            match existing_destination with
            | Some existing =>
                let destination_id :=
                  InitializedAirbyteDestination.destination_id existing in
                unless_dry_run dry_run "/destinations/update"
                  (JDict (("destinationId", destination_id)
                          :: base_destination_defn_dict)) ;;
                ret destination_id
            | None =>
                if dry_run then ret (JStr "")
                else
                  create_result <-
                    request "/destinations/create"
                      (JDict (("destinationDefinitionId", defn_id)
                              :: ("workspaceId", workspace_id)
                              :: base_destination_defn_dict)) ;;
                  lift (getitem create_result "destinationId")
            end ;;
          ret (dict_set initialized_destinations destination_name
                 (InitializedAirbyteDestination.mk configured destination_id defn_id),
               diff)
      | _, _, None => ret (initialized_destinations, diff)
      end
  end.

Definition reconcile_destinations
    (config_destinations : dict AirbyteDestination.t)
    (existing_destinations : dict InitializedAirbyteDestination.t)
    (workspace_id : json) (dry_run should_delete : bool)
  : M (dict InitializedAirbyteDestination.t * ManagedElementDiff) :=
  for_each
    (set_order (dict_keys config_destinations ++ dict_keys existing_destinations))
    (reconcile_destinations_body config_destinations existing_destinations
       workspace_id dry_run should_delete)
    ([], empty_diff).

(** [next((op for op in operations if is_basic_normalization_operation(op)),
    None)]. *)
Definition first_basic_normalization (operations : list json) : json :=
  match find is_basic_normalization_operation operations with
  | Some operation => operation
  | None => JNull
  end.

(** The first half of [reconcile_normalization]: the id of the basic
    normalization operation the connection already has, or [None]. *)
Definition existing_basic_norm_op_id (existing_connection_id : json) : M json :=
  if truthy existing_connection_id then
    operations <-
      request "/operations/list" (JDict [("connectionId", existing_connection_id)]) ;;
    existing_basic_norm_op <-
      lift (and_then (and_then (getitem operations "operations") iterate)
              (fun listed => Return (first_basic_normalization listed))) ;;
    if truthy existing_basic_norm_op
    then lift (getitem existing_basic_norm_op "operationId")
    else ret JNull
  else ret JNull.

Definition normalization_unsupported_msg
    (destination : InitializedAirbyteDestination.t) : string :=
  "Destination "
  ++ AirbyteDestination.name (InitializedAirbyteDestination.destination destination)
  ++ " does not support normalization.".

(** [destination.destination_definition_id and
    res.does_dest_support_normalization(...)]. *)
Definition destination_supports_normalization
    (destination : InitializedAirbyteDestination.t) (workspace_id : json) : M json :=
  let definition_id :=
    InitializedAirbyteDestination.destination_definition_id destination in
  if truthy definition_id
  then perform (does_dest_support_normalization definition_id workspace_id)
  else ret definition_id.

Definition reconcile_normalization
    (existing_connection_id : json)
    (destination : InitializedAirbyteDestination.t)
    (normalization_config : option bool)
    (workspace_id : json) : M json :=
  existing_id <- existing_basic_norm_op_id existing_connection_id ;;
  match normalization_config with
  | Some false => ret JNull
  | _ =>
      supported <- destination_supports_normalization destination workspace_id ;;
      if truthy supported then
        if truthy existing_id then ret existing_id
        else
          created <-
            request "/operations/create"
              (JDict [("workspaceId", workspace_id);
                      ("name", JStr "Normalization");
                      ("operatorConfiguration",
                       JDict [("operatorType", JStr "normalization");
                              ("normalization", JDict [("option", JStr "basic")])])]) ;;
          lift (getitem created "operationId")
      else
        match normalization_config with
        | Some true => raise (PyException (normalization_unsupported_msg destination))
        | _ => ret JNull
        end
  end.

(** The connections the instance lists, decoded against the given sources
    and destinations and keyed by name. *)
Definition fetch_connections
    (sources : dict InitializedAirbyteSource.t)
    (destinations : dict InitializedAirbyteDestination.t)
    (workspace_id : json) : M (dict InitializedAirbyteConnection.t) :=
  existing_connections_raw <-
    request "/connections/list" (JDict [("workspaceId", workspace_id)]) ;;
  decode_by_name existing_connections_raw "connections"
    (fun connection_json =>
       connection_from_api_json connection_json sources destinations).

(** The body of the loop of [reconcile_connections_pre]. *)
Definition reconcile_connections_pre_body
    (config_connections : dict AirbyteConnection.t)
    (existing_connections : dict InitializedAirbyteConnection.t)
    (dry_run should_delete : bool)
    (diff : ManagedElementDiff) (conn_name : string) : M ManagedElementDiff :=
  let config_conn := dict_get config_connections conn_name in
  let existing_conn := dict_get existing_connections conn_name in
  if negb should_delete && negb (is_some config_conn) then ret diff
  else
    let diff :=
      join diff
        (diff_connections config_conn
           (option_map InitializedAirbyteConnection.connection existing_conn)) in
    match existing_conn with
    | Some existing =>
        if match config_conn with
           | None => true
           | Some config =>
               connection_must_be_recreated config
                 (InitializedAirbyteConnection.connection existing)
           end
        then
          unless_dry_run dry_run "/connections/delete"
            (JDict [("connectionId",
                     InitializedAirbyteConnection.connection_id existing)]) ;;
          ret diff
        else ret diff
    | None => ret diff
    end.

Definition reconcile_connections_pre
    (config_connections : dict AirbyteConnection.t)
    (existing_sources : dict InitializedAirbyteSource.t)
    (existing_destinations : dict InitializedAirbyteDestination.t)
    (workspace_id : json) (dry_run should_delete : bool) : M ManagedElementDiff :=
  existing_connections <-
    fetch_connections existing_sources existing_destinations workspace_id ;;
  for_each
    (set_order (dict_keys config_connections ++ dict_keys existing_connections))
    (reconcile_connections_pre_body config_connections existing_connections
       dry_run should_delete)
    empty_diff.

(** [existing_connections.get("name", {}).get("connectionId")]: the key is
    the literal ["name"].  A connection of that name is an
    [InitializedAirbyteConnection], which has no [get]. *)
Definition looked_up_connection_id
    (existing_connections : dict InitializedAirbyteConnection.t) : M json :=
  match dict_get existing_connections "name" with
  | Some _ => raise (AttributeError "get")
  | None => ret JNull
  end.

(** Lines 500-534 of the loop of [reconcile_connections_post]: the
    normalization operation, the configured streams, and from them
    [connection_base_json]. *)
Definition connection_base_json
    (existing_connections : dict InitializedAirbyteConnection.t)
    (init_sources : dict InitializedAirbyteSource.t)
    (init_dests : dict InitializedAirbyteDestination.t)
    (workspace_id : json) (dry_run : bool)
    (conn_name : string) (config_conn : AirbyteConnection.t) : M (dict json) :=
  normalization_operation_id <-
    (if dry_run then ret JNull
     else
       configured <- attr (AirbyteConnection.destination config_conn) "name" ;;
       destination <- index init_dests (AirbyteDestination.name configured) ;;
       existing_connection_id <- looked_up_connection_id existing_connections ;;
       reconcile_normalization existing_connection_id destination
         (AirbyteConnection.normalize_data config_conn) workspace_id) ;;
  configured_streams <-
    (if dry_run then ret []
     else
       configured <- attr (AirbyteConnection.source config_conn) "name" ;;
       source <- index init_sources (AirbyteSource.name configured) ;;
       schema <- perform (get_source_schema
                            (InitializedAirbyteSource.source_id source)) ;;
       base_streams <-
         lift (and_then (and_then (getitem schema "catalog")
                           (fun catalog => getitem catalog "streams")) iterate) ;;
       lift (configured_streams_of base_streams
               (AirbyteConnection.stream_config config_conn))) ;;
  ret [("name", JStr conn_name);
       ("namespaceDefinition", JStr "source");
       ("namespaceFormat", JStr "${SOURCE_NAMESPACE}");
       ("prefix", JStr "");
       ("operationIds",
        JList (if truthy normalization_operation_id
               then [normalization_operation_id] else []));
       ("syncCatalog", JDict [("streams", JList configured_streams)]);
       ("scheduleType", JStr "manual");
       ("status", JStr "active")].

(** Lines 536-559: the update of the connection that exists, or the
    creation of the one that does not. *)
Definition send_connection
    (init_sources : dict InitializedAirbyteSource.t)
    (init_dests : dict InitializedAirbyteDestination.t)
    (dry_run : bool) (conn_name : string) (config_conn : AirbyteConnection.t)
    (existing_conn : option InitializedAirbyteConnection.t)
    (base_json : dict json) : M unit :=
  match existing_conn with
  | Some existing =>
      if dry_run then ret tt
      else
        source <- index init_sources conn_name ;;
        catalog_id <- perform (get_source_catalog_id
                                 (InitializedAirbyteSource.source_id source)) ;;
        perform (make_request "/connections/update"
                   (JDict (base_json
                           ++ [("sourceCatalogId", catalog_id);
                               ("connectionId",
                                InitializedAirbyteConnection.connection_id existing)]))) ;;
        ret tt
  | None =>
      if dry_run then ret tt
      else
        configured_source <- attr (AirbyteConnection.source config_conn) "name" ;;
        source <- index init_sources (AirbyteSource.name configured_source) ;;
        configured_destination <-
          attr (AirbyteConnection.destination config_conn) "name" ;;
        destination <-
          index init_dests (AirbyteDestination.name configured_destination) ;;
        catalog_id <- perform (get_source_catalog_id
                                 (InitializedAirbyteSource.source_id source)) ;;
        perform (make_request "/connections/create"
                   (JDict (base_json
                           ++ [("sourceCatalogId", catalog_id);
                               ("sourceId", InitializedAirbyteSource.source_id source);
                               ("destinationId",
                                InitializedAirbyteDestination.destination_id
                                  destination)]))) ;;
        ret tt
  end.

(** The body of the loop of [reconcile_connections_post]. *)
Definition reconcile_connections_post_body
    (existing_connections : dict InitializedAirbyteConnection.t)
    (init_sources : dict InitializedAirbyteSource.t)
    (init_dests : dict InitializedAirbyteDestination.t)
    (workspace_id : json) (dry_run : bool)
    (_ : unit) (item : string * AirbyteConnection.t) : M unit :=
  let '(conn_name, config_conn) := item in
  let existing_conn := dict_get existing_connections conn_name in
  base_json <-
    connection_base_json existing_connections init_sources init_dests
      workspace_id dry_run conn_name config_conn ;;
  send_connection init_sources init_dests dry_run conn_name config_conn
    existing_conn base_json.

Definition reconcile_connections_post
    (config_connections : dict AirbyteConnection.t)
    (init_sources : dict InitializedAirbyteSource.t)
    (init_dests : dict InitializedAirbyteDestination.t)
    (workspace_id : json) (dry_run : bool) : M unit :=
  existing_connections <- fetch_connections init_sources init_dests workspace_id ;;
  for_each config_connections
    (reconcile_connections_post_body existing_connections init_sources init_dests
       workspace_id dry_run)
    tt.

(** The three dictionary comprehensions at the head of [reconcile_config]. *)
Definition config_connections_of (objects : list AirbyteConnection.t)
  : dict AirbyteConnection.t :=
  dict_of_pairs (map (fun conn => (AirbyteConnection.name conn, conn)) objects).

Definition config_sources_of (objects : list AirbyteConnection.t)
  : M (dict AirbyteSource.t) :=
  for_each objects
    (fun sources conn =>
       source <- attr (AirbyteConnection.source conn) "name" ;;
       ret (dict_set sources (AirbyteSource.name source) source))
    [].

Definition config_dests_of (objects : list AirbyteConnection.t)
  : M (dict AirbyteDestination.t) :=
  for_each objects
    (fun dests conn =>
       destination <- attr (AirbyteConnection.destination conn) "name" ;;
       ret (dict_set dests (AirbyteDestination.name destination) destination))
    [].

(** Lines 287-313 of [reconcile_config]: the configured entities, the
    workspace and the sources and destinations the instance has. *)
Record observed : Type := {
  config_connections : dict AirbyteConnection.t;
  config_sources : dict AirbyteSource.t;
  config_dests : dict AirbyteDestination.t;
  workspace_id : json;
  existing_sources : dict InitializedAirbyteSource.t;
  existing_dests : dict InitializedAirbyteDestination.t
}.

Definition observe (objects : list AirbyteConnection.t) : M observed :=
  let config_connections := config_connections_of objects in
  config_sources <- config_sources_of objects ;;
  config_dests <- config_dests_of objects ;;
  workspace_id <- perform get_default_workspace ;;
  existing_sources_raw <-
    request "/sources/list" (JDict [("workspaceId", workspace_id)]) ;;
  existing_dests_raw <-
    request "/destinations/list" (JDict [("workspaceId", workspace_id)]) ;;
  existing_sources <-
    decode_by_name existing_sources_raw "sources" source_from_api_json ;;
  existing_dests <-
    decode_by_name existing_dests_raw "destinations" destination_from_api_json ;;
  ret {| config_connections := config_connections;
         config_sources := config_sources;
         config_dests := config_dests;
         workspace_id := workspace_id;
         existing_sources := existing_sources;
         existing_dests := existing_dests |}.

(** Lines 315-346 of [reconcile_config]: the four phases, in this order. *)
Definition reconcile_observed (o : observed) (dry_run should_delete : bool)
  : M ManagedElementDiff :=
  connections_diff <-
    reconcile_connections_pre (config_connections o) (existing_sources o)
      (existing_dests o) (workspace_id o) dry_run should_delete ;;
  '(all_sources, sources_diff) <-
    reconcile_sources (config_sources o) (existing_sources o) (workspace_id o)
      dry_run should_delete ;;
  '(all_dests, dests_diff) <-
    reconcile_destinations (config_dests o) (existing_dests o) (workspace_id o)
      dry_run should_delete ;;
  reconcile_connections_post (config_connections o) all_sources all_dests
    (workspace_id o) dry_run ;;
  ret (join (join (join empty_diff sources_diff) dests_diff) connections_diff).

(** The request cache of [res.cache_requests()] lives inside the resource
    and does not show in the calls made on it. *)
Definition reconcile_config (objects : list AirbyteConnection.t)
    (dry_run should_delete : bool) : M ManagedElementDiff :=
  o <- observe objects ;;
  reconcile_observed o dry_run should_delete.

(** [AirbyteManagedElementReconciler.check] and [.apply]. *)
Definition check (connections : list AirbyteConnection.t)
    (delete_unmentioned_resources : bool) : M ManagedElementDiff :=
  reconcile_config connections true delete_unmentioned_resources.

Definition apply (connections : list AirbyteConnection.t)
    (delete_unmentioned_resources : bool) : M ManagedElementDiff :=
  reconcile_config connections false delete_unmentioned_resources.

End Reconciliation.

(* ===================================================================== *)
(** ** What is said of runs *)
(* ===================================================================== *)

(** The exception a [raise Exception(...)] of the reconciler makes, as
    opposed to one that comes out of the resource or out of a response of
    the wrong shape. *)
Definition config_error (e : exn) : bool :=
  match e with PyException _ => true | _ => false end.

Definition pure_raises_no_config_error {A} (o : outcome A) : Prop :=
  forall e, o = Raise e -> config_error e = false.

Section Properties.
Context {E : Env}.

(** Every call a computation makes, from any state, satisfies [P]. *)
Definition all_calls {A} (P : call -> Prop) (m : M A) : Prop :=
  forall w, Forall P (trace_of (m w)).

(** Whenever the computation returns, what it returns satisfies [P]. *)
Definition returns {A} (P : A -> Prop) (m : M A) : Prop :=
  forall w w' t a, m w = (w', t, Return a) -> P a.

(** The computation raises no configuration error, from any state. *)
Definition raises_no_config_error {A} (m : M A) : Prop :=
  forall w e, outcome_of (m w) = Raise e -> config_error e = false.

End Properties.

(** The calls of a dry run: the default workspace, the three listings and
    the lookups of definition ids. *)
Definition lookup_or_listing (c : call) : bool :=
  match c with
  | make_request endpoint _ =>
      existsb (String.eqb endpoint)
        ["/sources/list"; "/destinations/list"; "/connections/list"]
  | get_default_workspace
  | get_source_definition_by_name _ _
  | get_destination_definition_by_name _ _ => true
  | _ => false
  end.

Definition read_only (c : call) : Prop :=
  mutating c = false /\ lookup_or_listing c = true.

Definition requests (endpoints : list string) (c : call) : bool :=
  match c with
  | make_request endpoint _ => existsb (String.eqb endpoint) endpoints
  | _ => false
  end.

(** The calls each phase of [reconcile_config] can make. *)
Definition in_observe (c : call) : bool :=
  match c with
  | get_default_workspace => true
  | _ => requests ["/sources/list"; "/destinations/list"] c
  end.

Definition in_pre (c : call) : bool :=
  requests ["/connections/list"; "/connections/delete"] c.

Definition in_sources (c : call) : bool :=
  match c with
  | get_source_definition_by_name _ _ => true
  | _ => requests ["/sources/delete"; "/sources/update"; "/sources/create"] c
  end.

Definition in_destinations (c : call) : bool :=
  match c with
  | get_destination_definition_by_name _ _ => true
  | _ =>
      requests ["/destinations/delete"; "/destinations/update";
                "/destinations/create"] c
  end.

Definition in_post (c : call) : bool :=
  match c with
  | does_dest_support_normalization _ _
  | get_source_schema _
  | get_source_catalog_id _ => true
  | _ =>
      requests ["/connections/list"; "/operations/list"; "/operations/create";
                "/connections/update"; "/connections/create"] c
  end.








Section Support.
Context {E : Env}.

(** The destination does not support normalization, as the reconciler
    finds out in state [w]. *)
Definition unsupported (destination : InitializedAirbyteDestination.t)
    (workspace_id : json) (w : World) : Prop :=
  exists w' t answer,
    destination_supports_normalization destination workspace_id w
    = (w', t, Return answer)
    /\ truthy answer = false.

End Support.

(** [StreamCatalogMerger.merge] in the words of the specification: the
    discovered streams whose name is a key of [stream_config], in the order
    of the catalog, each combined with the configured pair. *)
Definition mentioned (stream_config : dict AirbyteSyncMode.t) (stream : json) : bool :=
  match stream_name stream with
  | Return (JStr name) => dict_mem stream_config name
  | _ => false
  end.

Definition with_sync_modes (stream_config : dict AirbyteSyncMode.t) (stream : json)
  : json :=
  match stream, stream_name stream with
  | JDict descriptor, Return (JStr name) =>
      match dict_get stream_config name with
      | Some config => JDict (deep_merge_dicts descriptor (sync_mode_json config))
      | None => stream
      end
  | _, _ => stream
  end.

Definition merge (discovered_streams : list json)
    (stream_config : dict AirbyteSyncMode.t) : list json :=
  map (with_sync_modes stream_config) (filter (mentioned stream_config) discovered_streams).

(** An update request for the connection of this name. *)
Definition updates_connection (conn_name : string) (c : call) : bool :=
  match c with
  | make_request endpoint data =>
      String.eqb endpoint "/connections/update"
      && match getitem data "name" with
         | Return (JStr name) => String.eqb name conn_name
         | _ => false
         end
  | _ => false
  end.

(** The calls made while [connection_base_json] is put together. *)
Definition in_prepare (c : call) : bool :=
  match c with
  | does_dest_support_normalization _ _ | get_source_schema _ => true
  | _ => requests ["/operations/list"; "/operations/create"] c
  end.

Definition delete_source (existing : InitializedAirbyteSource.t) : call :=
  make_request "/sources/delete"
    (JDict [("sourceId", InitializedAirbyteSource.source_id existing)]).

Definition delete_destination (existing : InitializedAirbyteDestination.t) : call :=
  make_request "/destinations/delete"
    (JDict [("destinationId", InitializedAirbyteDestination.destination_id existing)]).

(** A create or delete request for a source, a destination or a
    connection. *)
Definition creates_or_deletes (c : call) : bool :=
  requests ["/sources/create"; "/sources/delete";
            "/destinations/create"; "/destinations/delete";
            "/connections/create"; "/connections/delete"] c.

(** The configurations are Python dictionaries: no key occurs twice. *)
Definition configuration_wf {E : Env} (o : observed) : bool :=
  forallb (fun kv => dict_wf (AirbyteSource.source_configuration (snd kv)))
          (config_sources o)
  && forallb (fun kv => dict_wf (AirbyteDestination.destination_configuration (snd kv)))
             (config_dests o)
  && forallb (fun kv => unique_keys (dict_keys (AirbyteConnection.stream_config (snd kv))))
             (config_connections o).

Definition list_connections (workspace_id : json) : call :=
  make_request "/connections/list" (JDict [("workspaceId", workspace_id)]).

(** The instance, observed in state [w], matches the configuration exactly:
    it has the configured sources, destinations and connections and no
    others, each equal to its configuration. *)
Definition converged {E : Env} (o : observed) (w : World) : Prop :=
  (forall name,
      option_map InitializedAirbyteSource.source (dict_get (existing_sources o) name)
      = dict_get (config_sources o) name)
  /\ (forall name,
        option_map InitializedAirbyteDestination.destination
          (dict_get (existing_dests o) name)
        = dict_get (config_dests o) name)
  /\ (exists w' t existing_connections,
        fetch_connections (existing_sources o) (existing_dests o) (workspace_id o) w
        = (w', t, Return existing_connections)
        /\ forall name,
             option_map InitializedAirbyteConnection.connection
               (dict_get existing_connections name)
             = dict_get (config_connections o) name).

(** The run finds the connections it found before: in the state in which
    the last phase asks for the connections, having gone from [w] through
    the first phase and the reconciliation of the sources and of the
    destinations, the instance answers as it answers in [w]. *)
Definition listing_kept {E : Env} (o : observed) (should_delete : bool) (w : World)
  : Prop :=
  forall w2 t2 connections_diff w3 t3 sources w4 t4 dests,
    reconcile_connections_pre (config_connections o) (existing_sources o)
      (existing_dests o) (workspace_id o) false should_delete w
    = (w2, t2, Return connections_diff) ->
    reconcile_sources (config_sources o) (existing_sources o) (workspace_id o)
      false should_delete w2 = (w3, t3, Return sources) ->
    reconcile_destinations (config_dests o) (existing_dests o) (workspace_id o)
      false should_delete w3 = (w4, t4, Return dests) ->
    snd (remote w4 (list_connections (workspace_id o)))
    = snd (remote w (list_connections (workspace_id o))).

(** The update request for an observed source or destination, with the
    name and the configuration it is configured with. *)
Definition update_source (existing : InitializedAirbyteSource.t)
    (configured : AirbyteSource.t) : call :=
  make_request "/sources/update"
    (JDict [("sourceId", InitializedAirbyteSource.source_id existing);
            ("name", JStr (AirbyteSource.name configured));
            ("connectionConfiguration",
             JDict (AirbyteSource.source_configuration configured))]).

Definition update_destination (existing : InitializedAirbyteDestination.t)
    (configured : AirbyteDestination.t) : call :=
  make_request "/destinations/update"
    (JDict [("destinationId", InitializedAirbyteDestination.destination_id existing);
            ("name", JStr (AirbyteDestination.name configured));
            ("connectionConfiguration",
             JDict (AirbyteDestination.destination_configuration configured))]).

(* ===================================================================== *)
(** ** The diff a run reports *)
(* ===================================================================== *)

(** What one turn of the loop of [reconcile_sources] adds to the diff. *)
Definition sources_diff_step
    (config_sources : dict AirbyteSource.t)
    (existing_sources : dict InitializedAirbyteSource.t) (should_delete : bool)
    (diff : ManagedElementDiff) (source_name : string) : ManagedElementDiff :=
  match should_delete, dict_get existing_sources source_name,
        dict_get config_sources source_name with
  | false, Some _, None => diff
  | _, existing, configured =>
      join diff
        (diff_sources configured (option_map InitializedAirbyteSource.source existing))
  end.

(** What one turn of the loop of [reconcile_destinations] adds to the diff. *)
Definition destinations_diff_step
    (config_destinations : dict AirbyteDestination.t)
    (existing_destinations : dict InitializedAirbyteDestination.t)
    (should_delete : bool)
    (diff : ManagedElementDiff) (destination_name : string) : ManagedElementDiff :=
  match should_delete, dict_get existing_destinations destination_name,
        dict_get config_destinations destination_name with
  | false, Some _, None => diff
  | _, existing, configured =>
      join diff
        (diff_destinations configured
           (option_map InitializedAirbyteDestination.destination existing))
  end.

(** What one turn of the loop of [reconcile_connections_pre] adds to the
    diff. *)
Definition connections_diff_step
    (config_connections : dict AirbyteConnection.t)
    (existing_connections : dict InitializedAirbyteConnection.t)
    (should_delete : bool)
    (diff : ManagedElementDiff) (conn_name : string) : ManagedElementDiff :=
  if negb should_delete && negb (is_some (dict_get config_connections conn_name))
  then diff
  else
    join diff
      (diff_connections (dict_get config_connections conn_name)
         (option_map InitializedAirbyteConnection.connection
            (dict_get existing_connections conn_name))).

(* ===================================================================== *)
(** ** The delete requests of a run *)
(* ===================================================================== *)

(** The condition under which the loops delete an observed entity: it is
    not configured and unmentioned entities are to be deleted, or it is
    configured and must be recreated. *)
Definition source_must_go (config_sources : dict AirbyteSource.t)
    (should_delete : bool) (name : string) (existing : InitializedAirbyteSource.t)
  : bool :=
  match dict_get config_sources name with
  | None => should_delete
  | Some configured =>
      source_must_be_recreated configured (InitializedAirbyteSource.source existing)
  end.

Definition destination_must_go (config_destinations : dict AirbyteDestination.t)
    (should_delete : bool) (name : string)
    (existing : InitializedAirbyteDestination.t) : bool :=
  match dict_get config_destinations name with
  | None => should_delete
  | Some configured =>
      destination_must_be_recreated configured
        (InitializedAirbyteDestination.destination existing)
  end.

Definition connection_must_go (config_connections : dict AirbyteConnection.t)
    (should_delete : bool) (name : string)
    (existing : InitializedAirbyteConnection.t) : bool :=
  match dict_get config_connections name with
  | None => should_delete
  | Some configured =>
      connection_must_be_recreated configured
        (InitializedAirbyteConnection.connection existing)
  end.

(** If [c] is a request to [endpoint], it carries the id of an observed
    entity that must go, and nothing else. *)
Definition justified_delete {X} (endpoint key : string) (existing : dict X)
    (id : X -> json) (must_go : string -> X -> bool) (c : call) : Prop :=
  forall data,
    c = make_request endpoint data ->
    exists name e,
      dict_get existing name = Some e
      /\ data = JDict [(key, id e)]
      /\ must_go name e = true.

(** Every delete request among the calls is for an observed source,
    destination or connection that must go. *)
Definition deletes_justified {E : Env} (o : observed)
    (existing_connections : dict InitializedAirbyteConnection.t)
    (should_delete : bool) (c : call) : Prop :=
  justified_delete "/sources/delete" "sourceId" (existing_sources o)
    InitializedAirbyteSource.source_id
    (source_must_go (config_sources o) should_delete) c
  /\ justified_delete "/destinations/delete" "destinationId" (existing_dests o)
       InitializedAirbyteDestination.destination_id
       (destination_must_go (config_dests o) should_delete) c
  /\ justified_delete "/connections/delete" "connectionId" existing_connections
       InitializedAirbyteConnection.connection_id
       (connection_must_go (config_connections o) should_delete) c.

(* ===================================================================== *)
(** ** The update and create requests of a run *)
(* ===================================================================== *)

(** If [c] is a request to [/sources/update], it carries the id of an
    observed source that is configured and need not be recreated, with the
    configured name and configuration.  If [c] is a request to
    [/sources/create], it is for a configured source that is not observed
    or must be recreated, with a definition id that is not [None]. *)
Definition source_written_as_configured
    (config_sources : dict AirbyteSource.t)
    (existing_sources : dict InitializedAirbyteSource.t)
    (workspace_id : json) (c : call) : Prop :=
  (forall data,
      c = make_request "/sources/update" data ->
      exists name configured existing,
        dict_get config_sources name = Some configured
        /\ dict_get existing_sources name = Some existing
        /\ source_must_be_recreated configured
             (InitializedAirbyteSource.source existing) = false
        /\ data = JDict [("sourceId", InitializedAirbyteSource.source_id existing);
                         ("name", JStr (AirbyteSource.name configured));
                         ("connectionConfiguration",
                          JDict (AirbyteSource.source_configuration configured))])
  /\ (forall data,
         c = make_request "/sources/create" data ->
         exists name configured defn_id,
           dict_get config_sources name = Some configured
           /\ (forall existing,
                  dict_get existing_sources name = Some existing ->
                  source_must_be_recreated configured
                    (InitializedAirbyteSource.source existing) = true)
           /\ defn_id <> JNull
           /\ data = JDict [("sourceDefinitionId", defn_id);
                            ("workspaceId", workspace_id);
                            ("name", JStr (AirbyteSource.name configured));
                            ("connectionConfiguration",
                             JDict (AirbyteSource.source_configuration configured))]).

(** The same of destinations, where a create request is only ever made
    for a configured destination that is not observed. *)
Definition destination_written_as_configured
    (config_destinations : dict AirbyteDestination.t)
    (existing_destinations : dict InitializedAirbyteDestination.t)
    (workspace_id : json) (c : call) : Prop :=
  (forall data,
      c = make_request "/destinations/update" data ->
      exists name configured existing,
        dict_get config_destinations name = Some configured
        /\ dict_get existing_destinations name = Some existing
        /\ destination_must_be_recreated configured
             (InitializedAirbyteDestination.destination existing) = false
        /\ data = JDict [("destinationId",
                          InitializedAirbyteDestination.destination_id existing);
                         ("name", JStr (AirbyteDestination.name configured));
                         ("connectionConfiguration",
                          JDict (AirbyteDestination.destination_configuration
                                   configured))])
  /\ (forall data,
         c = make_request "/destinations/create" data ->
         exists name configured defn_id,
           dict_get config_destinations name = Some configured
           /\ dict_get existing_destinations name = None
           /\ data = JDict [("destinationDefinitionId", defn_id);
                            ("workspaceId", workspace_id);
                            ("name", JStr (AirbyteDestination.name configured));
                            ("connectionConfiguration",
                             JDict (AirbyteDestination.destination_configuration
                                      configured))]).

(* ===================================================================== *)
(** ** Loading assets from a checked instance *)
(* ===================================================================== *)

(** How [_get_connections] ends: with the connections of the parent
    loader, with the [ValueError] that reports the diff, or with an
    exception of the reconciliation or of the parent loader. *)
Inductive loading (A : Type) : Type :=
| Loaded (connections : A)
| ValueError (diff : ManagedElementDiff)
| Propagated (e : exn).

Arguments Loaded {A} connections.
Arguments ValueError {A} diff.
Arguments Propagated {A} e.

(** [AirbyteManagedElementCacheableAssetsDefinition._get_connections].
    [super_get_connections] is the method of the parent class, which this
    file does not define.  [reconcile_config] returns a diff or raises, so
    the [elif] branch for a [ManagedElementError] has nothing to take it. *)
Definition _get_connections {E : Env} {A} (connections : list AirbyteConnection.t)
    (super_get_connections : M A) : World -> World * list call * loading A :=
  fun w =>
    match reconcile_config connections true false w with
    | (w1, t1, Return diff) =>
        if negb (is_empty diff) then (w1, t1, ValueError diff)
        else
          match super_get_connections w1 with
          | (w2, t2, Return found) => (w2, t1 ++ t2, Loaded found)
          | (w2, t2, Raise e) => (w2, t1 ++ t2, Propagated e)
          end
    | (w1, t1, Raise e) => (w1, t1, Propagated e)
    end.

(* ===================================================================== *)
(** ** Streams that cannot be read *)
(* ===================================================================== *)

(** The exception at which the comprehension of [configured_streams] stops
    at a stream: the one of [source_stream["stream"]["name"]], or the
    [TypeError] of a name that cannot be hashed. *)
Definition stream_error (stream : json) : option exn :=
  match stream_name stream with
  | Raise e => Some e
  | Return (JList _) | Return (JDict _) => Some TypeError
  | Return _ => None
  end.

Fixpoint first_stream_error (base_streams : list json) : option exn :=
  match base_streams with
  | [] => None
  | stream :: rest =>
      match stream_error stream with
      | Some e => Some e
      | None => first_stream_error rest
      end
  end.

(* ===================================================================== *)
(** ** A scripted Airbyte instance *)
(* ===================================================================== *)

(** An environment to run the reconciler in: an instance that answers from
    a script, and decoders for the JSON this instance sends. *)
Module Scripted.

Record script : Type := {
  sources_listed : list json;
  destinations_listed : list json;
  connections_listed : list json;     (* the first listing of connections *)
  connections_relisted : list json;   (* every later listing *)
  operations_listed : list json;
  source_definitions : dict json;
  destination_definitions : dict json;
  normalizing : list json;            (* definition ids that normalize *)
  streams_discovered : list json
}.

Definition lookup_definition (definitions : dict json) (name : string) : json :=
  match dict_get definitions name with Some id => id | None => JNull end.

(** The state of the instance is the number of connection listings it has
    answered. *)
Definition answer (s : script) (listings : nat) (c : call) : nat * (string + json) :=
  match c with
  | make_request endpoint _ =>
      if String.eqb endpoint "/sources/list" then
        (listings, inr (JDict [("sources", JList (sources_listed s))]))
      else if String.eqb endpoint "/destinations/list" then
        (listings, inr (JDict [("destinations", JList (destinations_listed s))]))
      else if String.eqb endpoint "/connections/list" then
        (S listings,
         inr (JDict [("connections",
                      JList (match listings with
                             | O => connections_listed s
                             | S _ => connections_relisted s
                             end))]))
      else if String.eqb endpoint "/operations/list" then
        (listings, inr (JDict [("operations", JList (operations_listed s))]))
      else if String.eqb endpoint "/operations/create" then
        (listings, inr (JDict [("operationId", JStr "op-new")]))
      else if String.eqb endpoint "/sources/create" then
        (listings, inr (JDict [("sourceId", JStr "src-new")]))
      else if String.eqb endpoint "/destinations/create" then
        (listings, inr (JDict [("destinationId", JStr "dst-new")]))
      else if String.eqb endpoint "/connections/create" then
        (listings, inr (JDict [("connectionId", JStr "conn-new")]))
      else if existsb (String.eqb endpoint)
                ["/sources/update"; "/destinations/update"; "/connections/update"]
      then (listings, inr (JDict []))
      else if existsb (String.eqb endpoint)
                ["/sources/delete"; "/destinations/delete"; "/connections/delete"]
      then (listings, inr JNull)
      else (listings, inl "404")
  | get_default_workspace => (listings, inr (JStr "ws"))
  | get_source_definition_by_name name _ =>
      (listings, inr (lookup_definition (source_definitions s) name))
  | get_destination_definition_by_name name _ =>
      (listings, inr (lookup_definition (destination_definitions s) name))
  | does_dest_support_normalization definition_id _ =>
      (listings, inr (JBool (existsb (json_eqb definition_id) (normalizing s))))
  | get_source_schema _ =>
      (listings,
       inr (JDict [("catalog", JDict [("streams", JList (streams_discovered s))])]))
  | get_source_catalog_id _ => (listings, inr (JStr "catalog-1"))
  end.

Definition as_dict (j : json) : outcome (dict json) :=
  match j with JDict d => Return d | _ => Raise TypeError end.

Definition decode_source (j : json) : outcome InitializedAirbyteSource.t :=
  and_then (and_then (getitem j "name") as_str) (fun name =>
  and_then (and_then (getitem j "sourceName") as_str) (fun type =>
  and_then (and_then (getitem j "connectionConfiguration") as_dict) (fun config =>
  and_then (getitem j "sourceId") (fun id =>
  Return (InitializedAirbyteSource.mk (AirbyteSource.mk name type config) id JNull))))).

Definition decode_destination (j : json) : outcome InitializedAirbyteDestination.t :=
  and_then (and_then (getitem j "name") as_str) (fun name =>
  and_then (and_then (getitem j "destinationName") as_str) (fun type =>
  and_then (and_then (getitem j "connectionConfiguration") as_dict) (fun config =>
  and_then (getitem j "destinationId") (fun id =>
  and_then (get_default j "destinationDefinitionId" JNull) (fun definition_id =>
  Return (InitializedAirbyteDestination.mk
            (AirbyteDestination.mk name type config) id definition_id)))))).

Definition sync_mode (sync destination_sync : string) : AirbyteSyncMode.t :=
  AirbyteSyncMode.mk (sync ++ "+" ++ destination_sync) (sync, destination_sync).

Fixpoint decode_streams (streams : list json) : outcome (dict AirbyteSyncMode.t) :=
  match streams with
  | [] => Return []
  | stream :: rest =>
      and_then (and_then (stream_name stream) as_str) (fun name =>
      and_then (getitem stream "config") (fun config =>
      and_then (and_then (getitem config "syncMode") as_str) (fun sync =>
      and_then (and_then (getitem config "destinationSyncMode") as_str) (fun dsync =>
      and_then (decode_streams rest) (fun others =>
      Return (dict_set others name (sync_mode sync dsync)))))))
  end.

Definition find_source (id : json) (sources : dict InitializedAirbyteSource.t)
  : option AirbyteSource.t :=
  option_map (fun kv => InitializedAirbyteSource.source (snd kv))
    (find (fun kv => json_eqb (InitializedAirbyteSource.source_id (snd kv)) id) sources).

Definition find_destination (id : json)
    (destinations : dict InitializedAirbyteDestination.t)
  : option AirbyteDestination.t :=
  option_map (fun kv => InitializedAirbyteDestination.destination (snd kv))
    (find (fun kv => json_eqb (InitializedAirbyteDestination.destination_id (snd kv)) id)
          destinations).

Definition decode_connection (j : json)
    (sources : dict InitializedAirbyteSource.t)
    (destinations : dict InitializedAirbyteDestination.t)
  : outcome InitializedAirbyteConnection.t :=
  and_then (and_then (getitem j "name") as_str) (fun name =>
  and_then (getitem j "sourceId") (fun source_id =>
  and_then (getitem j "destinationId") (fun destination_id =>
  and_then (and_then (and_then (getitem j "syncCatalog")
                        (fun catalog => getitem catalog "streams")) iterate)
           (fun streams =>
  and_then (decode_streams streams) (fun stream_config =>
  and_then (and_then (getitem j "operationIds") iterate) (fun operation_ids =>
  and_then (getitem j "connectionId") (fun id =>
  Return (InitializedAirbyteConnection.mk
            (AirbyteConnection.mk name
               (find_source source_id sources)
               (find_destination destination_id destinations)
               stream_config
               (Some (match operation_ids with [] => false | _ => true end)))
            id)))))))).

Definition basic_normalization (operation : json) : bool :=
  match
    and_then (getitem operation "operatorConfiguration") (fun config =>
    and_then (getitem config "operatorType") (fun type =>
    and_then (getitem config "normalization") (fun normalization =>
    and_then (getitem normalization "option") (fun option =>
    Return (json_eqb type (JStr "normalization")
            && json_eqb option (JStr "basic"))))))
  with
  | Return basic => basic
  | Raise _ => false
  end.

(** A set of names is visited in the order of first insertion. *)
Definition insertion_order (names : list string) : list string :=
  nodup string_dec names.

Definition insertion_order_In names x
  : In x (insertion_order names) <-> In x names :=
  nodup_In string_dec names x.

Definition insertion_order_NoDup names : NoDup (insertion_order names) :=
  NoDup_nodup string_dec names.

Definition env (s : script) : Env := {|
  World := nat;
  remote := answer s;
  set_order := insertion_order;
  set_order_In := insertion_order_In;
  set_order_NoDup := insertion_order_NoDup;
  source_from_api_json := decode_source;
  destination_from_api_json := decode_destination;
  connection_from_api_json := decode_connection;
  is_basic_normalization_operation := basic_normalization
|}.

End Scripted.

(* ===================================================================== *)
(** ** Scenarios on the scripted instance *)
(* ===================================================================== *)

Module Scenario.
Import Scripted.

(** Source [S1] of type [A], destination [D1] of type [B], and the
    connection between them that syncs the stream [users]. *)
Definition S1 : AirbyteSource.t := AirbyteSource.mk "S1" "A" [].
Definition S1_retyped : AirbyteSource.t := AirbyteSource.mk "S1" "A2" [].
Definition S_unknown : AirbyteSource.t := AirbyteSource.mk "S2" "nope" [].
Definition D1 : AirbyteDestination.t := AirbyteDestination.mk "D1" "B" [].
Definition D1_retyped : AirbyteDestination.t := AirbyteDestination.mk "D1" "B2" [].
Definition D_unknown : AirbyteDestination.t := AirbyteDestination.mk "D2" "nope" [].

Definition users : dict AirbyteSyncMode.t :=
  [("users", sync_mode "full_refresh" "overwrite")].

Definition connection (name : string) (source : AirbyteSource.t)
    (normalize : option bool) : AirbyteConnection.t :=
  AirbyteConnection.mk name (Some source) (Some D1) users normalize.

(** What the instance sends for them. *)
Definition source_json : json :=
  JDict [("name", JStr "S1"); ("sourceName", JStr "A");
         ("connectionConfiguration", JDict []); ("sourceId", JStr "s-1")].

Definition destination_json : json :=
  JDict [("name", JStr "D1"); ("destinationName", JStr "B");
         ("connectionConfiguration", JDict []); ("destinationId", JStr "d-1");
         ("destinationDefinitionId", JStr "def-B")].

Definition connection_json (name : string) (operation_ids : list json) : json :=
  JDict [("name", JStr name); ("sourceId", JStr "s-1"); ("destinationId", JStr "d-1");
         ("syncCatalog",
          JDict [("streams",
                  JList [JDict [("stream", JDict [("name", JStr "users")]);
                                ("config",
                                 JDict [("syncMode", JStr "full_refresh");
                                        ("destinationSyncMode", JStr "overwrite")])]])]);
         ("operationIds", JList operation_ids);
         ("connectionId", JStr "c-1")].

Definition discovered (name : string) : json :=
  JDict [("stream", JDict [("name", JStr name); ("jsonSchema", JDict [])]);
         ("config",
          JDict [("syncMode", JStr "incremental");
                 ("destinationSyncMode", JStr "append")])].

Definition basic_normalization_operation : json :=
  JDict [("operationId", JStr "op-1");
         ("operatorConfiguration",
          JDict [("operatorType", JStr "normalization");
                 ("normalization", JDict [("option", JStr "basic")])])].

(** As they are once decoded. *)
Definition existing_S1 : InitializedAirbyteSource.t :=
  InitializedAirbyteSource.mk S1 (JStr "s-1") JNull.

Definition existing_D1 : InitializedAirbyteDestination.t :=
  InitializedAirbyteDestination.mk D1 (JStr "d-1") (JStr "def-B").

Definition existing_connection (name : string) (normalized : bool)
  : InitializedAirbyteConnection.t :=
  InitializedAirbyteConnection.mk (connection name S1 (Some normalized)) (JStr "c-1").

(** An instance that has [S1], [D1] and one connection between them, which
    a delete request removes from the later listings when [kept] is off.
    Destinations of definition [def-B] normalize when [normalizes] is on. *)
Definition instance (connection_name : string) (operation_ids : list json)
    (kept normalizes : bool) : script := {|
  sources_listed := [source_json];
  destinations_listed := [destination_json];
  connections_listed := [connection_json connection_name operation_ids];
  connections_relisted :=
    if kept then [connection_json connection_name operation_ids] else [];
  operations_listed := [basic_normalization_operation];
  source_definitions := [("A", JStr "def-A"); ("A2", JStr "def-A2")];
  destination_definitions := [("B", JStr "def-B"); ("B2", JStr "def-B2")];
  normalizing := if normalizes then [JStr "def-B"] else [];
  streams_discovered := [discovered "orders"; discovered "users"]
|}.

(** The instance already matches the configuration: one connection, named
    as its source is. *)
Definition matching : Env := env (instance "S1" [] true false).

Definition matching_objects : list AirbyteConnection.t :=
  [connection "S1" S1 (Some false)].

Definition matching_observed : observed := {|
  config_connections := [("S1", connection "S1" S1 (Some false))];
  config_sources := [("S1", S1)];
  config_dests := [("D1", D1)];
  workspace_id := JStr "ws";
  existing_sources := [("S1", existing_S1)];
  existing_dests := [("D1", existing_D1)]
|}.

(** The type of [S1] was changed in the configuration. *)
Definition retyped : Env := env (instance "C1" [] false false).

Definition retyped_objects : list AirbyteConnection.t :=
  [connection "C1" S1_retyped None].


(** The connection [C1] exists and carries a basic normalization
    operation; its destination normalizes. *)
Definition normalized : Env := env (instance "C1" [JStr "op-1"] true true).

Definition update_S1 : call :=
  make_request "/sources/update"
    (JDict [("sourceId", JStr "s-1"); ("name", JStr "S1");
            ("connectionConfiguration", JDict [])]).

Definition create_normalization : call :=
  make_request "/operations/create"
    (JDict [("workspaceId", JStr "ws"); ("name", JStr "Normalization");
            ("operatorConfiguration",
             JDict [("operatorType", JStr "normalization");
                    ("normalization", JDict [("option", JStr "basic")])])]).

End Scenario.

(** Further runs on the scripted instance. *)
Module MoreScenarios.
Import Scripted Scenario.

(** What [reconcile_config] observes in [retyped]. *)
Definition retyped_observed : observed := {|
  config_connections := [("C1", connection "C1" S1_retyped None)];
  config_sources := [("S1", S1_retyped)];
  config_dests := [("D1", D1)];
  workspace_id := JStr "ws";
  existing_sources := [("S1", existing_S1)];
  existing_dests := [("D1", existing_D1)]
|}.

(** [S1] as [reconcile_sources] records it once it has been recreated. *)
Definition recreated_S1 : InitializedAirbyteSource.t :=
  InitializedAirbyteSource.mk S1_retyped (JStr "src-new") (JStr "def-A2").

(** The diff a dry run reports in [retyped]. *)
Definition retyped_diff : ManagedElementDiff :=
  match outcome_of (@reconcile_config retyped retyped_objects true false 0%nat) with
  | Return diff => diff
  | Raise _ => empty_diff
  end.

(** A configuration that asks for the stream [users], which the catalog of
    the scripted instance has, and for [payments], which it has not. *)
Definition users_and_payments : dict AirbyteSyncMode.t :=
  [("users", sync_mode "full_refresh" "overwrite");
   ("payments", sync_mode "incremental" "append")].

End MoreScenarios.

(* ===================================================================== *)
(** ** Reasoning about runs *)
(* ===================================================================== *)

Section Runs.
Context {E : Env}.

Lemma all_calls_ret {A} P (a : A) : all_calls P (ret a).
Proof. intros w. constructor. Qed.

Lemma all_calls_raise {A} P e : all_calls P (@raise _ A e).
Proof. intros w. constructor. Qed.

Lemma all_calls_lift {A} P (o : outcome A) : all_calls P (lift o).
Proof. intros w. constructor. Qed.

Lemma all_calls_perform P c : P c -> all_calls P (perform c).
Proof.
  intros H w. unfold perform, trace_of.
  destruct (remote w c) as [w' [msg | j]]; simpl; auto.
Qed.

Lemma trace_bind {A B} (m : M A) (f : A -> M B) w :
  trace_of (bind m f w)
  = trace_of (m w)
    ++ match outcome_of (m w) with
       | Return a => trace_of (f a (world_of (m w)))
       | Raise _ => []
       end.
Proof.
  unfold bind, trace_of, outcome_of, world_of.
  destruct (m w) as [[w1 t1] [a | e]]; simpl.
  - destruct (f a w1) as [[w2 t2] r]; reflexivity.
  - now rewrite app_nil_r.
Qed.

Lemma all_calls_bind {A B} P (m : M A) (f : A -> M B) :
  all_calls P m -> (forall a, all_calls P (f a)) -> all_calls P (bind m f).
Proof.
  intros Hm Hf w. rewrite trace_bind. apply Forall_app. split; [apply Hm |].
  destruct (outcome_of (m w)); [apply Hf | constructor].
Qed.

Lemma all_calls_bind_ret {A B} P (a : A) (f : A -> M B) :
  all_calls P (f a) -> all_calls P (bind (ret a) f).
Proof. intros H w. rewrite trace_bind. simpl. apply H. Qed.

Lemma all_calls_for_each {A S} P (xs : list A) (body : S -> A -> M S) :
  (forall acc x, all_calls P (body acc x)) ->
  forall acc, all_calls P (for_each xs body acc).
Proof.
  intros Hbody. induction xs as [| x xs IH]; intros acc; simpl.
  - apply all_calls_ret.
  - apply all_calls_bind; auto.
Qed.

Lemma all_calls_weaken {A} (P Q : call -> Prop) (m : M A) :
  (forall c, P c -> Q c) -> all_calls P m -> all_calls Q m.
Proof. intros HPQ Hm w. eapply Forall_impl; [exact HPQ | apply Hm]. Qed.

Lemma all_calls_not_none P j : all_calls P (not_none j).
Proof. destruct j; simpl; try apply all_calls_ret; apply all_calls_raise. Qed.

Lemma all_calls_attr {A} P (x : option A) name : all_calls P (attr x name).
Proof. destruct x; [apply all_calls_ret | apply all_calls_raise]. Qed.

Lemma all_calls_index {V} P (d : dict V) key : all_calls P (index d key).
Proof.
  unfold index. destruct (dict_get d key); [apply all_calls_ret | apply all_calls_raise].
Qed.

Lemma all_calls_request P endpoint data :
  P (make_request endpoint data) -> all_calls P (request endpoint data).
Proof.
  intros H. apply all_calls_bind; [now apply all_calls_perform |].
  intros a. apply all_calls_not_none.
Qed.

Lemma all_calls_dry_run P endpoint data : all_calls P (unless_dry_run true endpoint data).
Proof. apply all_calls_ret. Qed.

Lemma all_calls_unless_dry_run P dry_run endpoint data :
  P (make_request endpoint data) -> all_calls P (unless_dry_run dry_run endpoint data).
Proof.
  intros H. destruct dry_run; [apply all_calls_ret |].
  apply all_calls_bind; [now apply all_calls_perform | intros; apply all_calls_ret].
Qed.

Lemma all_calls_decode_by_name {V} P raw field (f : json -> outcome V) :
  all_calls P (decode_by_name raw field f).
Proof.
  unfold decode_by_name.
  apply all_calls_bind; [apply all_calls_lift | intros listed].
  apply all_calls_bind; [apply all_calls_lift | intros items].
  apply all_calls_for_each. intros acc x.
  apply all_calls_bind; [apply all_calls_lift | intros name].
  apply all_calls_bind; [apply all_calls_lift | intros entity].
  apply all_calls_ret.
Qed.

End Runs.

(** Takes a goal [all_calls P m] apart along the structure of [m]; what is
    left are the calls themselves. *)
Ltac calls_step :=
  first
    [ progress cbv beta iota zeta
    | apply all_calls_ret
    | apply all_calls_raise
    | apply all_calls_lift
    | apply all_calls_not_none
    | apply all_calls_attr
    | apply all_calls_index
    | apply all_calls_decode_by_name
    | apply all_calls_dry_run
    | apply all_calls_bind_ret
    | apply all_calls_bind; [| intros ?]
    | apply all_calls_for_each; intros ? ?
    | apply all_calls_request
    | apply all_calls_unless_dry_run
    | apply all_calls_perform
    | match goal with
      | |- all_calls _ (match ?x with _ => _ end) => destruct x
      | |- all_calls _ (if ?x then _ else _) => destruct x
      end ].

Ltac calls_auto := repeat calls_step.

(* ===================================================================== *)
(** ** Dry runs *)
(* ===================================================================== *)

Section DryRun.
Context {E : Env}.

Lemma observe_read_only objects : all_calls read_only (observe objects).
Proof.
  unfold observe, config_sources_of, config_dests_of.
  calls_auto; split; reflexivity.
Qed.

Lemma fetch_connections_read_only sources destinations workspace_id :
  all_calls read_only (fetch_connections sources destinations workspace_id).
Proof. unfold fetch_connections. calls_auto; split; reflexivity. Qed.

Lemma reconcile_connections_pre_dry config_connections existing_sources
    existing_destinations workspace_id should_delete :
  all_calls read_only
    (reconcile_connections_pre config_connections existing_sources
       existing_destinations workspace_id true should_delete).
Proof.
  unfold reconcile_connections_pre.
  apply all_calls_bind; [apply fetch_connections_read_only | intros existing].
  apply all_calls_for_each. intros diff conn_name.
  unfold reconcile_connections_pre_body. calls_auto.
Qed.

Lemma reconcile_sources_dry config_sources existing_sources workspace_id
    should_delete :
  all_calls read_only
    (reconcile_sources config_sources existing_sources workspace_id true
       should_delete).
Proof.
  unfold reconcile_sources. apply all_calls_for_each. intros [initialized diff] name.
  unfold reconcile_sources_body. calls_auto; split; reflexivity.
Qed.

Lemma reconcile_destinations_dry config_destinations existing_destinations
    workspace_id should_delete :
  all_calls read_only
    (reconcile_destinations config_destinations existing_destinations
       workspace_id true should_delete).
Proof.
  unfold reconcile_destinations. apply all_calls_for_each.
  intros [initialized diff] name.
  unfold reconcile_destinations_body. calls_auto; split; reflexivity.
Qed.

Lemma reconcile_connections_post_dry config_connections init_sources init_dests
    workspace_id :
  all_calls read_only
    (reconcile_connections_post config_connections init_sources init_dests
       workspace_id true).
Proof.
  unfold reconcile_connections_post.
  apply all_calls_bind; [apply fetch_connections_read_only | intros existing].
  apply all_calls_for_each. intros [] [conn_name config_conn].
  unfold reconcile_connections_post_body, connection_base_json, send_connection.
  calls_auto.
Qed.

Lemma reconcile_config_dry objects should_delete :
  all_calls read_only (reconcile_config objects true should_delete).
Proof.
  unfold reconcile_config, reconcile_observed.
  apply all_calls_bind; [apply observe_read_only | intros o].
  apply all_calls_bind; [apply reconcile_connections_pre_dry | intros d].
  apply all_calls_bind; [apply reconcile_sources_dry | intros [srcs sd]].
  apply all_calls_bind; [apply reconcile_destinations_dry | intros [dsts dd]].
  apply all_calls_bind; [apply reconcile_connections_post_dry | intros []].
  apply all_calls_ret.
Qed.

End DryRun.

(** C1.  Whatever the configuration and whatever the instance answers, the
    calls [reconcile_config] makes with [dry_run=True] are the lookup of the
    default workspace, listings of sources, destinations and connections,
    and lookups of definition ids: none of them is a create, update or
    delete request.  This holds of the calls made before an exception as
    well. *)
Theorem dry_run_makes_no_mutating_call :
  forall (E : Env) (objects : list AirbyteConnection.t) (should_delete : bool)
         (w : World),
    Forall (fun c => mutating c = false /\ lookup_or_listing c = true)
           (trace_of (reconcile_config objects true should_delete w)).
Proof.
  intros E objects should_delete w.
  exact (reconcile_config_dry objects should_delete w).
Qed.

(* ===================================================================== *)
(** ** The order of the phases *)
(* ===================================================================== *)

Section Phases.
Context {E : Env}.






Lemma observe_phase objects : all_calls (fun c => in_observe c = true) (observe objects).
Proof.
  unfold observe, config_sources_of, config_dests_of. calls_auto; reflexivity.
Qed.

Lemma fetch_connections_phase P sources destinations workspace_id :
  (forall data, P (make_request "/connections/list" data) = true) ->
  all_calls (fun c => P c = true)
    (fetch_connections sources destinations workspace_id).
Proof. intros H. unfold fetch_connections. calls_auto. apply H. Qed.

Lemma pre_body_phase config_connections existing dry_run should_delete diff name :
  all_calls (fun c => in_pre c = true)
    (reconcile_connections_pre_body config_connections existing dry_run
       should_delete diff name).
Proof. unfold reconcile_connections_pre_body. calls_auto; reflexivity. Qed.


Lemma reconcile_sources_phase config_sources existing_sources workspace_id
    dry_run should_delete :
  all_calls (fun c => in_sources c = true)
    (reconcile_sources config_sources existing_sources workspace_id dry_run
       should_delete).
Proof.
  unfold reconcile_sources. apply all_calls_for_each. intros [initialized diff] name.
  unfold reconcile_sources_body. calls_auto; reflexivity.
Qed.

Lemma reconcile_destinations_phase config_destinations existing_destinations
    workspace_id dry_run should_delete :
  all_calls (fun c => in_destinations c = true)
    (reconcile_destinations config_destinations existing_destinations
       workspace_id dry_run should_delete).
Proof.
  unfold reconcile_destinations. apply all_calls_for_each.
  intros [initialized diff] name.
  unfold reconcile_destinations_body. calls_auto; reflexivity.
Qed.

Lemma reconcile_normalization_phase existing_connection_id destination
    normalization_config workspace_id :
  all_calls (fun c => in_post c = true)
    (reconcile_normalization existing_connection_id destination
       normalization_config workspace_id).
Proof.
  unfold reconcile_normalization, existing_basic_norm_op_id,
    destination_supports_normalization.
  calls_auto; reflexivity.
Qed.

Lemma reconcile_connections_post_phase config_connections init_sources init_dests
    workspace_id dry_run :
  all_calls (fun c => in_post c = true)
    (reconcile_connections_post config_connections init_sources init_dests
       workspace_id dry_run).
Proof.
  unfold reconcile_connections_post.
  apply all_calls_bind; [now apply fetch_connections_phase | intros existing].
  apply all_calls_for_each. intros [] [conn_name config_conn].
  unfold reconcile_connections_post_body, connection_base_json, send_connection,
    looked_up_connection_id, reconcile_normalization, existing_basic_norm_op_id,
    destination_supports_normalization.
  calls_auto; reflexivity.
Qed.


(** *** Runs that return *)

Lemma bind_inv {A B} (m : M A) (f : A -> M B) w w' t r :
  bind m f w = (w', t, r) ->
  (exists w1 t1 a t2,
      m w = (w1, t1, Return a) /\ f a w1 = (w', t2, r) /\ t = t1 ++ t2)
  \/ (exists e, m w = (w', t, Raise e) /\ r = Raise e).
Proof.
  unfold bind. destruct (m w) as [[w1 t1] [a | e]].
  - destruct (f a w1) as [[w2 t2] r2] eqn:Hf. intros H. injection H as <- <- <-.
    left. exists w1, t1, a, t2. auto.
  - intros H. injection H as <- <- <-. right. exists e. auto.
Qed.

Lemma bind_returns {A B} (m : M A) (f : A -> M B) w w' t b :
  bind m f w = (w', t, Return b) ->
  exists w1 t1 a t2,
    m w = (w1, t1, Return a) /\ f a w1 = (w', t2, Return b) /\ t = t1 ++ t2.
Proof.
  intros H. apply bind_inv in H as [H | (e & _ & H)]; [exact H | discriminate].
Qed.

Lemma trace_bind_returned {A B} (m : M A) (f : A -> M B) w w1 t1 a :
  m w = (w1, t1, Return a) ->
  trace_of (bind m f w) = t1 ++ trace_of (f a w1).
Proof. intros H. rewrite trace_bind, H. reflexivity. Qed.

Lemma outcome_bind_returned {A B} (m : M A) (f : A -> M B) w w1 t1 a :
  m w = (w1, t1, Return a) ->
  outcome_of (bind m f w) = outcome_of (f a w1).
Proof.
  intros H. unfold bind, outcome_of. rewrite H.
  destruct (f a w1) as [[w2 t2] r]. reflexivity.
Qed.

(** A loop that returns has run the body on every element. *)
Lemma for_each_reaches {A S} (body : S -> A -> M S) x c :
  (forall acc w, In c (trace_of (body acc x w))) ->
  forall xs acc w w' t r,
    for_each xs body acc w = (w', t, Return r) -> In x xs -> In c t.
Proof.
  intros Hbody. induction xs as [| y xs IH]; intros acc w w' t r Hrun Hin.
  - contradiction.
  - simpl in Hrun.
    apply bind_returns in Hrun as (w1 & t1 & acc' & t2 & Hy & Hrest & ->).
    apply in_or_app. destruct Hin as [-> | Hin].
    + left. specialize (Hbody acc w). rewrite Hy in Hbody. exact Hbody.
    + right. eapply IH; eauto.
Qed.



End Phases.

(** Decides, endpoint by endpoint, a fact about the classes of calls. *)
Ltac by_endpoint :=
  let c := fresh "c" in
  intros c; destruct c; simpl; try congruence; try reflexivity;
  unfold requests; simpl;
  repeat match goal with
    | |- context [String.eqb ?e ?s] =>
        destruct (String.eqb_spec e s); subst; simpl; try congruence
    end.

Section PhaseClasses.











End PhaseClasses.

Section Ordering.
Context {E : Env}.








End Ordering.


(* ===================================================================== *)
(** ** Normalization *)
(* ===================================================================== *)

Section Normalization.
Context {E : Env}.

Lemma no_config_error_ret {A} (a : A) : raises_no_config_error (ret a).
Proof. intros w e H. discriminate. Qed.

Lemma no_config_error_perform c : raises_no_config_error (perform c).
Proof.
  intros w e. unfold perform, outcome_of.
  destruct (remote w c) as [w' [msg | j]]; simpl; intros H; [| discriminate].
  injection H as <-. reflexivity.
Qed.

Lemma no_config_error_lift {A} (o : outcome A) :
  pure_raises_no_config_error o -> raises_no_config_error (lift o).
Proof. intros H w e. apply H. Qed.

Lemma no_config_error_bind {A B} (m : M A) (f : A -> M B) :
  raises_no_config_error m -> (forall a, raises_no_config_error (f a)) ->
  raises_no_config_error (bind m f).
Proof.
  intros Hm Hf w e. unfold bind, outcome_of.
  destruct (m w) as [[w1 t1] [a | e1]] eqn:Hmw.
  - destruct (f a w1) as [[w2 t2] r] eqn:Hfa. simpl. intros ->.
    apply (Hf a w1). now rewrite Hfa.
  - simpl. intros H. injection H as <-. apply (Hm w). now rewrite Hmw.
Qed.

Lemma no_config_error_not_none j : raises_no_config_error (not_none j).
Proof. intros w e. destruct j; simpl; intros H; try discriminate. now injection H as <-. Qed.

Lemma no_config_error_request endpoint data :
  raises_no_config_error (request endpoint data).
Proof.
  apply no_config_error_bind; [apply no_config_error_perform |].
  intros a. apply no_config_error_not_none.
Qed.

Lemma getitem_no_config_error j key : pure_raises_no_config_error (getitem j key).
Proof.
  intros e. destruct j; simpl; try (intros H; now injection H as <-).
  destruct (dict_get entries key); intros H; [discriminate | now injection H as <-].
Qed.

Lemma iterate_no_config_error j : pure_raises_no_config_error (iterate j).
Proof. intros e. destruct j; simpl; intros H; try discriminate; now injection H as <-. Qed.

Lemma and_then_no_config_error {A B} (o : outcome A) (f : A -> outcome B) :
  pure_raises_no_config_error o -> (forall a, pure_raises_no_config_error (f a)) ->
  pure_raises_no_config_error (and_then o f).
Proof.
  intros Ho Hf e. destruct o as [a | e1]; simpl.
  - apply Hf.
  - intros H. injection H as <-. now apply Ho.
Qed.

Lemma existing_basic_norm_op_id_no_config_error existing_connection_id :
  raises_no_config_error (existing_basic_norm_op_id existing_connection_id).
Proof.
  unfold existing_basic_norm_op_id.
  destruct (truthy existing_connection_id); [| apply no_config_error_ret].
  apply no_config_error_bind; [apply no_config_error_request | intros operations].
  apply no_config_error_bind.
  - apply no_config_error_lift. apply and_then_no_config_error.
    + apply and_then_no_config_error;
        [apply getitem_no_config_error | intros; apply iterate_no_config_error].
    + intros listed e H. discriminate.
  - intros op. destruct (truthy op); [| apply no_config_error_ret].
    apply no_config_error_lift, getitem_no_config_error.
Qed.

Lemma destination_supports_no_config_error destination workspace_id :
  raises_no_config_error (destination_supports_normalization destination workspace_id).
Proof.
  unfold destination_supports_normalization.
  destruct (truthy _); [apply no_config_error_perform | apply no_config_error_ret].
Qed.

Lemma normalization_disabled existing_connection_id destination workspace_id
    w w1 t1 existing_id :
  existing_basic_norm_op_id existing_connection_id w = (w1, t1, Return existing_id) ->
  reconcile_normalization existing_connection_id destination (Some false)
    workspace_id w
  = (w1, t1, Return JNull).
Proof.
  intros H. unfold reconcile_normalization, bind. rewrite H. simpl.
  now rewrite app_nil_r.
Qed.

Lemma normalization_unsupported existing_connection_id destination workspace_id
    normalization_config w w1 t1 existing_id :
  existing_basic_norm_op_id existing_connection_id w = (w1, t1, Return existing_id) ->
  normalization_config <> Some false ->
  unsupported destination workspace_id w1 ->
  outcome_of (reconcile_normalization existing_connection_id destination
                normalization_config workspace_id w)
  = match normalization_config with
    | Some true => Raise (PyException (normalization_unsupported_msg destination))
    | _ => Return JNull
    end.
Proof.
  intros Hid Hcfg (w2 & t2 & answer & Hsup & Hfalse).
  unfold reconcile_normalization, bind, outcome_of. rewrite Hid.
  destruct normalization_config as [[|] |]; try congruence;
    rewrite Hsup, Hfalse; reflexivity.
Qed.

Lemma normalization_config_error existing_connection_id destination
    normalization_config workspace_id w e :
  outcome_of (reconcile_normalization existing_connection_id destination
                normalization_config workspace_id w) = Raise e ->
  config_error e = true ->
  normalization_config = Some true
  /\ e = PyException (normalization_unsupported_msg destination)
  /\ exists w1 t1 existing_id,
       existing_basic_norm_op_id existing_connection_id w
       = (w1, t1, Return existing_id)
       /\ unsupported destination workspace_id w1.
Proof.
  intros Hout Hcfg.
  destruct (existing_basic_norm_op_id existing_connection_id w)
    as [[w1 t1] [existing_id | e1]] eqn:Hid.
  2:{ unfold reconcile_normalization, bind, outcome_of in Hout. rewrite Hid in Hout.
      simpl in Hout. injection Hout as <-.
      pose proof (existing_basic_norm_op_id_no_config_error existing_connection_id w)
        as H. rewrite Hid in H. specialize (H e1 eq_refl). congruence. }
  unfold reconcile_normalization in Hout.
  erewrite outcome_bind_returned in Hout by exact Hid.
  destruct normalization_config as [[|] |]; [| discriminate |].
  - destruct (destination_supports_normalization destination workspace_id w1)
      as [[w2 t2] [answer | e2]] eqn:Hsup.
    2:{ unfold bind, outcome_of in Hout. rewrite Hsup in Hout. simpl in Hout.
        injection Hout as <-.
        pose proof (destination_supports_no_config_error destination workspace_id w1)
          as H. rewrite Hsup in H. specialize (H e2 eq_refl). congruence. }
    erewrite outcome_bind_returned in Hout by exact Hsup.
    destruct (truthy answer) eqn:Hanswer.
    + exfalso. destruct (truthy existing_id); [discriminate |].
      assert (H : raises_no_config_error
                    (created <-
                       request "/operations/create"
                         (JDict [("workspaceId", workspace_id);
                                 ("name", JStr "Normalization");
                                 ("operatorConfiguration",
                                  JDict [("operatorType", JStr "normalization");
                                         ("normalization",
                                          JDict [("option", JStr "basic")])])]) ;;
                     lift (getitem created "operationId"))).
      { apply no_config_error_bind; [apply no_config_error_request |].
        intros created. apply no_config_error_lift, getitem_no_config_error. }
      specialize (H w2 e Hout). congruence.
    + unfold raise, outcome_of in Hout. simpl in Hout. injection Hout as <-.
      repeat split. exists w1, t1, existing_id. split; [reflexivity |].
      exists w2, t2, answer. auto.
  - destruct (destination_supports_normalization destination workspace_id w1)
      as [[w2 t2] [answer | e2]] eqn:Hsup.
    2:{ unfold bind, outcome_of in Hout. rewrite Hsup in Hout. simpl in Hout.
        injection Hout as <-.
        pose proof (destination_supports_no_config_error destination workspace_id w1)
          as H. rewrite Hsup in H. specialize (H e2 eq_refl). congruence. }
    erewrite outcome_bind_returned in Hout by exact Hsup.
    exfalso. destruct (truthy answer); [| discriminate].
    destruct (truthy existing_id); [discriminate |].
    assert (H : raises_no_config_error
                  (created <-
                     request "/operations/create"
                       (JDict [("workspaceId", workspace_id);
                               ("name", JStr "Normalization");
                               ("operatorConfiguration",
                                JDict [("operatorType", JStr "normalization");
                                       ("normalization",
                                        JDict [("option", JStr "basic")])])]) ;;
                   lift (getitem created "operationId"))).
    { apply no_config_error_bind; [apply no_config_error_request |].
      intros created. apply no_config_error_lift, getitem_no_config_error. }
    specialize (H w2 e Hout). congruence.
Qed.

End Normalization.

(** C6.  [reconcile_normalization], once it has looked for the operation the
    connection already has: with the intent explicitly [False] it returns
    [None] for every destination, and makes no further call; with the
    intent unset and a destination that does not support normalization it
    returns [None]; with the intent explicitly [True] and such a destination
    it raises the exception that names the destination.  It raises an
    exception of its own in no other case: every other exception comes out
    of the resource or out of a response of the wrong shape. *)
Theorem reconcile_normalization_tri_state :
  forall (E : Env) (existing_connection_id : json)
         (destination : InitializedAirbyteDestination.t) (workspace_id : json)
         (w : World),
    (forall w1 t1 existing_id,
        existing_basic_norm_op_id existing_connection_id w
        = (w1, t1, Return existing_id) ->
        reconcile_normalization existing_connection_id destination (Some false)
          workspace_id w = (w1, t1, Return JNull)
        /\ (unsupported destination workspace_id w1 ->
            outcome_of (reconcile_normalization existing_connection_id destination
                          None workspace_id w) = Return JNull
            /\ outcome_of (reconcile_normalization existing_connection_id destination
                             (Some true) workspace_id w)
               = Raise (PyException (normalization_unsupported_msg destination))))
    /\ (forall normalization_config e,
          outcome_of (reconcile_normalization existing_connection_id destination
                        normalization_config workspace_id w) = Raise e ->
          config_error e = true ->
          normalization_config = Some true
          /\ e = PyException (normalization_unsupported_msg destination)
          /\ exists w1 t1 existing_id,
               existing_basic_norm_op_id existing_connection_id w
               = (w1, t1, Return existing_id)
               /\ unsupported destination workspace_id w1).
Proof.
  intros E existing_connection_id destination workspace_id w. split.
  - intros w1 t1 existing_id Hid. split.
    + now apply normalization_disabled with (existing_id := existing_id).
    + intros Hun. split.
      * erewrite normalization_unsupported with (normalization_config := None);
          [reflexivity | exact Hid | discriminate | exact Hun].
      * erewrite normalization_unsupported with (normalization_config := Some true);
          [reflexivity | exact Hid | discriminate | exact Hun].
  - intros normalization_config e. apply normalization_config_error.
Qed.

(* ===================================================================== *)
(** ** Configured streams *)
(* ===================================================================== *)

Section Streams.

Lemma dict_get_set_same {V} (d : dict V) k v : dict_get (dict_set d k v) k = Some v.
Proof.
  induction d as [| [k' v'] d IH]; simpl.
  - now rewrite String.eqb_refl.
  - destruct (String.eqb k k') eqn:Hk; simpl; rewrite Hk; auto.
Qed.

Lemma dict_get_set_other {V} (d : dict V) k k' v :
  k' <> k -> dict_get (dict_set d k v) k' = dict_get d k'.
Proof.
  intros Hne. induction d as [| [k0 v0] d IH]; simpl.
  - destruct (String.eqb_spec k' k); [contradiction | reflexivity].
  - destruct (String.eqb_spec k k0) as [-> | Hk]; simpl.
    + destruct (String.eqb_spec k' k0); [contradiction | reflexivity].
    + destruct (String.eqb k' k0); auto.
Qed.

(** What [deep_merge_dicts] does with the pair of sync modes. *)
Lemma deep_merge_sync_modes descriptor config :
  deep_merge_dicts descriptor (sync_mode_json config)
  = dict_set descriptor "config"
      (match dict_get descriptor "config" with
       | Some (JDict old) =>
           JDict (dict_set
                    (dict_set old "syncMode"
                       (JStr (fst (AirbyteSyncMode.value config))))
                    "destinationSyncMode"
                    (JStr (snd (AirbyteSyncMode.value config))))
       | _ =>
           JDict [("syncMode", JStr (fst (AirbyteSyncMode.value config)));
                  ("destinationSyncMode", JStr (snd (AirbyteSyncMode.value config)))]
       end).
Proof.
  unfold deep_merge_dicts, sync_mode_json. simpl.
  destruct (dict_get descriptor "config") as [[| | | | |old] |]; try reflexivity.
  simpl. destruct (dict_get old "syncMode") as [[]|];
    destruct (dict_get (dict_set old "syncMode" _) "destinationSyncMode") as [[]|];
    reflexivity.
Qed.

Lemma merged_sync_modes descriptor config :
  let merged := JDict (deep_merge_dicts descriptor (sync_mode_json config)) in
  and_then (getitem merged "config") (fun c => getitem c "syncMode")
  = Return (JStr (fst (AirbyteSyncMode.value config)))
  /\ and_then (getitem merged "config") (fun c => getitem c "destinationSyncMode")
     = Return (JStr (snd (AirbyteSyncMode.value config)))
  /\ forall key, key <> "config" -> getitem merged key = getitem (JDict descriptor) key.
Proof.
  simpl. rewrite deep_merge_sync_modes. rewrite dict_get_set_same. simpl.
  repeat split.
  - destruct (dict_get descriptor "config") as [[| | | | |old] |]; try reflexivity.
    simpl. rewrite dict_get_set_other by discriminate.
    now rewrite dict_get_set_same.
  - destruct (dict_get descriptor "config") as [[| | | | |old] |]; try reflexivity.
    simpl. now rewrite dict_get_set_same.
  - intros key Hkey. now rewrite dict_get_set_other.
Qed.

Lemma stream_name_is_dict stream name :
  stream_name stream = Return name -> exists descriptor, stream = JDict descriptor.
Proof.
  unfold stream_name. destruct stream; simpl; try discriminate. eauto.
Qed.

Lemma dict_mem_get {V} (d : dict V) k :
  dict_mem d k = true -> exists v, dict_get d k = Some v.
Proof. unfold dict_mem. destruct (dict_get d k); [eauto | discriminate]. Qed.

Lemma configured_streams_of_merge base_streams stream_config :
  (forall stream, In stream base_streams ->
                  exists name, stream_name stream = Return (JStr name)) ->
  configured_streams_of base_streams stream_config
  = Return (merge base_streams stream_config).
Proof.
  unfold merge. induction base_streams as [| stream rest IH]; intros Hnamed.
  - reflexivity.
  - destruct (Hnamed stream (or_introl eq_refl)) as (name & Hname).
    assert (Hrest : forall s, In s rest -> exists n, stream_name s = Return (JStr n))
      by (intros s Hs; apply Hnamed; now right).
    specialize (IH Hrest).
    simpl. unfold mentioned at 1. rewrite Hname. simpl.
    destruct (dict_mem stream_config name) eqn:Hmem.
    + destruct (dict_mem_get _ _ Hmem) as (config & Hconfig).
      destruct (stream_name_is_dict _ Hname) as (descriptor & ->).
      unfold gen_configured_stream_json. rewrite Hname. simpl. rewrite Hconfig.
      simpl. rewrite IH. simpl. unfold with_sync_modes at 1.
      rewrite Hname, Hconfig. reflexivity.
    + exact IH.
Qed.

End Streams.

(** C7.  For every discovered catalog whose streams carry a name and every
    [stream_config], the list comprehension of the post-phase yields exactly
    [merge]: the discovered streams whose name is a key of [stream_config],
    in the order of the catalog.  Each of them carries the [syncMode] and
    [destinationSyncMode] of the configured pair and, under every other key,
    what the discovered stream has; a stream whose name is not a key of
    [stream_config] contributes nothing. *)
Theorem configured_streams_filter_and_merge :
  forall (base_streams : list json) (stream_config : dict AirbyteSyncMode.t),
    (forall stream, In stream base_streams ->
                    exists name, stream_name stream = Return (JStr name)) ->
    configured_streams_of base_streams stream_config
    = Return (map (with_sync_modes stream_config)
                (filter (mentioned stream_config) base_streams))
    /\ (forall stream name,
          In stream base_streams -> stream_name stream = Return (JStr name) ->
          dict_get stream_config name = None ->
          ~ In stream (filter (mentioned stream_config) base_streams))
    /\ (forall stream name config,
          In stream base_streams -> stream_name stream = Return (JStr name) ->
          dict_get stream_config name = Some config ->
          let configured := with_sync_modes stream_config stream in
          In configured (map (with_sync_modes stream_config)
                           (filter (mentioned stream_config) base_streams))
          /\ and_then (getitem configured "config") (fun c => getitem c "syncMode")
             = Return (JStr (fst (AirbyteSyncMode.value config)))
          /\ and_then (getitem configured "config")
               (fun c => getitem c "destinationSyncMode")
             = Return (JStr (snd (AirbyteSyncMode.value config)))
          /\ forall key, key <> "config" -> getitem configured key = getitem stream key).
Proof.
  intros base_streams stream_config Hnamed. split; [| split].
  - now apply configured_streams_of_merge.
  - intros stream name Hin Hname Hnone Hsel.
    apply filter_In in Hsel as [_ Hsel]. unfold mentioned in Hsel.
    rewrite Hname in Hsel. unfold dict_mem in Hsel. rewrite Hnone in Hsel. discriminate.
  - intros stream name config Hin Hname Hconfig configured.
    destruct (stream_name_is_dict _ Hname) as (descriptor & ->).
    assert (Hc : configured
                 = JDict (deep_merge_dicts descriptor (sync_mode_json config))).
    { unfold configured, with_sync_modes. now rewrite Hname, Hconfig. }
    split.
    + apply in_map. apply filter_In. split; [exact Hin |].
      unfold mentioned. rewrite Hname. unfold dict_mem. now rewrite Hconfig.
    + rewrite Hc. apply merged_sync_modes.
Qed.

(* ===================================================================== *)
(** ** The update of a connection that exists *)
(* ===================================================================== *)

Section UpdateBranch.
Context {E : Env}.

Lemma all_calls_bind_returned {A B} P (m : M A) (f : A -> M B) :
  all_calls P m ->
  (forall a w w1 t1, m w = (w1, t1, Return a) -> Forall P (trace_of (f a w1))) ->
  all_calls P (bind m f).
Proof.
  intros Hm Hf w. rewrite trace_bind. apply Forall_app. split; [apply Hm |].
  destruct (m w) as [[w1 t1] [a | e]] eqn:Hmw; simpl; [| constructor].
  eapply Hf. exact Hmw.
Qed.

Lemma connection_base_json_prepares existing_connections init_sources init_dests
    workspace_id dry_run conn_name config_conn :
  all_calls (fun c => in_prepare c = true)
    (connection_base_json existing_connections init_sources init_dests
       workspace_id dry_run conn_name config_conn).
Proof.
  unfold connection_base_json, looked_up_connection_id, reconcile_normalization,
    existing_basic_norm_op_id, destination_supports_normalization.
  calls_auto; reflexivity.
Qed.

Lemma prepare_no_update conn_name c :
  in_prepare c = true -> updates_connection conn_name c = false.
Proof. revert c. by_endpoint. Qed.

Lemma connection_base_json_name existing_connections init_sources init_dests
    workspace_id dry_run conn_name config_conn w w' t base_json :
  connection_base_json existing_connections init_sources init_dests
    workspace_id dry_run conn_name config_conn w = (w', t, Return base_json) ->
  forall rest, dict_get (base_json ++ rest) "name" = Some (JStr conn_name).
Proof.
  unfold connection_base_json. intros H.
  apply bind_returns in H as (w1 & t1 & op & t2 & _ & H & _).
  apply bind_returns in H as (w2 & t3 & streams & t4 & _ & H & _).
  unfold ret in H. injection H as _ _ <-. reflexivity.
Qed.

Lemma send_connection_key_error init_sources init_dests conn_name config_conn
    existing base_json w :
  dict_get init_sources conn_name = None ->
  send_connection init_sources init_dests false conn_name config_conn
    (Some existing) base_json w
  = (w, [], Raise (KeyError (JStr conn_name))).
Proof.
  intros H. unfold send_connection, index, bind, raise. rewrite H. reflexivity.
Qed.

Lemma send_connection_updates_own_name init_sources init_dests dry_run conn_name
    config_conn existing_conn base_json other :
  (forall rest, dict_get (base_json ++ rest) "name" = Some (JStr conn_name)) ->
  conn_name <> other ->
  all_calls (fun c => updates_connection other c = false)
    (send_connection init_sources init_dests dry_run conn_name config_conn
       existing_conn base_json).
Proof.
  intros Hname Hne. unfold send_connection. calls_auto; try reflexivity.
  simpl. rewrite Hname. now apply String.eqb_neq in Hne as ->.
Qed.

Section Loop.
Variables (existing_connections : dict InitializedAirbyteConnection.t)
          (init_sources : dict InitializedAirbyteSource.t)
          (init_dests : dict InitializedAirbyteDestination.t)
          (workspace_id : json)
          (conn_name : string)
          (existing : InitializedAirbyteConnection.t).
Hypothesis Hexisting : dict_get existing_connections conn_name = Some existing.
Hypothesis Hmissing : dict_get init_sources conn_name = None.

Local Abbreviation body :=
  (reconcile_connections_post_body existing_connections init_sources init_dests
     workspace_id false).

Lemma post_body_never_updates item :
  all_calls (fun c => updates_connection conn_name c = false) (body tt item).
Proof.
  destruct item as [name config_conn]. unfold reconcile_connections_post_body.
  apply all_calls_bind_returned.
  - eapply all_calls_weaken; [apply prepare_no_update |].
    apply connection_base_json_prepares.
  - intros base_json w w1 t1 Hbase.
    destruct (String.eqb_spec name conn_name) as [-> | Hne].
    + rewrite Hexisting, send_connection_key_error by exact Hmissing. constructor.
    + apply send_connection_updates_own_name; [| exact Hne].
      eapply connection_base_json_name. exact Hbase.
Qed.

Lemma post_body_raises config_conn w :
  exists e, outcome_of (body tt (conn_name, config_conn) w) = Raise e.
Proof.
  unfold reconcile_connections_post_body, bind, outcome_of.
  destruct (connection_base_json _ _ _ _ _ _ _ w) as [[w1 t1] [base_json | e]].
  - rewrite Hexisting, send_connection_key_error by exact Hmissing. simpl. eauto.
  - simpl. eauto.
Qed.

Lemma post_loop_raises config_conn items :
  In (conn_name, config_conn) items ->
  forall w, exists e, outcome_of (for_each items body tt w) = Raise e.
Proof.
  induction items as [| item items IH]; intros Hin w; [contradiction |].
  simpl. unfold bind, outcome_of.
  destruct (body tt item w) as [[w1 t1] [[] | e]] eqn:Hitem.
  - destruct Hin as [-> | Hin].
    + destruct (post_body_raises config_conn w) as (e & He).
      rewrite Hitem in He. discriminate.
    + destruct (IH Hin w1) as (e & He). unfold outcome_of in He.
      destruct (for_each items body tt w1) as [[w2 t2] r]. simpl in *. eauto.
  - simpl. eauto.
Qed.

End Loop.

End UpdateBranch.

(** C10.  In [reconcile_connections_post] with [dry_run=False], for a
    configured connection that the instance already has and whose name is
    not a key of the map of sources: the update branch raises
    [KeyError(conn_name)] from [init_sources[conn_name]] before it makes any
    call; the function does not return; and no update request for that
    connection is ever made. *)
Theorem existing_connection_update_needs_source_of_same_name :
  forall (E : Env)
         (config_connections : dict AirbyteConnection.t)
         (init_sources : dict InitializedAirbyteSource.t)
         (init_dests : dict InitializedAirbyteDestination.t)
         (workspace_id : json) (w w1 : World) (t1 : list call)
         (existing_connections : dict InitializedAirbyteConnection.t)
         (conn_name : string) (config_conn : AirbyteConnection.t)
         (existing : InitializedAirbyteConnection.t),
    fetch_connections init_sources init_dests workspace_id w
    = (w1, t1, Return existing_connections) ->
    In (conn_name, config_conn) config_connections ->
    dict_get existing_connections conn_name = Some existing ->
    dict_get init_sources conn_name = None ->
    (forall base_json w',
        send_connection init_sources init_dests false conn_name config_conn
          (Some existing) base_json w'
        = (w', [], Raise (KeyError (JStr conn_name))))
    /\ (exists e,
          outcome_of (reconcile_connections_post config_connections init_sources
                        init_dests workspace_id false w) = Raise e)
    /\ Forall (fun c => updates_connection conn_name c = false)
         (trace_of (reconcile_connections_post config_connections init_sources
                      init_dests workspace_id false w)).
Proof.
  intros E config_connections init_sources init_dests workspace_id w w1 t1
         existing_connections conn_name config_conn existing
         Hfetch Hin Hexisting Hmissing.
  split; [| split].
  - intros base_json w'. now apply send_connection_key_error.
  - unfold reconcile_connections_post.
    erewrite outcome_bind_returned by exact Hfetch.
    eapply post_loop_raises; eauto.
  - unfold reconcile_connections_post.
    erewrite trace_bind_returned by exact Hfetch.
    apply Forall_app. split.
    + pose proof (@fetch_connections_phase _ in_pre init_sources init_dests
                    workspace_id (fun _ => eq_refl) w) as H.
      rewrite Hfetch in H. revert H. apply Forall_impl.
      clear. revert conn_name. intros conn_name c. revert c. by_endpoint.
    + apply all_calls_for_each. intros [] item.
      eapply post_body_never_updates; eauto.
Qed.

(* ===================================================================== *)
(** ** The result maps of the entity reconcilers *)
(* ===================================================================== *)

Section Results.
Context {E : Env}.

Lemma returns_ret {A} (P : A -> Prop) a : P a -> returns P (ret a).
Proof. intros H w w' t a' Hr. unfold ret in Hr. injection Hr as _ _ <-. exact H. Qed.

Lemma returns_raise {A} (P : A -> Prop) e : returns P (raise e).
Proof. intros w w' t a Hr. discriminate. Qed.

Lemma returns_bind {A B} (Q : A -> Prop) (P : B -> Prop) (m : M A) (f : A -> M B) :
  returns Q m -> (forall a, Q a -> returns P (f a)) -> returns P (bind m f).
Proof.
  intros Hm Hf w w' t b Hr.
  apply bind_returns in Hr as (w1 & t1 & a & t2 & Ha & Hb & _).
  eapply Hf; [eapply Hm |]; eassumption.
Qed.

Lemma returns_bind_ret {A B} (P : B -> Prop) (a : A) (f : A -> M B) :
  returns P (f a) -> returns P (bind (ret a) f).
Proof.
  intros H w w' t b Hr.
  apply bind_returns in Hr as (w1 & t1 & a' & t2 & Ha & Hb & _).
  unfold ret in Ha. injection Ha as <- _ <-. eapply H. exact Hb.
Qed.

Lemma returns_any {A} (m : M A) : returns (fun _ => True) m.
Proof. intros w w' t a _. exact I. Qed.

Lemma returns_then {A B} (P : B -> Prop) (m : M A) (f : A -> M B) :
  (forall a, returns P (f a)) -> returns P (bind m f).
Proof. intros Hf. apply returns_bind with (Q := fun _ => True); [apply returns_any | auto]. Qed.

(** A loop keeps what every run of its body keeps. *)
Lemma for_each_keeps {A S} (I : S -> Prop) (body : S -> A -> M S) xs :
  (forall acc x, I acc -> returns I (body acc x)) ->
  forall acc, I acc -> returns I (for_each xs body acc).
Proof.
  intros Hbody. induction xs as [| x xs IH]; intros acc Hacc; simpl.
  - now apply returns_ret.
  - eapply returns_bind; [apply Hbody, Hacc | intros acc' Hacc'; now apply IH].
Qed.

(** A loop that passes [x] ends in what the body establishes at [x], if
    the body keeps it everywhere else. *)
Lemma for_each_establishes {A S} (I : S -> Prop) (body : S -> A -> M S) x :
  (forall acc, returns I (body acc x)) ->
  (forall acc y, I acc -> returns I (body acc y)) ->
  forall xs, In x xs -> forall acc, returns I (for_each xs body acc).
Proof.
  intros Hx Hkeep. induction xs as [| y xs IH]; intros Hin acc; [contradiction |].
  simpl. destruct Hin as [-> | Hin].
  - eapply returns_bind; [apply Hx |]. intros acc' Hacc'. now apply for_each_keeps.
  - apply returns_then. intros acc'. now apply IH.
Qed.

Lemma in_dict_keys {V} (d : dict V) k v : dict_get d k = Some v -> In k (dict_keys d).
Proof.
  induction d as [| [k' v'] d IH]; simpl; [discriminate |].
  destruct (String.eqb_spec k k') as [-> | Hne]; [now left | intros H; right; auto].
Qed.

End Results.

(** Takes a goal [returns P m] apart along the structure of [m]; [carried]
    is what is known of the pair a loop body carries from its first half to its
    second. *)
Ltac returns_step carried :=
  first
    [ progress cbv beta iota zeta
    | apply returns_raise
    | apply returns_ret
    | apply returns_bind_ret
    | match goal with
      | |- returns _ (@bind _ (prod _ (option _)) _ _ _) =>
          apply returns_bind with (Q := carried); [| intros [? ?] ?]
      | |- returns _ (bind _ _) => apply returns_then; intros ?
      | |- returns _ (match ?x with _ => _ end) => destruct x
      | |- returns _ (if ?x then _ else _) => destruct x
      end ].

Section Retained.
Context {E : Env}.

Section Sources.
Variables (config_sources : dict AirbyteSource.t)
          (existing_sources : dict InitializedAirbyteSource.t)
          (workspace_id : json) (dry_run should_delete : bool)
          (name : string) (existing : InitializedAirbyteSource.t).
Hypothesis Hconfigured : dict_get config_sources name = None.
Hypothesis Hexisting : dict_get existing_sources name = Some existing.

Local Abbreviation body :=
  (reconcile_sources_body config_sources existing_sources workspace_id dry_run
     should_delete).

Local Abbreviation retained :=
  (fun acc : dict InitializedAirbyteSource.t * ManagedElementDiff =>
     dict_get (fst acc) name = Some existing).

Lemma sources_body_retains acc : returns retained (body acc name).
Proof.
  destruct acc as [initialized diff]. intros w w' t [initialized' diff'].
  unfold reconcile_sources_body. rewrite Hconfigured, Hexisting.
  destruct should_delete; simpl.
  - unfold unless_dry_run, bind, perform, ret.
    destruct dry_run; simpl;
      [| destruct (remote w _) as [w1 [msg | j]]; simpl];
      intros H; try discriminate; injection H as _ _ <- _;
      apply dict_get_set_same.
  - unfold ret. intros H. injection H as _ _ <- _. apply dict_get_set_same.
Qed.

Lemma sources_body_keeps acc other : retained acc -> returns retained (body acc other).
Proof.
  intros Hacc. destruct (String.eqb_spec other name) as [-> | Hne];
    [apply sources_body_retains |].
  destruct acc as [initialized diff]. simpl in Hacc.
  unfold reconcile_sources_body.
  repeat returns_step
    (fun acc' : dict InitializedAirbyteSource.t * option InitializedAirbyteSource.t =>
       dict_get (fst acc') name = Some existing);
    simpl in *; rewrite ?dict_get_set_other by auto; auto.
Qed.

Lemma reconcile_sources_retains :
  returns retained
    (reconcile_sources config_sources existing_sources workspace_id dry_run
       should_delete).
Proof.
  unfold reconcile_sources.
  apply for_each_establishes with (x := name).
  - apply sources_body_retains.
  - apply sources_body_keeps.
  - apply set_order_In, in_or_app. right. eapply in_dict_keys, Hexisting.
Qed.

End Sources.

Section Destinations.
Variables (config_destinations : dict AirbyteDestination.t)
          (existing_destinations : dict InitializedAirbyteDestination.t)
          (workspace_id : json) (dry_run should_delete : bool)
          (name : string) (existing : InitializedAirbyteDestination.t).
Hypothesis Hconfigured : dict_get config_destinations name = None.
Hypothesis Hexisting : dict_get existing_destinations name = Some existing.

Local Abbreviation body :=
  (reconcile_destinations_body config_destinations existing_destinations
     workspace_id dry_run should_delete).

Local Abbreviation retained :=
  (fun acc : dict InitializedAirbyteDestination.t * ManagedElementDiff =>
     dict_get (fst acc) name = Some existing).

Lemma destinations_body_retains acc : returns retained (body acc name).
Proof.
  destruct acc as [initialized diff]. intros w w' t [initialized' diff'].
  unfold reconcile_destinations_body. rewrite Hconfigured, Hexisting.
  destruct should_delete; simpl.
  - unfold unless_dry_run, bind, perform, ret.
    destruct dry_run; simpl;
      [| destruct (remote w _) as [w1 [msg | j]]; simpl];
      intros H; try discriminate; injection H as _ _ <- _;
      apply dict_get_set_same.
  - unfold ret. intros H. injection H as _ _ <- _. apply dict_get_set_same.
Qed.

Lemma destinations_body_keeps acc other :
  retained acc -> returns retained (body acc other).
Proof.
  intros Hacc. destruct (String.eqb_spec other name) as [-> | Hne];
    [apply destinations_body_retains |].
  destruct acc as [initialized diff]. simpl in Hacc.
  unfold reconcile_destinations_body.
  repeat returns_step (fun _ : unit * option unit => True);
    simpl in *; rewrite ?dict_get_set_other by auto; auto.
Qed.

Lemma reconcile_destinations_retains :
  returns retained
    (reconcile_destinations config_destinations existing_destinations workspace_id
       dry_run should_delete).
Proof.
  unfold reconcile_destinations.
  apply for_each_establishes with (x := name).
  - apply destinations_body_retains.
  - apply destinations_body_keeps.
  - apply set_order_In, in_or_app. right. eapply in_dict_keys, Hexisting.
Qed.

End Destinations.

Lemma sources_body_deletes config_sources existing_sources workspace_id name
    existing acc w :
  dict_get config_sources name = None ->
  dict_get existing_sources name = Some existing ->
  In (delete_source existing)
     (trace_of (reconcile_sources_body config_sources existing_sources workspace_id
                  false true acc name w)).
Proof.
  intros Hc He. destruct acc as [initialized diff].
  unfold reconcile_sources_body. rewrite Hc, He. simpl.
  unfold unless_dry_run, bind, perform, delete_source, trace_of.
  destruct (remote w _) as [w1 [msg | j]]; simpl; now left.
Qed.

Lemma destinations_body_deletes config_destinations existing_destinations
    workspace_id name existing acc w :
  dict_get config_destinations name = None ->
  dict_get existing_destinations name = Some existing ->
  In (delete_destination existing)
     (trace_of (reconcile_destinations_body config_destinations
                  existing_destinations workspace_id false true acc name w)).
Proof.
  intros Hc He. destruct acc as [initialized diff].
  unfold reconcile_destinations_body. rewrite Hc, He. simpl.
  unfold unless_dry_run, bind, perform, delete_destination, trace_of.
  destruct (remote w _) as [w1 [msg | j]]; simpl; now left.
Qed.

End Retained.

(** C9, as the code has it.  An entity that is observed, has no desired
    configuration and is deleted during the pass keeps its entry in the map
    that [reconcile_sources], and likewise [reconcile_destinations],
    returns: the entry holds the observed instance as it was before the
    delete request. *)
Theorem deleted_entity_keeps_its_entry :
  forall (E : Env) (workspace_id : json) (name : string) (w w' : World)
         (t : list call) (diff : ManagedElementDiff),
    (forall config_sources existing_sources existing initialized,
        dict_get config_sources name = None ->
        dict_get existing_sources name = Some existing ->
        reconcile_sources config_sources existing_sources workspace_id false true w
        = (w', t, Return (initialized, diff)) ->
        In (delete_source existing) t
        /\ dict_get initialized name = Some existing)
    /\ (forall config_destinations existing_destinations existing initialized,
          dict_get config_destinations name = None ->
          dict_get existing_destinations name = Some existing ->
          reconcile_destinations config_destinations existing_destinations
            workspace_id false true w
          = (w', t, Return (initialized, diff)) ->
          In (delete_destination existing) t
          /\ dict_get initialized name = Some existing).
Proof.
  intros E workspace_id name w w' t diff. split.
  - intros config_sources existing_sources existing initialized Hc He Hrun. split.
    + unfold reconcile_sources in Hrun.
      eapply for_each_reaches with (x := name); [| exact Hrun |].
      * intros acc w0. now apply sources_body_deletes.
      * apply set_order_In, in_or_app. right. eapply in_dict_keys, He.
    + exact (@reconcile_sources_retains _ _ _ workspace_id false true _ _ Hc He
               _ _ _ _ Hrun).
  - intros config_destinations existing_destinations existing initialized Hc He Hrun.
    split.
    + unfold reconcile_destinations in Hrun.
      eapply for_each_reaches with (x := name); [| exact Hrun |].
      * intros acc w0. now apply destinations_body_deletes.
      * apply set_order_In, in_or_app. right. eapply in_dict_keys, He.
    + exact (@reconcile_destinations_retains _ _ _ workspace_id false true _ _ Hc He
               _ _ _ _ Hrun).
Qed.

(* ===================================================================== *)
(** ** A converged instance *)
(* ===================================================================== *)

Section Diffs.

Lemma json_induction (P : json -> Prop) :
  P JNull -> (forall b, P (JBool b)) -> (forall n, P (JNum n)) ->
  (forall s, P (JStr s)) ->
  (forall items, Forall P items -> P (JList items)) ->
  (forall entries, Forall (fun kv => P (snd kv)) entries -> P (JDict entries)) ->
  forall j, P j.
Proof.
  intros HN HB HZ HS HL HD.
  refine (fix IH (j : json) : P j :=
            match j with
            | JNull => HN
            | JBool b => HB b
            | JNum n => HZ n
            | JStr s => HS s
            | JList items =>
                HL items
                   ((fix all (l : list json) : Forall P l :=
                       match l with
                       | [] => Forall_nil P
                       | x :: l' => Forall_cons x (IH x) (all l')
                       end) items)
            | JDict entries =>
                HD entries
                   ((fix all (l : list (string * json))
                     : Forall (fun kv => P (snd kv)) l :=
                       match l with
                       | [] => Forall_nil _
                       | kv :: l' => Forall_cons kv (IH (snd kv)) (all l')
                       end) entries)
            end).
Qed.

Lemma json_eqb_refl j : json_eqb j j = true.
Proof.
  induction j as [| b | n | s | items IH | entries IH] using json_induction; simpl.
  - reflexivity.
  - now destruct b.
  - apply Z.eqb_refl.
  - apply String.eqb_refl.
  - induction IH as [| x l Hx _ IHl]; [reflexivity |]. now rewrite Hx, IHl.
  - induction IH as [| [k x] l Hx _ IHl]; [reflexivity |].
    simpl in Hx. now rewrite String.eqb_refl, Hx, IHl.
Qed.

Lemma is_empty_join d1 d2 : is_empty (join d1 d2) = is_empty d1 && is_empty d2.
Proof.
  destruct d1 as [a1 r1 m1 n1], d2 as [a2 r2 m2 n2].
  assert (Hall :
            forall n,
              (fix all_empty (n : list (string * ManagedElementDiff)) : bool :=
                 match n with
                 | [] => true
                 | (_, d') :: n' => is_empty d' && all_empty n'
                 end) (n ++ n2)
              = (fix all_empty (n : list (string * ManagedElementDiff)) : bool :=
                   match n with
                   | [] => true
                   | (_, d') :: n' => is_empty d' && all_empty n'
                   end) n
                && (fix all_empty (n : list (string * ManagedElementDiff)) : bool :=
                      match n with
                      | [] => true
                      | (_, d') :: n' => is_empty d' && all_empty n'
                      end) n2).
  { induction n as [| [k d] n IH]; [reflexivity |].
    simpl. simpl in IH. rewrite IH. now rewrite andb_assoc. }
  destruct a1, r1, m1, a2, r2, m2; simpl; rewrite ?andb_false_r; try reflexivity.
  apply Hall.
Qed.

Lemma is_empty_with_nested key inner :
  is_empty (with_nested key inner empty_diff) = is_empty inner.
Proof. simpl. now rewrite andb_true_r. Qed.

Lemma existsb_eqb_in k ks : existsb (String.eqb k) ks = true <-> In k ks.
Proof.
  rewrite existsb_exists. split.
  - intros (x & Hin & Heq). apply String.eqb_eq in Heq. now subst.
  - intros Hin. exists k. split; [exact Hin | apply String.eqb_refl].
Qed.

Lemma dict_get_unique {V} (d : dict V) k v :
  unique_keys (map fst d) = true -> In (k, v) d -> dict_get d k = Some v.
Proof.
  induction d as [| [k' v'] d IH]; simpl; [contradiction |].
  intros Hu Hin. apply andb_true_iff in Hu as [Hfresh Hu].
  destruct Hin as [Heq | Hin].
  - injection Heq as -> ->. now rewrite String.eqb_refl.
  - destruct (String.eqb_spec k k') as [-> | Hne]; [| now apply IH].
    exfalso. apply negb_true_iff in Hfresh.
    assert (H : existsb (String.eqb k') (map fst d) = true).
    { apply existsb_eqb_in. apply in_map_iff. now exists (k', v). }
    congruence.
Qed.

Lemma dict_get_in {V} (d : dict V) k v : dict_get d k = Some v -> In (k, v) d.
Proof.
  induction d as [| [k' v'] d IH]; simpl; [discriminate |].
  destruct (String.eqb_spec k k') as [-> | Hne].
  - intros H. injection H as ->. now left.
  - intros H. right. auto.
Qed.

Lemma removed_entries_self (d : dict json) : removed_entries d d = [].
Proof.
  unfold removed_entries.
  assert (H : forall l : list (string * json),
             (forall kv, In kv l -> dict_mem d (fst kv) = true) ->
             filter (fun kv => negb (dict_mem d (fst kv))) l = []).
  { induction l as [| kv l IH]; intros Hl; [reflexivity |].
    simpl. rewrite (Hl kv (or_introl eq_refl)). simpl. apply IH.
    intros kv' Hin. apply Hl. now right. }
  apply H. intros [k v] Hin. simpl. unfold dict_mem.
  clear H. induction d as [| [k' v'] d IH]; [contradiction |].
  simpl. destruct (String.eqb k k') eqn:Hk; [reflexivity |].
  destruct Hin as [Heq | Hin].
  - injection Heq as -> ->. now rewrite String.eqb_refl in Hk.
  - now apply IH.
Qed.

Lemma json_wf_dict entries :
  json_wf (JDict entries) = true ->
  unique_keys (map fst entries) = true
  /\ Forall (fun kv => json_wf (snd kv) = true) entries.
Proof.
  simpl. intros H. apply andb_true_iff in H as [Hu Hall]. split; [exact Hu |].
  clear Hu. induction entries as [| [k v] entries IH]; constructor.
  - simpl. now apply andb_true_iff in Hall as [Hv _].
  - apply IH. now apply andb_true_iff in Hall as [_ Hrest].
Qed.

Lemma diff_value_scalar key j :
  (forall entries, j <> JDict entries) ->
  diff_value key j (Some j)
  = if json_eqb j j then empty_diff else Diff [] [] [(key, (j, j))] [].
Proof. intros H. destruct j; try reflexivity. now contradiction (H entries). Qed.

Lemma diff_value_self j :
  json_wf j = true -> forall key, is_empty (diff_value key j (Some j)) = true.
Proof.
  induction j as [| b | n | s | items IH | entries IH] using json_induction;
    intros Hwf key;
    try (rewrite diff_value_scalar by discriminate;
         now rewrite json_eqb_refl).
  change (is_empty
            (with_nested key
               ((fix present (es : list (string * json)) : ManagedElementDiff :=
                   match es with
                   | [] => Diff [] (removed_entries entries entries) [] []
                   | (k, v) :: es' =>
                       join (diff_value k v (dict_get entries k)) (present es')
                   end) entries)
               empty_diff) = true).
  rewrite is_empty_with_nested.
  apply json_wf_dict in Hwf as [Hu Hall].
  assert (Hsuffix :
            forall es,
              (forall kv, In kv es -> In kv entries) ->
              is_empty
                ((fix present (es : list (string * json)) : ManagedElementDiff :=
                    match es with
                    | [] => Diff [] (removed_entries entries entries) [] []
                    | (k, v) :: es' =>
                        join (diff_value k v (dict_get entries k)) (present es')
                    end) es) = true).
  { induction es as [| [k v] es IHes]; intros Hsub.
    - now rewrite removed_entries_self.
    - rewrite is_empty_join. apply andb_true_iff. split.
      + assert (Hin : In (k, v) entries) by (apply Hsub; now left).
        rewrite (dict_get_unique _ _ _ Hu Hin).
        rewrite Forall_forall in IH, Hall.
        apply (IH (k, v) Hin). apply (Hall (k, v) Hin).
      + apply IHes. intros kv Hkv. apply Hsub. now right. }
  apply Hsuffix. auto.
Qed.

Lemma diff_dicts_self d : dict_wf d = true -> is_empty (diff_dicts d d) = true.
Proof.
  intros Hwf. apply json_wf_dict in Hwf as [Hu Hall].
  unfold diff_dicts. rewrite is_empty_join, removed_entries_self, andb_true_r.
  assert (Hsuffix : forall es, (forall kv, In kv es -> In kv d) ->
                               is_empty (diff_present es d) = true).
  { induction es as [| [k v] es IHes]; intros Hsub; [reflexivity |].
    simpl. rewrite is_empty_join. apply andb_true_iff. split.
    - assert (Hin : In (k, v) d) by (apply Hsub; now left).
      rewrite (dict_get_unique _ _ _ Hu Hin).
      rewrite Forall_forall in Hall. apply diff_value_self. apply (Hall (k, v) Hin).
    - apply IHes. intros kv Hkv. apply Hsub. now right. }
  apply Hsuffix. auto.
Qed.

End Diffs.

Section Converged.
Context {E : Env}.

Lemma source_recreated_self s : source_must_be_recreated s s = false.
Proof. unfold source_must_be_recreated. now rewrite String.eqb_refl. Qed.

Lemma destination_recreated_self d : destination_must_be_recreated d d = false.
Proof. unfold destination_must_be_recreated. now rewrite String.eqb_refl. Qed.

Lemma connection_recreated_self c : connection_must_be_recreated c c = false.
Proof.
  unfold connection_must_be_recreated, referenced_recreated.
  destruct (AirbyteConnection.source c), (AirbyteConnection.destination c);
    now rewrite ?source_recreated_self, ?destination_recreated_self.
Qed.

Lemma diff_sources_self s :
  dict_wf (AirbyteSource.source_configuration s) = true ->
  diff_sources (Some s) (Some s) = empty_diff.
Proof. intros H. unfold diff_sources. now rewrite diff_dicts_self. Qed.

Lemma diff_destinations_self d :
  dict_wf (AirbyteDestination.destination_configuration d) = true ->
  diff_destinations (Some d) (Some d) = empty_diff.
Proof. intros H. unfold diff_destinations. now rewrite diff_dicts_self. Qed.

Lemma conn_dict_wf c :
  unique_keys (dict_keys (AirbyteConnection.stream_config c)) = true ->
  dict_wf (conn_dict (Some c)) = true.
Proof.
  intros Hu. unfold dict_wf, conn_dict. simpl.
  destruct (AirbyteConnection.normalize_data c); simpl;
    rewrite andb_true_r; apply andb_true_iff; (split;
      [ unfold dict_keys in Hu; rewrite map_map; simpl; exact Hu
      | clear Hu; induction (AirbyteConnection.stream_config c) as [| [k v] l IH];
        [reflexivity | simpl; exact IH] ]).
Qed.

Lemma diff_connections_self c :
  unique_keys (dict_keys (AirbyteConnection.stream_config c)) = true ->
  diff_connections (Some c) (Some c) = empty_diff.
Proof.
  intros H. unfold diff_connections. now rewrite diff_dicts_self by now apply conn_dict_wf.
Qed.

Lemma is_empty_join_empty d : is_empty (join d empty_diff) = is_empty d.
Proof. rewrite is_empty_join. apply andb_true_r. Qed.

Lemma forallb_dict_get {V} (P : string * V -> bool) (d : dict V) k v :
  forallb P d = true -> dict_get d k = Some v -> P (k, v) = true.
Proof.
  intros Hall Hget. rewrite forallb_forall in Hall. apply Hall.
  now apply dict_get_in.
Qed.

(** *** The first phase *)

Section Pre.
Variables (config_connections : dict AirbyteConnection.t)
          (existing_connections : dict InitializedAirbyteConnection.t)
          (should_delete : bool).
Hypothesis Hsame :
  forall name,
    option_map InitializedAirbyteConnection.connection
      (dict_get existing_connections name)
    = dict_get config_connections name.
Hypothesis Hwf :
  forall name c,
    dict_get config_connections name = Some c ->
    unique_keys (dict_keys (AirbyteConnection.stream_config c)) = true.

Lemma converged_pre_body diff name w :
  exists diff',
    reconcile_connections_pre_body config_connections existing_connections false
      should_delete diff name w = (w, [], Return diff')
    /\ is_empty diff' = is_empty diff.
Proof.
  unfold reconcile_connections_pre_body.
  pose proof (Hsame name) as Hname. pose proof (Hwf name) as Hwfname.
  destruct (dict_get config_connections name) as [c |];
    destruct (dict_get existing_connections name) as [e |]; try discriminate;
    simpl in Hname.
  - injection Hname as Hc. rewrite andb_false_r. simpl. rewrite Hc.
    rewrite connection_recreated_self, diff_connections_self by auto.
    eexists. split; [reflexivity | apply is_empty_join_empty].
  - destruct should_delete; simpl.
    + eexists. split; [reflexivity | apply is_empty_join_empty].
    + eexists. split; reflexivity.
Qed.

Lemma converged_pre_loop names diff w :
  exists diff',
    for_each names
      (reconcile_connections_pre_body config_connections existing_connections false
         should_delete) diff w = (w, [], Return diff')
    /\ is_empty diff' = is_empty diff.
Proof.
  revert diff. induction names as [| name names IH]; intros diff; simpl.
  - eexists. split; reflexivity.
  - destruct (converged_pre_body diff name w) as (d1 & Hbody & H1).
    destruct (IH d1) as (d2 & Hrest & H2).
    exists d2. split; [| congruence].
    unfold bind. now rewrite Hbody, Hrest.
Qed.

End Pre.

(** *** Sources and destinations *)

Section Entities.
Variables (workspace_id : json) (should_delete : bool).

Lemma converged_sources_calls config_sources existing_sources :
  (forall name,
      option_map InitializedAirbyteSource.source (dict_get existing_sources name)
      = dict_get config_sources name) ->
  all_calls (fun c => creates_or_deletes c = false)
    (reconcile_sources config_sources existing_sources workspace_id false
       should_delete).
Proof.
  intros Hsame. unfold reconcile_sources. apply all_calls_for_each.
  intros [initialized diff] name. unfold reconcile_sources_body.
  rewrite <- (Hsame name).
  destruct (dict_get existing_sources name) as [e |]; simpl;
    rewrite ?source_recreated_self; calls_auto; reflexivity.
Qed.

Lemma converged_sources_diff config_sources existing_sources :
  (forall name,
      option_map InitializedAirbyteSource.source (dict_get existing_sources name)
      = dict_get config_sources name) ->
  (forall name s,
      dict_get config_sources name = Some s ->
      dict_wf (AirbyteSource.source_configuration s) = true) ->
  returns (fun result => is_empty (snd result) = true)
    (reconcile_sources config_sources existing_sources workspace_id false
       should_delete).
Proof.
  intros Hsame Hwf. unfold reconcile_sources.
  apply for_each_keeps; [| reflexivity].
  intros [initialized diff] name Hdiff. simpl in Hdiff.
  unfold reconcile_sources_body.
  pose proof (Hwf name) as Hwfname. rewrite <- (Hsame name) in *.
  destruct (dict_get existing_sources name) as [e |]; simpl in *.
  - rewrite source_recreated_self, diff_sources_self by auto.
    repeat returns_step (fun _ : unit * option unit => True);
      simpl; now rewrite is_empty_join_empty.
  - repeat returns_step (fun _ : unit * option unit => True);
      simpl; now rewrite ?is_empty_join_empty.
Qed.

Lemma converged_destinations_calls config_destinations existing_destinations :
  (forall name,
      option_map InitializedAirbyteDestination.destination
        (dict_get existing_destinations name)
      = dict_get config_destinations name) ->
  all_calls (fun c => creates_or_deletes c = false)
    (reconcile_destinations config_destinations existing_destinations workspace_id
       false should_delete).
Proof.
  intros Hsame. unfold reconcile_destinations. apply all_calls_for_each.
  intros [initialized diff] name. unfold reconcile_destinations_body.
  rewrite <- (Hsame name).
  destruct (dict_get existing_destinations name) as [e |]; simpl;
    rewrite ?destination_recreated_self; calls_auto; reflexivity.
Qed.

Lemma converged_destinations_diff config_destinations existing_destinations :
  (forall name,
      option_map InitializedAirbyteDestination.destination
        (dict_get existing_destinations name)
      = dict_get config_destinations name) ->
  (forall name d,
      dict_get config_destinations name = Some d ->
      dict_wf (AirbyteDestination.destination_configuration d) = true) ->
  returns (fun result => is_empty (snd result) = true)
    (reconcile_destinations config_destinations existing_destinations workspace_id
       false should_delete).
Proof.
  intros Hsame Hwf. unfold reconcile_destinations.
  apply for_each_keeps; [| reflexivity].
  intros [initialized diff] name Hdiff. simpl in Hdiff.
  unfold reconcile_destinations_body.
  pose proof (Hwf name) as Hwfname. rewrite <- (Hsame name) in *.
  destruct (dict_get existing_destinations name) as [e |]; simpl in *.
  - rewrite destination_recreated_self, diff_destinations_self by auto.
    repeat returns_step (fun _ : unit * option unit => True);
      simpl; now rewrite is_empty_join_empty.
  - repeat returns_step (fun _ : unit * option unit => True);
      simpl; now rewrite ?is_empty_join_empty.
Qed.

End Entities.

(** *** The last phase *)

Lemma dict_mem_set {V} (d : dict V) n v k :
  dict_mem (dict_set d n v) k = String.eqb k n || dict_mem d k.
Proof.
  unfold dict_mem. destruct (String.eqb_spec k n) as [-> | Hne]; simpl.
  - now rewrite dict_get_set_same.
  - now rewrite dict_get_set_other.
Qed.

Lemma dict_mem_in {V} (d : dict V) k v : In (k, v) d -> dict_mem d k = true.
Proof.
  unfold dict_mem. induction d as [| [k' v'] d IH]; simpl; [contradiction |].
  destruct (String.eqb_spec k k'); [reflexivity |].
  intros [Heq | Hin]; [injection Heq as -> _; contradiction | auto].
Qed.

Lemma lift_returns {A} (o : outcome A) (w w' : World) t a :
  lift o w = (w', t, Return a) -> o = Return a.
Proof. unfold lift. intros H. now injection H. Qed.

(** The names under which a listing is decoded do not depend on the
    decoder. *)
Lemma decode_loop_keys {V1 V2} (f1 : json -> outcome V1) (f2 : json -> outcome V2)
    items :
  forall (acc1 : dict V1) (acc2 : dict V2) (w1 w1' w2 w2' : World) t1 t2 d1 d2,
    (forall k, dict_mem acc1 k = dict_mem acc2 k) ->
    for_each items
      (fun decoded item =>
         name <- lift (and_then (getitem item "name") as_str) ;;
         entity <- lift (f1 item) ;;
         ret (dict_set decoded name entity)) acc1 w1 = (w1', t1, Return d1) ->
    for_each items
      (fun decoded item =>
         name <- lift (and_then (getitem item "name") as_str) ;;
         entity <- lift (f2 item) ;;
         ret (dict_set decoded name entity)) acc2 w2 = (w2', t2, Return d2) ->
    forall k, dict_mem d1 k = dict_mem d2 k.
Proof.
  induction items as [| item items IH];
    intros acc1 acc2 w1 w1' w2 w2' t1 t2 d1 d2 Hacc H1 H2.
  - unfold for_each, ret in H1, H2. injection H1 as _ _ <-. injection H2 as _ _ <-.
    exact Hacc.
  - simpl in H1, H2.
    apply bind_returns in H1 as (? & ? & a1 & ? & Hb1 & Hr1 & _).
    apply bind_returns in H2 as (? & ? & a2 & ? & Hb2 & Hr2 & _).
    apply bind_returns in Hb1 as (? & ? & n1 & ? & Hn1 & Hb1 & _).
    apply bind_returns in Hb2 as (? & ? & n2 & ? & Hn2 & Hb2 & _).
    apply lift_returns in Hn1, Hn2.
    assert (n1 = n2) by congruence. subst n2.
    apply bind_returns in Hb1 as (? & ? & e1 & ? & _ & Hb1 & _).
    apply bind_returns in Hb2 as (? & ? & e2 & ? & _ & Hb2 & _).
    unfold ret in Hb1, Hb2. injection Hb1 as _ _ <-. injection Hb2 as _ _ <-.
    eapply IH; [| exact Hr1 | exact Hr2].
    intros k'. rewrite !dict_mem_set. now rewrite Hacc.
Qed.

Lemma decode_by_name_keys {V1 V2} raw field
    (f1 : json -> outcome V1) (f2 : json -> outcome V2)
    (w1 w1' w2 w2' : World) t1 t2 d1 d2 :
  decode_by_name raw field f1 w1 = (w1', t1, Return d1) ->
  decode_by_name raw field f2 w2 = (w2', t2, Return d2) ->
  forall k, dict_mem d1 k = dict_mem d2 k.
Proof.
  unfold decode_by_name. intros H1 H2.
  apply bind_returns in H1 as (? & ? & l1 & ? & Hl1 & H1 & _).
  apply bind_returns in H2 as (? & ? & l2 & ? & Hl2 & H2 & _).
  apply lift_returns in Hl1, Hl2. assert (l1 = l2) by congruence. subst l2.
  apply bind_returns in H1 as (? & ? & i1 & ? & Hi1 & H1 & _).
  apply bind_returns in H2 as (? & ? & i2 & ? & Hi2 & H2 & _).
  apply lift_returns in Hi1, Hi2. assert (i1 = i2) by congruence. subst i2.
  eapply decode_loop_keys; [| exact H1 | exact H2]. reflexivity.
Qed.

Lemma perform_returns c (w w' : World) t j :
  perform c w = (w', t, Return j) -> snd (remote w c) = inr j.
Proof.
  unfold perform. destruct (remote w c) as [w1 [msg | j1]]; intros H;
    [discriminate | now injection H as _ _ ->].
Qed.

Lemma not_none_returns j (w w' : World) t j' :
  not_none j w = (w', t, Return j') -> j' = j.
Proof. destruct j; simpl; unfold ret, raise; intros H; now injection H. Qed.

Lemma fetch_connections_keys sources1 destinations1 sources2 destinations2
    workspace_id (w1 w1' w2 w2' : World) t1 t2 d1 d2 :
  snd (remote w2 (list_connections workspace_id))
  = snd (remote w1 (list_connections workspace_id)) ->
  fetch_connections sources1 destinations1 workspace_id w1 = (w1', t1, Return d1) ->
  fetch_connections sources2 destinations2 workspace_id w2 = (w2', t2, Return d2) ->
  forall k, dict_mem d1 k = dict_mem d2 k.
Proof.
  unfold fetch_connections, request. intros Hsame H1 H2.
  apply bind_returns in H1 as (? & ? & raw1 & ? & Hr1 & H1 & _).
  apply bind_returns in H2 as (? & ? & raw2 & ? & Hr2 & H2 & _).
  apply bind_returns in Hr1 as (? & ? & j1 & ? & Hp1 & Hn1 & _).
  apply bind_returns in Hr2 as (? & ? & j2 & ? & Hp2 & Hn2 & _).
  apply perform_returns in Hp1, Hp2. apply not_none_returns in Hn1, Hn2.
  unfold list_connections in Hsame. rewrite Hp1, Hp2 in Hsame.
  injection Hsame as Hsame. subst raw1 raw2 j2.
  eapply decode_by_name_keys; eassumption.
Qed.

Lemma all_calls_for_each_in {A S} P (xs : list A) (body : S -> A -> M S) :
  (forall acc x, In x xs -> all_calls P (body acc x)) ->
  forall acc, all_calls P (for_each xs body acc).
Proof.
  induction xs as [| x xs IH]; intros Hbody acc; simpl.
  - apply all_calls_ret.
  - apply all_calls_bind.
    + apply Hbody. now left.
    + intros acc'. apply IH. intros acc0 y Hy. apply Hbody. now right.
Qed.

Lemma prepare_no_create_or_delete c :
  in_prepare c = true -> creates_or_deletes c = false.
Proof. revert c. by_endpoint. Qed.

Lemma observe_no_create_or_delete c :
  in_observe c = true -> creates_or_deletes c = false.
Proof. revert c. by_endpoint. Qed.

Lemma converged_post_calls config_connections init_sources init_dests workspace_id
    (w : World) :
  (forall w' t existing_connections,
      fetch_connections init_sources init_dests workspace_id w
      = (w', t, Return existing_connections) ->
      forall name,
        dict_mem config_connections name = true ->
        dict_mem existing_connections name = true) ->
  Forall (fun c => creates_or_deletes c = false)
    (trace_of (reconcile_connections_post config_connections init_sources init_dests
                 workspace_id false w)).
Proof.
  intros Hlisted. unfold reconcile_connections_post.
  rewrite trace_bind. apply Forall_app. split.
  - clear Hlisted. revert w.
    change (all_calls (fun c => creates_or_deletes c = false)
              (fetch_connections init_sources init_dests workspace_id)).
    unfold fetch_connections. calls_auto. reflexivity.
  - destruct (fetch_connections init_sources init_dests workspace_id w)
      as [[w1 t1] [existing | e]] eqn:Hfetch; simpl; [| constructor].
    apply all_calls_for_each_in. intros [] [conn_name config_conn] Hin.
    unfold reconcile_connections_post_body.
    apply all_calls_bind.
    + eapply all_calls_weaken; [apply prepare_no_create_or_delete |].
      apply connection_base_json_prepares.
    + intros base_json.
      assert (Hmem : dict_mem existing conn_name = true).
      { eapply Hlisted; [reflexivity |]. eapply dict_mem_in, Hin. }
      apply dict_mem_get in Hmem as (e & ->).
      unfold send_connection. calls_auto; reflexivity.
Qed.

Lemma ret_returns {A} (a b : A) (w w' : World) t :
  ret a w = (w', t, Return b) -> b = a.
Proof. unfold ret. intros H. now injection H. Qed.

Lemma bind_returned {A B} (m : M A) (f : A -> M B) w w1 t1 a w2 t2 r :
  m w = (w1, t1, Return a) -> f a w1 = (w2, t2, r) ->
  bind m f w = (w2, t1 ++ t2, r).
Proof. intros Hm Hf. unfold bind. now rewrite Hm, Hf. Qed.

Lemma converged_pre o should_delete (w : World) :
  configuration_wf o = true -> converged o w ->
  exists w' t diff,
    reconcile_connections_pre (config_connections o) (existing_sources o)
      (existing_dests o) (workspace_id o) false should_delete w
    = (w', t, Return diff)
    /\ Forall (fun c => creates_or_deletes c = false) t
    /\ is_empty diff = true.
Proof.
  intros Hwf (_ & _ & (w' & t & existing & Hfetch & Hsame)).
  unfold configuration_wf in Hwf. apply andb_true_iff in Hwf as [_ Hwf].
  destruct (converged_pre_loop (config_connections o) existing should_delete Hsame
              (fun name c H => forallb_dict_get _ _ _ Hwf H)
              (set_order (dict_keys (config_connections o) ++ dict_keys existing))
              empty_diff w') as (diff & Hloop & Hempty).
  exists w', (t ++ []), diff. split; [| split].
  - unfold reconcile_connections_pre. eapply bind_returned; eassumption.
  - rewrite app_nil_r.
    pose proof (@fetch_connections_phase _ (requests ["/connections/list"])
                  (existing_sources o) (existing_dests o) (workspace_id o)
                  (fun _ => eq_refl) w) as H.
    rewrite Hfetch in H. revert H. apply Forall_impl. clear. intros c. revert c.
    by_endpoint.
  - now rewrite Hempty.
Qed.

Lemma converged_listing o (w w0 : World) init_sources init_dests :
  converged o w ->
  snd (remote w0 (list_connections (workspace_id o)))
  = snd (remote w (list_connections (workspace_id o))) ->
  forall w' t existing_connections,
    fetch_connections init_sources init_dests (workspace_id o) w0
    = (w', t, Return existing_connections) ->
    forall name,
      dict_mem (config_connections o) name = true ->
      dict_mem existing_connections name = true.
Proof.
  intros (_ & _ & (w1 & t1 & existing & Hfetch & Hsame)) Hkept
         w' t existing' Hfetch' name Hmem.
  erewrite <- fetch_connections_keys; [| exact Hkept | exact Hfetch | exact Hfetch'].
  unfold dict_mem in *. specialize (Hsame name).
  destruct (dict_get (config_connections o) name); [| discriminate].
  destruct (dict_get existing name); [reflexivity | discriminate].
Qed.

(** *** The updates *)

(** A loop that returns has run its body to the end at every item, and
    the calls of that turn are among the calls of the loop. *)
Lemma for_each_passes {A S} (body : S -> A -> M S) x :
  forall xs acc w w' t r,
    for_each xs body acc w = (w', t, Return r) -> In x xs ->
    exists acc0 w0 w0' t0 r0,
      body acc0 x w0 = (w0', t0, Return r0) /\ forall c, In c t0 -> In c t.
Proof.
  induction xs as [| y xs IH]; intros acc w w' t r Hrun Hin; [contradiction |].
  simpl in Hrun.
  apply bind_returns in Hrun as (w1 & t1 & acc' & t2 & Hy & Hrest & ->).
  destruct Hin as [-> | Hin].
  - exists acc, w, w1, t1, acc'. split; [exact Hy |].
    intros c Hc. apply in_or_app. now left.
  - destruct (IH _ _ _ _ _ Hrest Hin) as (acc0 & w0 & w0' & t0 & r0 & Hx & Hsub).
    exists acc0, w0, w0', t0, r0. split; [exact Hx |].
    intros c Hc. apply in_or_app. right. now apply Hsub.
Qed.

Lemma perform_trace c (w w' : World) t j :
  perform c w = (w', t, Return j) -> t = [c].
Proof.
  unfold perform. destruct (remote w c) as [w1 [msg | j1]]; intros H;
    [discriminate | now injection H as _ <- _].
Qed.

Lemma unless_dry_run_sends endpoint data (w w' : World) t :
  unless_dry_run false endpoint data w = (w', t, Return tt) ->
  t = [make_request endpoint data].
Proof.
  unfold unless_dry_run. intros H.
  apply bind_returns in H as (w1 & t1 & j & t2 & Hsent & Hdone & ->).
  apply perform_trace in Hsent. unfold ret in Hdone. injection Hdone as _ <-.
  now subst t1.
Qed.

Lemma converged_sources_updates workspace_id should_delete config_sources
    existing_sources (w w' : World) t result :
  (forall name,
      option_map InitializedAirbyteSource.source (dict_get existing_sources name)
      = dict_get config_sources name) ->
  reconcile_sources config_sources existing_sources workspace_id false should_delete w
  = (w', t, Return result) ->
  forall name configured,
    dict_get config_sources name = Some configured ->
    exists existing,
      dict_get existing_sources name = Some existing
      /\ In (update_source existing configured) t.
Proof.
  intros Hsame Hrun name configured Hc.
  pose proof (Hsame name) as Hname. rewrite Hc in Hname.
  destruct (dict_get existing_sources name) as [existing |] eqn:He;
    [| discriminate].
  simpl in Hname. injection Hname as Hsource. subst configured.
  exists existing. split; [reflexivity |].
  unfold reconcile_sources in Hrun.
  assert (Hin : In name (set_order (dict_keys config_sources
                                    ++ dict_keys existing_sources))).
  { apply set_order_In. apply in_or_app. left. eapply in_dict_keys. exact Hc. }
  destruct (for_each_passes _ _ _ _ _ Hrun Hin)
    as ([initialized diff] & w0 & w0' & t0 & r0 & Hbody & Hsub).
  apply Hsub. clear Hsub Hrun.
  unfold reconcile_sources_body in Hbody. cbv zeta in Hbody.
  rewrite Hc, He, source_recreated_self in Hbody.
  assert (Hturn :
    ('(initialized_sources, existing_source) <-
       ret (initialized, Some existing) ;;
     defn_id <-
       (found <- perform (get_source_definition_by_name
                            (AirbyteSource.source_type
                               (InitializedAirbyteSource.source existing))
                            workspace_id) ;;
        not_none found) ;;
     source_id <-
       match existing_source with
       | Some existing0 =>
           unless_dry_run false "/sources/update"
             (JDict [("sourceId", InitializedAirbyteSource.source_id existing0);
                     ("name",
                      JStr (AirbyteSource.name
                              (InitializedAirbyteSource.source existing)));
                     ("connectionConfiguration",
                      JDict (AirbyteSource.source_configuration
                               (InitializedAirbyteSource.source existing)))]) ;;
           ret (InitializedAirbyteSource.source_id existing0)
       | None =>
           create_result <-
             request "/sources/create"
               (JDict [("sourceDefinitionId", defn_id);
                       ("workspaceId", workspace_id);
                       ("name",
                        JStr (AirbyteSource.name
                                (InitializedAirbyteSource.source existing)));
                       ("connectionConfiguration",
                        JDict (AirbyteSource.source_configuration
                                 (InitializedAirbyteSource.source existing)))]) ;;
           lift (getitem create_result "sourceId")
       end ;;
     ret (dict_set initialized_sources name
            (InitializedAirbyteSource.mk (InitializedAirbyteSource.source existing)
               source_id defn_id),
          join diff
            (diff_sources (Some (InitializedAirbyteSource.source existing))
               (Some (InitializedAirbyteSource.source existing))))) w0
    = (w0', t0, Return r0)).
  { destruct should_delete; exact Hbody. }
  clear Hbody.
  apply bind_returns in Hturn as (w1 & t1 & a & t1' & Ha & Hturn & ->).
  apply ret_returns in Ha. subst a.
  apply bind_returns in Hturn as (w2 & t2 & defn_id & t2' & _ & Hturn & ->).
  apply bind_returns in Hturn as (w3 & t3 & source_id & t3' & Hupdate & _ & ->).
  apply bind_returns in Hupdate as (w4 & t4 & [] & t4' & Hupdate & _ & ->).
  apply unless_dry_run_sends in Hupdate. subst t4.
  unfold update_source. rewrite !in_app_iff. simpl. auto 10.
Qed.

Lemma converged_destinations_updates workspace_id should_delete config_destinations
    existing_destinations (w w' : World) t result :
  (forall name,
      option_map InitializedAirbyteDestination.destination
        (dict_get existing_destinations name)
      = dict_get config_destinations name) ->
  reconcile_destinations config_destinations existing_destinations workspace_id false
    should_delete w = (w', t, Return result) ->
  forall name configured,
    dict_get config_destinations name = Some configured ->
    exists existing,
      dict_get existing_destinations name = Some existing
      /\ In (update_destination existing configured) t.
Proof.
  intros Hsame Hrun name configured Hc.
  pose proof (Hsame name) as Hname. rewrite Hc in Hname.
  destruct (dict_get existing_destinations name) as [existing |] eqn:He;
    [| discriminate].
  simpl in Hname. injection Hname as Hdestination. subst configured.
  exists existing. split; [reflexivity |].
  unfold reconcile_destinations in Hrun.
  assert (Hin : In name (set_order (dict_keys config_destinations
                                    ++ dict_keys existing_destinations))).
  { apply set_order_In. apply in_or_app. left. eapply in_dict_keys. exact Hc. }
  destruct (for_each_passes _ _ _ _ _ Hrun Hin)
    as ([initialized diff] & w0 & w0' & t0 & r0 & Hbody & Hsub).
  apply Hsub. clear Hsub Hrun.
  unfold reconcile_destinations_body in Hbody. cbv zeta in Hbody.
  rewrite Hc, He, destination_recreated_self in Hbody.
  assert (Hturn :
    (defn_id <-
       perform (get_destination_definition_by_name
                  (AirbyteDestination.destination_type
                     (InitializedAirbyteDestination.destination existing))
                  workspace_id) ;;
     destination_id <-
       (unless_dry_run false "/destinations/update"
          (JDict [("destinationId",
                   InitializedAirbyteDestination.destination_id existing);
                  ("name",
                   JStr (AirbyteDestination.name
                           (InitializedAirbyteDestination.destination existing)));
                  ("connectionConfiguration",
                   JDict (AirbyteDestination.destination_configuration
                            (InitializedAirbyteDestination.destination existing)))]) ;;
        ret (InitializedAirbyteDestination.destination_id existing)) ;;
     ret (dict_set initialized name
            (InitializedAirbyteDestination.mk
               (InitializedAirbyteDestination.destination existing)
               destination_id defn_id),
          join diff
            (diff_destinations
               (Some (InitializedAirbyteDestination.destination existing))
               (Some (InitializedAirbyteDestination.destination existing))))) w0
    = (w0', t0, Return r0)).
  { destruct should_delete; exact Hbody. }
  clear Hbody.
  apply bind_returns in Hturn as (w2 & t2 & defn_id & t2' & _ & Hturn & ->).
  apply bind_returns in Hturn as (w3 & t3 & destination_id & t3' & Hupdate & _ & ->).
  apply bind_returns in Hupdate as (w4 & t4 & [] & t4' & Hupdate & _ & ->).
  apply unless_dry_run_sends in Hupdate. subst t4.
  unfold update_destination. rewrite !in_app_iff. simpl. auto 10.
Qed.

End Converged.

(** C3, as the code has it.  When the instance matches the configuration
    exactly and lists to the last phase the connections it listed to the
    first, [reconcile_config] with [dry_run=False] makes no create and no
    delete request for a source, a destination or a connection.  The first
    phase returns an empty diff; the reconciliation of the sources, when it
    returns, returns an empty diff and has made the update request for
    every configured source; so does, after it, the reconciliation of the
    destinations; and the diff that [reconcile_config] returns, when it
    returns, is empty. *)
Theorem converged_apply_creates_and_deletes_nothing :
  forall (E : Env) (objects : list AirbyteConnection.t) (should_delete : bool)
         (w w1 : World) (t0 : list call) (o : observed),
    observe objects w = (w1, t0, Return o) ->
    configuration_wf o = true ->
    converged o w1 ->
    listing_kept o should_delete w1 ->
    Forall (fun c => creates_or_deletes c = false)
           (trace_of (reconcile_config objects false should_delete w))
    /\ (exists w2 t2 connections_diff,
          reconcile_connections_pre (config_connections o) (existing_sources o)
            (existing_dests o) (workspace_id o) false should_delete w1
          = (w2, t2, Return connections_diff)
          /\ is_empty connections_diff = true
          /\ forall w3 t3 all_sources sources_diff,
               reconcile_sources (config_sources o) (existing_sources o)
                 (workspace_id o) false should_delete w2
               = (w3, t3, Return (all_sources, sources_diff)) ->
               is_empty sources_diff = true
               /\ (forall name configured,
                      dict_get (config_sources o) name = Some configured ->
                      exists existing,
                        dict_get (existing_sources o) name = Some existing
                        /\ In (update_source existing configured) t3)
               /\ forall w4 t4 all_dests dests_diff,
                    reconcile_destinations (config_dests o) (existing_dests o)
                      (workspace_id o) false should_delete w3
                    = (w4, t4, Return (all_dests, dests_diff)) ->
                    is_empty dests_diff = true
                    /\ forall name configured,
                         dict_get (config_dests o) name = Some configured ->
                         exists existing,
                           dict_get (existing_dests o) name = Some existing
                           /\ In (update_destination existing configured) t4)
    /\ (forall w' t diff,
          reconcile_config objects false should_delete w = (w', t, Return diff) ->
          is_empty diff = true).
Proof.
  intros E objects should_delete w w1 t0 o Hobs Hwf Hconv Hkept.
  destruct (converged_pre should_delete Hwf Hconv) as (w2 & t1 & cd & Hpre & Ht1 & Hcd).
  pose proof Hconv as (Hs & Hd & _).
  pose proof Hwf as Hwf'. unfold configuration_wf in Hwf'.
  apply andb_true_iff in Hwf' as [Hwf' _]. apply andb_true_iff in Hwf' as [Hws Hwd].
  assert (Hsd : forall w3 w3' t3 all_sources sources_diff,
             reconcile_sources (config_sources o) (existing_sources o)
               (workspace_id o) false should_delete w3
             = (w3', t3, Return (all_sources, sources_diff)) ->
             is_empty sources_diff = true).
  { intros w3 w3' t3 all_sources sources_diff Hsrc.
    eapply converged_sources_diff in Hsrc;
      [exact Hsrc | exact Hs | intros name s0 H; exact (forallb_dict_get _ _ _ Hws H)]. }
  assert (Hdd : forall w3 w4 t4 all_dests dests_diff,
             reconcile_destinations (config_dests o) (existing_dests o)
               (workspace_id o) false should_delete w3
             = (w4, t4, Return (all_dests, dests_diff)) ->
             is_empty dests_diff = true).
  { intros w3 w4 t4 all_dests dests_diff Hdst.
    eapply converged_destinations_diff in Hdst;
      [exact Hdst | exact Hd | intros name d0 H; exact (forallb_dict_get _ _ _ Hwd H)]. }
  split; [| split].
  - unfold reconcile_config. erewrite trace_bind_returned by exact Hobs.
    apply Forall_app. split.
    { pose proof (observe_phase objects w) as H. rewrite Hobs in H. revert H.
      apply Forall_impl. apply observe_no_create_or_delete. }
    unfold reconcile_observed. erewrite trace_bind_returned by exact Hpre.
    apply Forall_app. split; [exact Ht1 |].
    rewrite trace_bind. apply Forall_app.
    split; [now apply converged_sources_calls |].
    destruct (reconcile_sources (config_sources o) (existing_sources o)
                (workspace_id o) false should_delete w2)
      as [[w3 t3] [[srcs sd] | e]] eqn:Hsrc; [| constructor].
    change (Forall (fun c => creates_or_deletes c = false)
              (trace_of
                 (('(all_dests, dests_diff) <-
                     reconcile_destinations (config_dests o) (existing_dests o)
                       (workspace_id o) false should_delete ;;
                   reconcile_connections_post (config_connections o) srcs all_dests
                     (workspace_id o) false ;;
                   ret (join (join (join empty_diff sd) dests_diff) cd)) w3))).
    rewrite trace_bind. apply Forall_app.
    split; [now apply converged_destinations_calls |].
    destruct (reconcile_destinations (config_dests o) (existing_dests o)
                (workspace_id o) false should_delete w3)
      as [[w4 t4] [[dsts dd] | e]] eqn:Hdst; [| constructor].
    change (Forall (fun c => creates_or_deletes c = false)
              (trace_of
                 ((reconcile_connections_post (config_connections o) srcs dsts
                     (workspace_id o) false ;;
                   ret (join (join (join empty_diff sd) dd) cd)) w4))).
    rewrite trace_bind. apply Forall_app. split.
    + apply converged_post_calls.
      eapply converged_listing; [exact Hconv |].
      eapply Hkept; eassumption.
    + destruct (outcome_of _); [apply all_calls_ret | constructor].
  - exists w2, t1, cd. split; [exact Hpre |]. split; [exact Hcd |].
    intros w3 t3 all_sources sources_diff Hsrc.
    split; [eapply Hsd; exact Hsrc |].
    split; [eapply converged_sources_updates; [exact Hs | exact Hsrc] |].
    intros w4 t4 all_dests dests_diff Hdst.
    split; [eapply Hdd; exact Hdst |].
    eapply converged_destinations_updates; [exact Hd | exact Hdst].
  - intros w' t diff Hrun. unfold reconcile_config in Hrun.
    apply bind_returns in Hrun as (? & ? & o' & ? & Hobs' & Hrun & _).
    rewrite Hobs in Hobs'. injection Hobs' as <- _ <-.
    unfold reconcile_observed in Hrun.
    apply bind_returns in Hrun as (? & ? & cd' & ? & Hpre' & Hrun & _).
    rewrite Hpre in Hpre'. injection Hpre' as <- _ <-.
    apply bind_returns in Hrun as (? & ? & [srcs sd] & ? & Hsrc & Hrun & _).
    apply bind_returns in Hrun as (? & ? & [dsts dd] & ? & Hdst & Hrun & _).
    apply bind_returns in Hrun as (? & ? & [] & ? & _ & Hrun & _).
    apply ret_returns in Hrun. subst diff.
    apply Hsd in Hsrc. apply Hdd in Hdst.
    rewrite !is_empty_join, Hsrc, Hdst, Hcd. reflexivity.
Qed.

Import Scenario.



(** The scripted instance of [matching] matches [matching_objects]. *)
Lemma matching_is_converged : @converged matching matching_observed 0%nat.
Proof.
  unfold converged. repeat split.
  - intros name. simpl. destruct (String.eqb name "S1"); reflexivity.
  - intros name. simpl. destruct (String.eqb name "D1"); reflexivity.
  - exists 1%nat,
           [make_request "/connections/list" (JDict [("workspaceId", JStr "ws")])],
           [("S1", existing_connection "S1" false)].
    split; [vm_compute; reflexivity |].
    intros name. simpl. destruct (String.eqb name "S1"); reflexivity.
Qed.

(** In [matching] the listing of connections is the same in every state. *)
Lemma matching_keeps_its_listing :
  @listing_kept matching matching_observed false 0%nat.
Proof.
  intros w2 t2 connections_diff w3 t3 sources w4 t4 dests _ _ _.
  destruct w4; reflexivity.
Qed.

(** C3 fails as stated: on an instance that matches the configuration
    exactly, [reconcile_config] with [dry_run=False] returns an empty diff
    and yet makes a mutating call, the update request for [S1]. *)
Lemma converged_apply_still_updates :
  @observe matching matching_objects 0%nat
  = (0%nat,
     [get_default_workspace;
      make_request "/sources/list" (JDict [("workspaceId", JStr "ws")]);
      make_request "/destinations/list" (JDict [("workspaceId", JStr "ws")])],
     Return matching_observed)
  /\ @converged matching matching_observed 0%nat
  /\ outcome_of (@reconcile_config matching matching_objects false false 0%nat)
     = Return empty_diff
  /\ In update_S1
        (trace_of (@reconcile_config matching matching_objects false false 0%nat))
  /\ mutating update_S1 = true.
Proof.
  split; [vm_compute; reflexivity |].
  split; [exact matching_is_converged |].
  split; [vm_compute; reflexivity |].
  split; [| reflexivity].
  vm_compute. right. right. right. right. right. left. reflexivity.
Qed.

(** The hypotheses of the amended C3 hold of that run, in which the update
    requests for [S1] and [D1] are made. *)
Lemma converged_apply_creates_and_deletes_nothing_witness :
  Forall (fun c => creates_or_deletes c = false)
         (trace_of (@reconcile_config matching matching_objects false false 0%nat))
  /\ (exists w2 t2 connections_diff,
        @reconcile_connections_pre matching (config_connections matching_observed)
          (existing_sources matching_observed) (existing_dests matching_observed)
          (workspace_id matching_observed) false false 0%nat
        = (w2, t2, Return connections_diff)
        /\ is_empty connections_diff = true
        /\ forall w3 t3 all_sources sources_diff,
             @reconcile_sources matching (config_sources matching_observed)
               (existing_sources matching_observed)
               (workspace_id matching_observed) false false w2
             = (w3, t3, Return (all_sources, sources_diff)) ->
             is_empty sources_diff = true
             /\ (forall name configured,
                    dict_get (config_sources matching_observed) name
                    = Some configured ->
                    exists existing,
                      dict_get (existing_sources matching_observed) name
                      = Some existing
                      /\ In (update_source existing configured) t3)
             /\ forall w4 t4 all_dests dests_diff,
                  @reconcile_destinations matching (config_dests matching_observed)
                    (existing_dests matching_observed)
                    (workspace_id matching_observed) false false w3
                  = (w4, t4, Return (all_dests, dests_diff)) ->
                  is_empty dests_diff = true
                  /\ forall name configured,
                       dict_get (config_dests matching_observed) name
                       = Some configured ->
                       exists existing,
                         dict_get (existing_dests matching_observed) name
                         = Some existing
                         /\ In (update_destination existing configured) t4)
  /\ (forall w' t diff,
        @reconcile_config matching matching_objects false false 0%nat
        = (w', t, Return diff) ->
        is_empty diff = true).
Proof.
  apply (@converged_apply_creates_and_deletes_nothing
           matching matching_objects false 0%nat 0%nat
           [get_default_workspace;
            make_request "/sources/list" (JDict [("workspaceId", JStr "ws")]);
            make_request "/destinations/list" (JDict [("workspaceId", JStr "ws")])]
           matching_observed).
  - vm_compute. reflexivity.
  - vm_compute. reflexivity.
  - exact matching_is_converged.
  - exact matching_keeps_its_listing.
Defined.

(** C4: what the code does.  [D1] is configured with type [B2] and observed
    with type [B].  [reconcile_destinations] makes the delete request and
    nothing else, and the map it returns holds the observed destination of
    type [B]; [reconcile_sources], on the same situation of [S1], goes on to
    look up the definition and to create the source as configured. *)
Theorem retyped_destination_is_deleted_but_not_created :
  @reconcile_destinations normalized [("D1", D1_retyped)] [("D1", existing_D1)]
    (JStr "ws") false false 0%nat
  = (0%nat,
     [make_request "/destinations/delete" (JDict [("destinationId", JStr "d-1")])],
     Return ([("D1", existing_D1)], empty_diff))
  /\ @reconcile_sources normalized [("S1", S1_retyped)] [("S1", existing_S1)]
       (JStr "ws") false false 0%nat
     = (0%nat,
        [make_request "/sources/delete" (JDict [("sourceId", JStr "s-1")]);
         get_source_definition_by_name "A2" (JStr "ws");
         make_request "/sources/create"
           (JDict [("sourceDefinitionId", JStr "def-A2");
                   ("workspaceId", JStr "ws"); ("name", JStr "S1");
                   ("connectionConfiguration", JDict [])])],
        Return ([("S1",
                  InitializedAirbyteSource.mk S1_retyped (JStr "src-new")
                    (JStr "def-A2"))],
                empty_diff)).
Proof. split; vm_compute; reflexivity. Qed.

(** C5: what the code does.  The connection [C1] exists and carries the
    basic normalization operation [op-1].  Given the id of [C1],
    [reconcile_normalization] lists its operations and returns [op-1]; the
    post-phase hands it [None] instead, so no operation is listed and a new
    normalization operation is created. *)
Theorem existing_normalization_operation_is_not_found :
  @reconcile_normalization normalized (JStr "c-1") existing_D1 None (JStr "ws") 0%nat
  = (0%nat,
     [make_request "/operations/list" (JDict [("connectionId", JStr "c-1")]);
      does_dest_support_normalization (JStr "def-B") (JStr "ws")],
     Return (JStr "op-1"))
  /\ @looked_up_connection_id normalized [("C1", existing_connection "C1" true)] 0%nat
     = (0%nat, [], Return JNull)
  /\ @reconcile_connections_post normalized
       [("C1", connection "C1" S1 None)] [("S1", existing_S1)] [("D1", existing_D1)]
       (JStr "ws") false 0%nat
     = (1%nat,
        [make_request "/connections/list" (JDict [("workspaceId", JStr "ws")]);
         does_dest_support_normalization (JStr "def-B") (JStr "ws");
         create_normalization;
         get_source_schema (JStr "s-1")],
        Raise (KeyError (JStr "C1"))).
Proof. repeat split; vm_compute; reflexivity. Qed.

(** C8: what the code does.  The type of the configured entity has no
    definition on the instance, so the lookup answers [None].
    [reconcile_sources] stops there with the error of [check.not_none];
    [reconcile_destinations] sends the create request with [None] for the
    definition id and records the destination with it. *)
Theorem unknown_destination_type_is_not_fatal :
  @reconcile_sources normalized [("S2", S_unknown)] [] (JStr "ws") false false 0%nat
  = (0%nat, [get_source_definition_by_name "nope" (JStr "ws")], Raise CheckError)
  /\ @reconcile_destinations normalized [("D2", D_unknown)] [] (JStr "ws")
       false false 0%nat
     = (0%nat,
        [get_destination_definition_by_name "nope" (JStr "ws");
         make_request "/destinations/create"
           (JDict [("destinationDefinitionId", JNull);
                   ("workspaceId", JStr "ws"); ("name", JStr "D2");
                   ("connectionConfiguration", JDict [])])],
        Return ([("D2",
                  InitializedAirbyteDestination.mk D_unknown (JStr "dst-new") JNull)],
                empty_diff)).
Proof. split; vm_compute; reflexivity. Qed.

(** The hypotheses of C6 hold for [D1] on an instance whose destinations do
    not normalize. *)
Lemma reconcile_normalization_tri_state_witness :
  @reconcile_normalization matching JNull existing_D1 (Some false) (JStr "ws") 0%nat
  = (0%nat, [], Return JNull)
  /\ outcome_of (@reconcile_normalization matching JNull existing_D1 None
                   (JStr "ws") 0%nat) = Return JNull
  /\ outcome_of (@reconcile_normalization matching JNull existing_D1 (Some true)
                   (JStr "ws") 0%nat)
     = Raise (PyException "Destination D1 does not support normalization.")
  /\ @unsupported matching existing_D1 (JStr "ws") 0%nat.
Proof.
  pose proof (@reconcile_normalization_tri_state matching JNull existing_D1
                (JStr "ws") 0%nat) as [Htable Honly].
  assert (Hun : @unsupported matching existing_D1 (JStr "ws") 0%nat).
  { exists 0%nat, [does_dest_support_normalization (JStr "def-B") (JStr "ws")],
           (JBool false).
    split; reflexivity. }
  destruct (Htable 0%nat [] JNull eq_refl) as [Hfalse Hrest].
  destruct (Hrest Hun) as [Hunset Htrue].
  destruct (Honly (Some true)
              (PyException "Destination D1 does not support normalization.")
              Htrue eq_refl) as (_ & _ & _).
  repeat split; assumption.
Defined.

(** The hypothesis of C7 holds of the catalog [orders], [users]: only
    [users] is configured. *)
Lemma configured_streams_filter_and_merge_witness :
  configured_streams_of [discovered "orders"; discovered "users"] users
  = Return [JDict [("stream", JDict [("name", JStr "users"); ("jsonSchema", JDict [])]);
                   ("config",
                    JDict [("syncMode", JStr "full_refresh");
                           ("destinationSyncMode", JStr "overwrite")])]].
Proof.
  refine (proj1 (configured_streams_filter_and_merge
                   [discovered "orders"; discovered "users"] users _)).
  intros stream [<- | [<- | []]]; eexists; reflexivity.
Defined.

(** C9 fails as stated: [S1], and likewise [D1], is observed, not
    configured, and deleted; the map returned has an entry for it. *)
Lemma deleted_entity_is_still_in_the_result :
  @reconcile_sources normalized [] [("S1", existing_S1)] (JStr "ws") false true 0%nat
  = (0%nat, [delete_source existing_S1],
     Return ([("S1", existing_S1)], empty_diff))
  /\ dict_mem [("S1", existing_S1)] "S1" = true
  /\ @reconcile_destinations normalized [] [("D1", existing_D1)] (JStr "ws")
       false true 0%nat
     = (0%nat, [delete_destination existing_D1],
        Return ([("D1", existing_D1)], empty_diff))
  /\ dict_mem [("D1", existing_D1)] "D1" = true.
Proof. repeat split; vm_compute; reflexivity. Qed.

(** The hypotheses of the amended C9 hold of these two runs. *)
Lemma deleted_entity_keeps_its_entry_witness :
  (In (delete_source existing_S1) [delete_source existing_S1]
   /\ dict_get [("S1", existing_S1)] "S1" = Some existing_S1)
  /\ (In (delete_destination existing_D1) [delete_destination existing_D1]
      /\ dict_get [("D1", existing_D1)] "D1" = Some existing_D1).
Proof.
  split.
  - refine (proj1 (@deleted_entity_keeps_its_entry normalized (JStr "ws") "S1"
                     0%nat 0%nat [delete_source existing_S1] empty_diff)
              [] [("S1", existing_S1)] existing_S1 [("S1", existing_S1)] _ _ _);
      vm_compute; reflexivity.
  - refine (proj2 (@deleted_entity_keeps_its_entry normalized (JStr "ws") "D1"
                     0%nat 0%nat [delete_destination existing_D1] empty_diff)
              [] [("D1", existing_D1)] existing_D1 [("D1", existing_D1)] _ _ _);
      vm_compute; reflexivity.
Defined.

(** The hypotheses of C10 hold of the connection [C1], which exists on the
    instance while no source is named [C1]. *)
Lemma existing_connection_update_needs_source_of_same_name_witness :
  (forall base_json w',
      @send_connection normalized [("S1", existing_S1)] [("D1", existing_D1)] false
        "C1" (connection "C1" S1 None) (Some (existing_connection "C1" true))
        base_json w'
      = (w', [], Raise (KeyError (JStr "C1"))))
  /\ (exists e,
        outcome_of (@reconcile_connections_post normalized
                      [("C1", connection "C1" S1 None)] [("S1", existing_S1)]
                      [("D1", existing_D1)] (JStr "ws") false 0%nat) = Raise e)
  /\ Forall (fun c => updates_connection "C1" c = false)
       (trace_of (@reconcile_connections_post normalized
                    [("C1", connection "C1" S1 None)] [("S1", existing_S1)]
                    [("D1", existing_D1)] (JStr "ws") false 0%nat)).
Proof.
  apply (@existing_connection_update_needs_source_of_same_name normalized
           [("C1", connection "C1" S1 None)] [("S1", existing_S1)]
           [("D1", existing_D1)] (JStr "ws") 0%nat 1%nat
           [make_request "/connections/list" (JDict [("workspaceId", JStr "ws")])]
           [("C1", existing_connection "C1" true)]
           "C1" (connection "C1" S1 None) (existing_connection "C1" true)).
  - vm_compute. reflexivity.
  - simpl. left. reflexivity.
  - reflexivity.
  - reflexivity.
Defined.

Import MoreScenarios.

(* ===================================================================== *)
(** ** The diff of a dry run and of a real run *)
(* ===================================================================== *)

Section SameDiff.
Context {E : Env}.

(** A loop whose body moves one component of its state by a function of
    that component alone ends with the fold of that function. *)
Lemma for_each_folds {A S T} (project : S -> T) (step : T -> A -> T)
    (body : S -> A -> M S) :
  (forall acc x, returns (fun acc' => project acc' = step (project acc) x) (body acc x)) ->
  forall xs acc,
    returns (fun acc' => project acc' = fold_left step xs (project acc))
            (for_each xs body acc).
Proof.
  intros Hbody. induction xs as [| x xs IH]; intros acc; simpl.
  - now apply returns_ret.
  - eapply returns_bind; [apply Hbody |].
    intros acc' Hacc'. simpl in Hacc'. rewrite <- Hacc'. apply IH.
Qed.

Lemma reconcile_sources_diff config_sources existing_sources workspace_id
    dry_run should_delete :
  returns
    (fun result =>
       snd result
       = fold_left (sources_diff_step config_sources existing_sources should_delete)
           (set_order (dict_keys config_sources ++ dict_keys existing_sources))
           empty_diff)
    (reconcile_sources config_sources existing_sources workspace_id dry_run
       should_delete).
Proof.
  unfold reconcile_sources.
  apply (for_each_folds snd
           (sources_diff_step config_sources existing_sources should_delete)).
  intros [initialized diff] name.
  unfold reconcile_sources_body, sources_diff_step. simpl snd.
  destruct should_delete, (dict_get existing_sources name) as [e |],
    (dict_get config_sources name) as [c |];
    repeat returns_step (fun _ : unit * option unit => True); reflexivity.
Qed.

Lemma reconcile_destinations_diff config_destinations existing_destinations
    workspace_id dry_run should_delete :
  returns
    (fun result =>
       snd result
       = fold_left
           (destinations_diff_step config_destinations existing_destinations
              should_delete)
           (set_order (dict_keys config_destinations
                       ++ dict_keys existing_destinations))
           empty_diff)
    (reconcile_destinations config_destinations existing_destinations workspace_id
       dry_run should_delete).
Proof.
  unfold reconcile_destinations.
  apply (for_each_folds snd
           (destinations_diff_step config_destinations existing_destinations
              should_delete)).
  intros [initialized diff] name.
  unfold reconcile_destinations_body, destinations_diff_step. simpl snd.
  destruct should_delete, (dict_get existing_destinations name) as [e |],
    (dict_get config_destinations name) as [c |];
    repeat returns_step (fun _ : unit * option unit => True); reflexivity.
Qed.

Lemma reconcile_connections_pre_loop_diff config_connections existing_connections
    dry_run should_delete names :
  returns
    (fun diff =>
       diff
       = fold_left
           (connections_diff_step config_connections existing_connections
              should_delete) names empty_diff)
    (for_each names
       (reconcile_connections_pre_body config_connections existing_connections
          dry_run should_delete) empty_diff).
Proof.
  apply (for_each_folds (fun d => d)
           (connections_diff_step config_connections existing_connections
              should_delete)).
  intros diff name.
  unfold reconcile_connections_pre_body, connections_diff_step.
  repeat returns_step (fun _ : unit * option unit => True); reflexivity.
Qed.

Lemma reconcile_config_diff objects dry_run should_delete (w w' : World) t diff :
  reconcile_config objects dry_run should_delete w = (w', t, Return diff) ->
  exists o wa ta existing_connections wb tb,
    observe objects w = (wa, ta, Return o)
    /\ fetch_connections (existing_sources o) (existing_dests o) (workspace_id o) wa
       = (wb, tb, Return existing_connections)
    /\ diff
       = join
           (join
              (join empty_diff
                 (fold_left
                    (sources_diff_step (config_sources o) (existing_sources o)
                       should_delete)
                    (set_order (dict_keys (config_sources o)
                                ++ dict_keys (existing_sources o)))
                    empty_diff))
              (fold_left
                 (destinations_diff_step (config_dests o) (existing_dests o)
                    should_delete)
                 (set_order (dict_keys (config_dests o)
                             ++ dict_keys (existing_dests o)))
                 empty_diff))
           (fold_left
              (connections_diff_step (config_connections o) existing_connections
                 should_delete)
              (set_order (dict_keys (config_connections o)
                          ++ dict_keys existing_connections))
              empty_diff).
Proof.
  intros Hrun. unfold reconcile_config in Hrun.
  apply bind_returns in Hrun as (wa & ta & o & ? & Hobs & Hrun & _).
  unfold reconcile_observed in Hrun.
  apply bind_returns in Hrun as (? & ? & cd & ? & Hpre & Hrun & _).
  unfold reconcile_connections_pre in Hpre.
  apply bind_returns in Hpre as (wb & tb & ec & ? & Hfetch & Hloop & _).
  apply reconcile_connections_pre_loop_diff in Hloop.
  apply bind_returns in Hrun as (? & ? & [srcs sd] & ? & Hsrc & Hrun & _).
  apply reconcile_sources_diff in Hsrc.
  apply bind_returns in Hrun as (? & ? & [dsts dd] & ? & Hdst & Hrun & _).
  apply reconcile_destinations_diff in Hdst.
  apply bind_returns in Hrun as (? & ? & [] & ? & _ & Hrun & _).
  apply ret_returns in Hrun. simpl in Hsrc, Hdst. subst.
  exists o, wa, ta, ec, wb, tb. auto.
Qed.

End SameDiff.

(** X1.  The diff [check] reports is the diff [apply] reports: when
    [reconcile_config] returns from the same state of the instance both with
    [dry_run=True] and with [dry_run=False], the two diffs are equal. *)
Theorem dry_run_reports_the_diff_of_the_real_run :
  forall (E : Env) (objects : list AirbyteConnection.t) (should_delete : bool)
         (w w1 w2 : World) (t1 t2 : list call) (diff1 diff2 : ManagedElementDiff),
    reconcile_config objects true should_delete w = (w1, t1, Return diff1) ->
    reconcile_config objects false should_delete w = (w2, t2, Return diff2) ->
    diff1 = diff2.
Proof.
  intros E objects should_delete w w1 w2 t1 t2 diff1 diff2 Hdry Hreal.
  apply reconcile_config_diff in Hdry
    as (o1 & wa1 & ta1 & ec1 & wb1 & tb1 & Hobs1 & Hfetch1 & ->).
  apply reconcile_config_diff in Hreal
    as (o2 & wa2 & ta2 & ec2 & wb2 & tb2 & Hobs2 & Hfetch2 & ->).
  rewrite Hobs1 in Hobs2. injection Hobs2 as <- <- <-.
  rewrite Hfetch1 in Hfetch2. injection Hfetch2 as <- <- <-.
  reflexivity.
Qed.

(** The hypotheses of X1 hold of the run in which [S1] changed its type. *)
Lemma dry_run_reports_the_diff_of_the_real_run_witness :
  match outcome_of (@reconcile_config retyped retyped_objects true false 0%nat) with
  | Return diff => diff
  | Raise _ => empty_diff
  end
  = match outcome_of (@reconcile_config retyped retyped_objects false false 0%nat) with
    | Return diff => diff
    | Raise _ => empty_diff
    end.
Proof.
  eapply (@dry_run_reports_the_diff_of_the_real_run retyped retyped_objects false
            0%nat);
    vm_compute; reflexivity.
Defined.

(* ===================================================================== *)
(** ** Only what must go is deleted *)
(* ===================================================================== *)

(** Settles [justified_delete] of one call: the delete request of the
    entity at hand, or a call to another endpoint. *)
Ltac justify name e :=
  let data := fresh "data" in
  let Heq := fresh "Heq" in
  intros data Heq; try discriminate;
  injection Heq as <-; exists name, e; repeat split; try assumption.

Section Deletes.
Context {E : Env}.

Lemma reconcile_sources_deletes config_sources existing_sources workspace_id
    dry_run should_delete :
  all_calls
    (justified_delete "/sources/delete" "sourceId" existing_sources
       InitializedAirbyteSource.source_id
       (source_must_go config_sources should_delete))
    (reconcile_sources config_sources existing_sources workspace_id dry_run
       should_delete).
Proof.
  unfold reconcile_sources. apply all_calls_for_each. intros [initialized diff] name.
  unfold reconcile_sources_body.
  destruct (dict_get existing_sources name) as [e |] eqn:He;
    destruct (dict_get config_sources name) as [c |] eqn:Hc;
    [destruct (source_must_be_recreated c (InitializedAirbyteSource.source e)) eqn:Hr
    | | | ];
    destruct should_delete eqn:Hsd;
    calls_auto; justify name e; unfold source_must_go; now rewrite Hc.
Qed.

Lemma reconcile_destinations_deletes config_destinations existing_destinations
    workspace_id dry_run should_delete :
  all_calls
    (justified_delete "/destinations/delete" "destinationId" existing_destinations
       InitializedAirbyteDestination.destination_id
       (destination_must_go config_destinations should_delete))
    (reconcile_destinations config_destinations existing_destinations workspace_id
       dry_run should_delete).
Proof.
  unfold reconcile_destinations. apply all_calls_for_each.
  intros [initialized diff] name.
  unfold reconcile_destinations_body.
  destruct (dict_get existing_destinations name) as [e |] eqn:He;
    destruct (dict_get config_destinations name) as [c |] eqn:Hc;
    [destruct (destination_must_be_recreated c
                 (InitializedAirbyteDestination.destination e)) eqn:Hr
    | | | ];
    destruct should_delete eqn:Hsd;
    calls_auto; justify name e; unfold destination_must_go; now rewrite Hc.
Qed.

Lemma reconcile_connections_pre_loop_deletes config_connections
    existing_connections dry_run should_delete names diff :
  all_calls
    (justified_delete "/connections/delete" "connectionId" existing_connections
       InitializedAirbyteConnection.connection_id
       (connection_must_go config_connections should_delete))
    (for_each names
       (reconcile_connections_pre_body config_connections existing_connections
          dry_run should_delete) diff).
Proof.
  apply all_calls_for_each. intros diff0 name.
  unfold reconcile_connections_pre_body.
  destruct (dict_get existing_connections name) as [e |] eqn:He;
    destruct (dict_get config_connections name) as [c |] eqn:Hc;
    [destruct (connection_must_be_recreated c
                 (InitializedAirbyteConnection.connection e)) eqn:Hr
    | | | ];
    destruct should_delete eqn:Hsd; simpl;
    calls_auto; justify name e; unfold connection_must_go; now rewrite Hc.
Qed.

Lemma other_endpoint_justified {X} endpoint key (existing : dict X) id must_go c :
  requests [endpoint] c = false ->
  justified_delete endpoint key existing id must_go c.
Proof.
  intros H data ->. simpl in H. now rewrite String.eqb_refl in H.
Qed.

Lemma all_calls_and {A} (P Q : call -> Prop) (m : M A) :
  all_calls P m -> all_calls Q m -> all_calls (fun c => P c /\ Q c) m.
Proof.
  intros HP HQ w. specialize (HP w). specialize (HQ w).
  rewrite Forall_forall in *. auto.
Qed.

Lemma no_delete_justified (class : call -> bool) o existing_connections should_delete :
  (forall c, class c = true ->
             requests ["/sources/delete"] c = false
             /\ requests ["/destinations/delete"] c = false
             /\ requests ["/connections/delete"] c = false) ->
  forall c, class c = true -> deletes_justified o existing_connections should_delete c.
Proof.
  intros Hclass c Hc. destruct (Hclass c Hc) as (Hs & Hd & Hn).
  repeat split; now apply other_endpoint_justified.
Qed.

Lemma justified_in_sources o existing_connections should_delete c :
  in_sources c = true ->
  justified_delete "/sources/delete" "sourceId" (existing_sources o)
    InitializedAirbyteSource.source_id
    (source_must_go (config_sources o) should_delete) c ->
  deletes_justified o existing_connections should_delete c.
Proof.
  intros Hc Hs. repeat split; [exact Hs | |];
    apply other_endpoint_justified; revert c Hc Hs; by_endpoint.
Qed.

Lemma justified_in_destinations o existing_connections should_delete c :
  in_destinations c = true ->
  justified_delete "/destinations/delete" "destinationId" (existing_dests o)
    InitializedAirbyteDestination.destination_id
    (destination_must_go (config_dests o) should_delete) c ->
  deletes_justified o existing_connections should_delete c.
Proof.
  intros Hc Hd. repeat split; [| exact Hd |];
    apply other_endpoint_justified; revert c Hc Hd; by_endpoint.
Qed.

Lemma justified_in_pre o existing_connections should_delete c :
  in_pre c = true ->
  justified_delete "/connections/delete" "connectionId" existing_connections
    InitializedAirbyteConnection.connection_id
    (connection_must_go (config_connections o) should_delete) c ->
  deletes_justified o existing_connections should_delete c.
Proof.
  intros Hc Hn. repeat split; [| | exact Hn];
    apply other_endpoint_justified; revert c Hc Hn; by_endpoint.
Qed.

End Deletes.

(** X2.  In a run of [reconcile_config] that has observed the instance and
    listed its connections, every delete request is for an observed source,
    destination or connection that is either configured and must be
    recreated, or not configured while unmentioned entities are to be
    deleted; it carries the id of that entity and nothing else. *)
Theorem only_what_must_go_is_deleted :
  forall (E : Env) (objects : list AirbyteConnection.t)
         (dry_run should_delete : bool) (w w1 w2 : World) (t0 t1 : list call)
         (o : observed) (existing_connections : dict InitializedAirbyteConnection.t),
    observe objects w = (w1, t0, Return o) ->
    fetch_connections (existing_sources o) (existing_dests o) (workspace_id o) w1
    = (w2, t1, Return existing_connections) ->
    Forall (deletes_justified o existing_connections should_delete)
           (trace_of (reconcile_config objects dry_run should_delete w)).
Proof.
  intros E objects dry_run should_delete w w1 w2 t0 t1 o ec Hobs Hfetch.
  unfold reconcile_config. erewrite trace_bind_returned by exact Hobs.
  apply Forall_app. split.
  { pose proof (observe_phase objects w) as H. rewrite Hobs in H. revert H.
    apply Forall_impl. apply no_delete_justified. clear. by_endpoint; auto. }
  unfold reconcile_observed. rewrite trace_bind. apply Forall_app. split.
  - unfold reconcile_connections_pre. erewrite trace_bind_returned by exact Hfetch.
    apply Forall_app. split.
    + pose proof (@fetch_connections_phase _ (requests ["/connections/list"])
                    (existing_sources o) (existing_dests o) (workspace_id o)
                    (fun _ => eq_refl) w1) as H.
      rewrite Hfetch in H. revert H. apply Forall_impl.
      apply no_delete_justified. clear. by_endpoint; auto.
    + assert (H : all_calls
                    (fun c =>
                       in_pre c = true
                       /\ justified_delete "/connections/delete" "connectionId" ec
                            InitializedAirbyteConnection.connection_id
                            (connection_must_go (config_connections o) should_delete)
                            c)
                    (for_each
                       (set_order (dict_keys (config_connections o) ++ dict_keys ec))
                       (reconcile_connections_pre_body (config_connections o) ec
                          dry_run should_delete) empty_diff)).
      { apply all_calls_and;
          [ apply all_calls_for_each; intros; apply pre_body_phase
          | apply reconcile_connections_pre_loop_deletes ]. }
      specialize (H w2).
      revert H. apply Forall_impl. intros c [Hc Hn]. now apply justified_in_pre.
  - destruct (outcome_of _); [| constructor].
    apply all_calls_bind.
    { eapply all_calls_weaken;
        [| apply all_calls_and;
           [apply reconcile_sources_phase | apply reconcile_sources_deletes]].
      intros c [Hc Hs]. now apply justified_in_sources. }
    intros [srcs sd]. apply all_calls_bind.
    { eapply all_calls_weaken;
        [| apply all_calls_and;
           [apply reconcile_destinations_phase | apply reconcile_destinations_deletes]].
      intros c [Hc Hd]. now apply justified_in_destinations. }
    intros [dsts dd]. apply all_calls_bind; [| intros []; apply all_calls_ret].
    eapply all_calls_weaken; [| apply reconcile_connections_post_phase].
    apply no_delete_justified. clear. by_endpoint; auto.
Qed.

(** The hypotheses of X2 hold of the run in which [S1] changed its type. *)
Lemma only_what_must_go_is_deleted_witness :
  Forall (@deletes_justified retyped retyped_observed
            [("C1", existing_connection "C1" false)] false)
         (trace_of (@reconcile_config retyped retyped_objects false false 0%nat)).
Proof.
  eapply (@only_what_must_go_is_deleted retyped retyped_objects false false 0%nat);
    vm_compute; reflexivity.
Defined.

(* ===================================================================== *)
(** ** The maps of initialized sources and destinations *)
(* ===================================================================== *)

Section Maps.
Context {E : Env}.

Lemma not_none_not_null j : returns (fun j' => j' <> JNull) (not_none j).
Proof.
  intros w w' t j' H. destruct j; simpl in H; unfold ret, raise in H;
    try discriminate; injection H as _ _ <-; discriminate.
Qed.

Lemma returns_vacuous {A} (P : A -> Prop) (m : M A) :
  (forall a, P a) -> returns P m.
Proof. intros H w w' t a _. apply H. Qed.

Lemma in_dict_keys_get {V} (d : dict V) k :
  In k (dict_keys d) -> exists v, dict_get d k = Some v.
Proof.
  induction d as [| [k' v'] d IH]; simpl; [contradiction |].
  destruct (String.eqb_spec k k') as [-> | Hne]; [eauto |].
  intros [Heq | Hin]; [congruence | auto].
Qed.

(** A turn of the loop of [reconcile_sources] writes at its own name
    only. *)
Lemma sources_body_frame config_sources existing_sources workspace_id dry_run
    should_delete initialized diff other name :
  other <> name ->
  returns (fun result => dict_get (fst result) name = dict_get initialized name)
    (reconcile_sources_body config_sources existing_sources workspace_id dry_run
       should_delete (initialized, diff) other).
Proof.
  intros Hne. unfold reconcile_sources_body.
  repeat returns_step
    (fun acc' : dict InitializedAirbyteSource.t * option InitializedAirbyteSource.t =>
       dict_get (fst acc') name = dict_get initialized name);
    simpl in *; rewrite ?dict_get_set_other by auto; auto.
Qed.

Lemma destinations_body_frame config_destinations existing_destinations
    workspace_id dry_run should_delete initialized diff other name :
  other <> name ->
  returns (fun result => dict_get (fst result) name = dict_get initialized name)
    (reconcile_destinations_body config_destinations existing_destinations
       workspace_id dry_run should_delete (initialized, diff) other).
Proof.
  intros Hne. unfold reconcile_destinations_body.
  repeat returns_step (fun _ : unit * option unit => True);
    simpl in *; rewrite ?dict_get_set_other by auto; auto.
Qed.

Section SourceRecorded.
Variables (config_sources : dict AirbyteSource.t)
          (existing_sources : dict InitializedAirbyteSource.t)
          (workspace_id : json) (dry_run should_delete : bool)
          (name : string) (configured : AirbyteSource.t).
Hypothesis Hconfigured : dict_get config_sources name = Some configured.

Local Abbreviation recorded :=
  (fun result : dict InitializedAirbyteSource.t * ManagedElementDiff =>
     exists i,
       dict_get (fst result) name = Some i
       /\ InitializedAirbyteSource.source i = configured
       /\ InitializedAirbyteSource.source_definition_id i <> JNull
       /\ forall e,
            dict_get existing_sources name = Some e ->
            source_must_be_recreated configured (InitializedAirbyteSource.source e)
            = false ->
            InitializedAirbyteSource.source_id i
            = InitializedAirbyteSource.source_id e).

(** The second half of a turn of the loop, from the definition lookup on,
    with [kept] the observed source that is still there. *)
Ltac record_configured kept :=
  cbv beta iota;
  apply returns_bind with (Q := fun d : json => d <> JNull);
  [ apply returns_then; intros ?; apply not_none_not_null | intros ? ? ];
  apply returns_bind
    with (Q := fun id : json =>
                 forall e, kept = Some e -> id = InitializedAirbyteSource.source_id e);
  [ | let Hid := fresh "Hid" in
      intros ? Hid; apply returns_ret; simpl; rewrite dict_get_set_same;
      eexists; split; [reflexivity |]; split; [reflexivity |];
      split; [assumption |]; simpl ].

Lemma sources_body_records acc : returns recorded
  (reconcile_sources_body config_sources existing_sources workspace_id dry_run
     should_delete acc name).
Proof.
  destruct acc as [initialized diff]. unfold reconcile_sources_body.
  rewrite Hconfigured.
  destruct (dict_get existing_sources name) as [e |] eqn:He.
  - destruct (source_must_be_recreated configured
                (InitializedAirbyteSource.source e)) eqn:Hr.
    + destruct should_delete; cbv beta iota zeta;
        (eapply returns_bind
           with (Q := fun acc' : dict InitializedAirbyteSource.t
                                 * option InitializedAirbyteSource.t =>
                        snd acc' = None);
         [ apply returns_then; intros ?; now apply returns_ret
         | intros [i1 e1] H1; simpl in H1; subst e1;
           record_configured (@None InitializedAirbyteSource.t);
           [ cbv beta iota; apply returns_vacuous; intros; discriminate
           | intros e0 He0 Hr0; injection He0 as <-; congruence ] ]).
    + destruct should_delete; cbv beta iota zeta;
        (apply returns_bind_ret;
         record_configured (Some e);
         [ apply returns_then; intros ?; apply returns_ret;
           intros e0 He0; now injection He0 as <-
         | intros e0 He0 Hr0; injection He0 as <-; auto ]).
  - destruct should_delete; cbv beta iota zeta;
      (apply returns_bind_ret;
       record_configured (@None InitializedAirbyteSource.t);
       [ apply returns_vacuous; intros; discriminate
       | intros e0 He0; discriminate ]).
Qed.

Lemma sources_body_keeps_record acc other :
  recorded acc ->
  returns recorded
    (reconcile_sources_body config_sources existing_sources workspace_id dry_run
       should_delete acc other).
Proof.
  intros Hacc. destruct (String.eqb_spec other name) as [-> | Hne];
    [apply sources_body_records |].
  destruct acc as [initialized diff]. simpl in Hacc.
  intros w w' t result Hrun.
  eapply sources_body_frame in Hrun; [| exact Hne]. cbv beta. now rewrite Hrun.
Qed.

Lemma reconcile_sources_records :
  returns recorded
    (reconcile_sources config_sources existing_sources workspace_id dry_run
       should_delete).
Proof.
  unfold reconcile_sources. apply for_each_establishes with (x := name).
  - apply sources_body_records.
  - apply sources_body_keeps_record.
  - apply set_order_In, in_or_app. left. eapply in_dict_keys, Hconfigured.
Qed.

End SourceRecorded.

Section DestinationRecorded.
Variables (config_destinations : dict AirbyteDestination.t)
          (existing_destinations : dict InitializedAirbyteDestination.t)
          (workspace_id : json) (dry_run should_delete : bool)
          (name : string) (configured : AirbyteDestination.t).
Hypothesis Hconfigured : dict_get config_destinations name = Some configured.
Hypothesis Hstays :
  forall e,
    dict_get existing_destinations name = Some e ->
    destination_must_be_recreated configured
      (InitializedAirbyteDestination.destination e) = false.

Local Abbreviation recorded :=
  (fun result : dict InitializedAirbyteDestination.t * ManagedElementDiff =>
     exists i,
       dict_get (fst result) name = Some i
       /\ InitializedAirbyteDestination.destination i = configured
       /\ forall e,
            dict_get existing_destinations name = Some e ->
            InitializedAirbyteDestination.destination_id i
            = InitializedAirbyteDestination.destination_id e).

Lemma destinations_body_records acc : returns recorded
  (reconcile_destinations_body config_destinations existing_destinations
     workspace_id dry_run should_delete acc name).
Proof.
  destruct acc as [initialized diff]. unfold reconcile_destinations_body.
  rewrite Hconfigured. pose proof Hstays as Hstays'.
  destruct (dict_get existing_destinations name) as [e |] eqn:He.
  - rewrite (Hstays' e eq_refl).
    destruct should_delete; cbv beta iota zeta;
      (apply returns_then; intros defn_id;
       apply returns_bind
         with (Q := fun id : json =>
                      id = InitializedAirbyteDestination.destination_id e);
       [ apply returns_then; intros ?; now apply returns_ret
       | intros id ->; apply returns_ret; simpl; rewrite dict_get_set_same;
         eexists; split; [reflexivity |]; split; [reflexivity |];
         intros e0 He0; now injection He0 as <- ]).
  - destruct should_delete; cbv beta iota zeta;
      (apply returns_then; intros defn_id; apply returns_then; intros id;
       apply returns_ret; simpl; rewrite dict_get_set_same;
       eexists; split; [reflexivity |]; split; [reflexivity |];
       intros e0 He0; discriminate).
Qed.

Lemma destinations_body_keeps_record acc other :
  recorded acc ->
  returns recorded
    (reconcile_destinations_body config_destinations existing_destinations
       workspace_id dry_run should_delete acc other).
Proof.
  intros Hacc. destruct (String.eqb_spec other name) as [-> | Hne];
    [apply destinations_body_records |].
  destruct acc as [initialized diff]. simpl in Hacc.
  intros w w' t result Hrun.
  eapply destinations_body_frame in Hrun; [| exact Hne]. cbv beta. now rewrite Hrun.
Qed.

Lemma reconcile_destinations_records :
  returns recorded
    (reconcile_destinations config_destinations existing_destinations workspace_id
       dry_run should_delete).
Proof.
  unfold reconcile_destinations. apply for_each_establishes with (x := name).
  - apply destinations_body_records.
  - apply destinations_body_keeps_record.
  - apply set_order_In, in_or_app. left. eapply in_dict_keys, Hconfigured.
Qed.

End DestinationRecorded.

End Maps.

(** X3.  When [reconcile_sources] returns, every configured source is in the
    returned map under its name, as configured and with a definition id
    that is not [None]; a source that was observed and need not be
    recreated keeps the id it was observed with. *)
Theorem configured_source_is_recorded :
  forall (E : Env) (config_sources : dict AirbyteSource.t)
         (existing_sources : dict InitializedAirbyteSource.t)
         (workspace_id : json) (dry_run should_delete : bool)
         (name : string) (configured : AirbyteSource.t)
         (w w' : World) (t : list call)
         (initialized : dict InitializedAirbyteSource.t) (diff : ManagedElementDiff),
    dict_get config_sources name = Some configured ->
    reconcile_sources config_sources existing_sources workspace_id dry_run
      should_delete w = (w', t, Return (initialized, diff)) ->
    exists i,
      dict_get initialized name = Some i
      /\ InitializedAirbyteSource.source i = configured
      /\ InitializedAirbyteSource.source_definition_id i <> JNull
      /\ forall e,
           dict_get existing_sources name = Some e ->
           source_must_be_recreated configured (InitializedAirbyteSource.source e)
           = false ->
           InitializedAirbyteSource.source_id i = InitializedAirbyteSource.source_id e.
Proof.
  intros E config_sources existing_sources workspace_id dry_run should_delete
         name configured w w' t initialized diff Hc Hrun.
  exact (@reconcile_sources_records _ _ existing_sources workspace_id dry_run
           should_delete _ _ Hc _ _ _ _ Hrun).
Qed.

(** The hypotheses of X3 hold of [S1], configured and observed. *)
Lemma configured_source_is_recorded_witness :
  exists i,
    dict_get [("S1", InitializedAirbyteSource.mk S1 (JStr "s-1") (JStr "def-A"))] "S1"
    = Some i
    /\ InitializedAirbyteSource.source i = S1
    /\ InitializedAirbyteSource.source_definition_id i <> JNull
    /\ forall e,
         dict_get [("S1", existing_S1)] "S1" = Some e ->
         source_must_be_recreated S1 (InitializedAirbyteSource.source e) = false ->
         InitializedAirbyteSource.source_id i = InitializedAirbyteSource.source_id e.
Proof.
  eapply (@configured_source_is_recorded normalized [("S1", S1)]
            [("S1", existing_S1)] (JStr "ws") false false "S1" S1 0%nat);
    vm_compute; reflexivity.
Defined.

(** X4.  When [reconcile_destinations] returns, a configured destination
    that is not observed, or is observed and need not be recreated, is in
    the returned map under its name as configured; if it was observed it
    keeps the id it was observed with. *)
Theorem configured_destination_is_recorded :
  forall (E : Env) (config_destinations : dict AirbyteDestination.t)
         (existing_destinations : dict InitializedAirbyteDestination.t)
         (workspace_id : json) (dry_run should_delete : bool)
         (name : string) (configured : AirbyteDestination.t)
         (w w' : World) (t : list call)
         (initialized : dict InitializedAirbyteDestination.t)
         (diff : ManagedElementDiff),
    dict_get config_destinations name = Some configured ->
    (forall e,
        dict_get existing_destinations name = Some e ->
        destination_must_be_recreated configured
          (InitializedAirbyteDestination.destination e) = false) ->
    reconcile_destinations config_destinations existing_destinations workspace_id
      dry_run should_delete w = (w', t, Return (initialized, diff)) ->
    exists i,
      dict_get initialized name = Some i
      /\ InitializedAirbyteDestination.destination i = configured
      /\ forall e,
           dict_get existing_destinations name = Some e ->
           InitializedAirbyteDestination.destination_id i
           = InitializedAirbyteDestination.destination_id e.
Proof.
  intros E config_destinations existing_destinations workspace_id dry_run
         should_delete name configured w w' t initialized diff Hc Hstays Hrun.
  exact (@reconcile_destinations_records _ _ existing_destinations workspace_id
           dry_run should_delete _ _ Hc Hstays _ _ _ _ Hrun).
Qed.

(** The hypotheses of X4 hold of [D1], configured and observed. *)
Lemma configured_destination_is_recorded_witness :
  exists i,
    dict_get [("D1", InitializedAirbyteDestination.mk D1 (JStr "d-1") (JStr "def-B"))]
      "D1" = Some i
    /\ InitializedAirbyteDestination.destination i = D1
    /\ forall e,
         dict_get [("D1", existing_D1)] "D1" = Some e ->
         InitializedAirbyteDestination.destination_id i
         = InitializedAirbyteDestination.destination_id e.
Proof.
  eapply (@configured_destination_is_recorded normalized [("D1", D1)]
            [("D1", existing_D1)] (JStr "ws") false false "D1" D1 0%nat);
    [ reflexivity
    | intros e He; injection He as <-; reflexivity
    | vm_compute; reflexivity ].
Defined.

Section Keys.
Context {E : Env}.

(** A loop whose body puts exactly its own name into the map ends with the
    names it has passed. *)
Lemma for_each_key_set {V D} (body : dict V * D -> string -> M (dict V * D)) xs :
  (forall acc x, In x xs ->
     returns (fun acc' => forall k,
                dict_mem (fst acc') k = String.eqb k x || dict_mem (fst acc) k)
             (body acc x)) ->
  forall acc,
    returns (fun acc' => forall k,
               dict_mem (fst acc') k
               = existsb (String.eqb k) xs || dict_mem (fst acc) k)
            (for_each xs body acc).
Proof.
  induction xs as [| x xs IH]; intros Hbody acc; simpl.
  - now apply returns_ret.
  - eapply returns_bind; [apply Hbody; now left |].
    intros acc1 H1. intros w w' t acc2 Hrun.
    eapply IH in Hrun; [| intros acc0 y Hy; apply Hbody; now right].
    intros k. rewrite Hrun, H1.
    destruct (String.eqb k x), (existsb (String.eqb k) xs); reflexivity.
Qed.

Lemma sources_body_key config_sources existing_sources workspace_id dry_run
    should_delete acc name :
  In name (dict_keys config_sources ++ dict_keys existing_sources) ->
  returns (fun acc' => forall k,
             dict_mem (fst acc') k = String.eqb k name || dict_mem (fst acc) k)
    (reconcile_sources_body config_sources existing_sources workspace_id dry_run
       should_delete acc name).
Proof.
  intros Hin. destruct acc as [initialized diff]. unfold reconcile_sources_body.
  assert (Hset : forall v k,
             dict_mem (dict_set initialized name v) k
             = String.eqb k name || dict_mem initialized k)
    by (intros; apply dict_mem_set).
  apply in_app_or in Hin as [Hin | Hin]; apply in_dict_keys_get in Hin as (v & Hv);
    rewrite Hv.
  - (* configured: the last assignment is to [name] *)
    destruct should_delete, (dict_get existing_sources name) as [e |];
      repeat returns_step
        (fun acc' : dict InitializedAirbyteSource.t * option InitializedAirbyteSource.t =>
           forall k,
             String.eqb k name || dict_mem (fst acc') k
             = String.eqb k name || dict_mem initialized k);
      simpl in *; intros; rewrite ?dict_mem_set, ?orb_assoc, ?orb_diag; auto.
  - (* observed *)
    destruct (dict_get config_sources name) as [c |].
    + destruct should_delete;
        repeat returns_step
          (fun acc' : dict InitializedAirbyteSource.t * option InitializedAirbyteSource.t =>
             forall k,
               String.eqb k name || dict_mem (fst acc') k
               = String.eqb k name || dict_mem initialized k);
        simpl in *; intros; rewrite ?dict_mem_set, ?orb_assoc, ?orb_diag; auto.
    + destruct should_delete; cbv beta iota zeta.
      * eapply returns_bind
          with (Q := fun acc' : dict InitializedAirbyteSource.t
                                * option InitializedAirbyteSource.t =>
                       fst acc' = dict_set initialized name v).
        -- apply returns_then. intros ?. now apply returns_ret.
        -- intros [i1 e1] H1. simpl in H1. subst i1. apply returns_ret. apply Hset.
      * apply returns_ret. apply Hset.
Qed.

Lemma destinations_body_key config_destinations existing_destinations workspace_id
    dry_run should_delete acc name :
  In name (dict_keys config_destinations ++ dict_keys existing_destinations) ->
  returns (fun acc' => forall k,
             dict_mem (fst acc') k = String.eqb k name || dict_mem (fst acc) k)
    (reconcile_destinations_body config_destinations existing_destinations
       workspace_id dry_run should_delete acc name).
Proof.
  intros Hin. destruct acc as [initialized diff].
  unfold reconcile_destinations_body.
  apply in_app_or in Hin as [Hin | Hin]; apply in_dict_keys_get in Hin as (v & Hv);
    rewrite Hv.
  - destruct should_delete, (dict_get existing_destinations name) as [e |];
      repeat returns_step (fun _ : unit * option unit => True);
      simpl; intros; apply dict_mem_set.
  - destruct should_delete, (dict_get config_destinations name) as [c |];
      repeat returns_step (fun _ : unit * option unit => True);
      simpl; intros; apply dict_mem_set.
Qed.

End Keys.

(** X5.  When [reconcile_sources], and likewise [reconcile_destinations],
    returns, the keys of the returned map are exactly the configured names
    and the observed names: every entity the loop has met is in the map,
    deleted or not, and nothing else is. *)
Theorem initialized_map_has_configured_and_observed_names :
  forall (E : Env) (workspace_id : json) (dry_run should_delete : bool)
         (w w' : World) (t : list call) (diff : ManagedElementDiff),
    (forall config_sources existing_sources initialized,
        reconcile_sources config_sources existing_sources workspace_id dry_run
          should_delete w = (w', t, Return (initialized, diff)) ->
        forall name,
          dict_mem initialized name = true
          <-> In name (dict_keys config_sources)
              \/ In name (dict_keys existing_sources))
    /\ (forall config_destinations existing_destinations initialized,
          reconcile_destinations config_destinations existing_destinations
            workspace_id dry_run should_delete w = (w', t, Return (initialized, diff)) ->
          forall name,
            dict_mem initialized name = true
            <-> In name (dict_keys config_destinations)
                \/ In name (dict_keys existing_destinations)).
Proof.
  intros E workspace_id dry_run should_delete w w' t diff. split.
  - intros config_sources existing_sources initialized Hrun name.
    unfold reconcile_sources in Hrun.
    eapply for_each_key_set in Hrun.
    + simpl in Hrun. rewrite Hrun, orb_false_r, existsb_eqb_in, set_order_In.
      apply in_app_iff.
    + intros acc x Hx. apply sources_body_key.
      exact (proj1 (set_order_In _ _) Hx).
  - intros config_destinations existing_destinations initialized Hrun name.
    unfold reconcile_destinations in Hrun.
    eapply for_each_key_set in Hrun.
    + simpl in Hrun. rewrite Hrun, orb_false_r, existsb_eqb_in, set_order_In.
      apply in_app_iff.
    + intros acc x Hx. apply destinations_body_key.
      exact (proj1 (set_order_In _ _) Hx).
Qed.

(** The hypotheses of X5 hold of the runs that delete [S1] and [D1]. *)
Lemma initialized_map_has_configured_and_observed_names_witness :
  (dict_mem [("S1", existing_S1)] "S1" = true
   <-> In "S1" (@dict_keys AirbyteSource.t []) \/ In "S1" (dict_keys [("S1", existing_S1)]))
  /\ (dict_mem [("D1", existing_D1)] "D1" = true
      <-> In "D1" (@dict_keys AirbyteDestination.t [])
          \/ In "D1" (dict_keys [("D1", existing_D1)])).
Proof.
  split.
  - refine (proj1 (@initialized_map_has_configured_and_observed_names normalized
                     (JStr "ws") false true 0%nat 0%nat
                     [delete_source existing_S1] empty_diff)
              [] [("S1", existing_S1)] [("S1", existing_S1)] _ "S1").
    vm_compute. reflexivity.
  - refine (proj2 (@initialized_map_has_configured_and_observed_names normalized
                     (JStr "ws") false true 0%nat 0%nat
                     [delete_destination existing_D1] empty_diff)
              [] [("D1", existing_D1)] [("D1", existing_D1)] _ "D1").
    vm_compute. reflexivity.
Defined.

(* ===================================================================== *)
(** ** Normalization is not created twice *)
(* ===================================================================== *)

Section NormalizationFound.
Context {E : Env}.

Lemma lookup_makes_no_create existing_connection_id :
  all_calls (fun c => requests ["/operations/create"] c = false)
    (existing_basic_norm_op_id existing_connection_id).
Proof. unfold existing_basic_norm_op_id. calls_auto. reflexivity. Qed.

Lemma found_operation_is_kept existing_connection_id destination
    normalization_config workspace_id (w w1 : World) t1 existing_id :
  existing_basic_norm_op_id existing_connection_id w = (w1, t1, Return existing_id) ->
  truthy existing_id = true ->
  Forall (fun c => requests ["/operations/create"] c = false)
         (trace_of (reconcile_normalization existing_connection_id destination
                      normalization_config workspace_id w))
  /\ forall w' t operation_id,
       reconcile_normalization existing_connection_id destination
         normalization_config workspace_id w = (w', t, Return operation_id) ->
       operation_id = existing_id \/ operation_id = JNull.
Proof.
  intros Hid Hfound. split.
  - unfold reconcile_normalization. erewrite trace_bind_returned by exact Hid.
    apply Forall_app. split.
    + pose proof (lookup_makes_no_create existing_connection_id w) as H.
      now rewrite Hid in H.
    + rewrite Hfound. unfold destination_supports_normalization.
      generalize w1. change (all_calls (fun c => requests ["/operations/create"] c = false)
        match normalization_config with
        | Some false => ret JNull
        | _ =>
            supported <-
              (if truthy (InitializedAirbyteDestination.destination_definition_id
                            destination)
               then perform (does_dest_support_normalization
                               (InitializedAirbyteDestination.destination_definition_id
                                  destination) workspace_id)
               else ret (InitializedAirbyteDestination.destination_definition_id
                           destination)) ;;
            if truthy supported then ret existing_id
            else match normalization_config with
                 | Some true =>
                     raise (PyException (normalization_unsupported_msg destination))
                 | _ => ret JNull
                 end
        end).
      calls_auto; reflexivity.
  - intros w' t operation_id Hrun. unfold reconcile_normalization in Hrun.
    apply bind_returns in Hrun as (? & ? & id' & ? & Hid' & Hrun & _).
    rewrite Hid in Hid'. injection Hid' as <- _ <-.
    rewrite Hfound in Hrun.
    destruct normalization_config as [[|] |].
    + apply bind_returns in Hrun as (? & ? & supported & ? & _ & Hrun & _).
      destruct (truthy supported); [| discriminate].
      apply ret_returns in Hrun. now left.
    + apply ret_returns in Hrun. now right.
    + apply bind_returns in Hrun as (? & ? & supported & ? & _ & Hrun & _).
      destruct (truthy supported); apply ret_returns in Hrun; auto.
Qed.

End NormalizationFound.

(** X6.  When [reconcile_normalization] finds a basic normalization
    operation on the connection, it never sends [/operations/create],
    whatever the intent and whatever the destination supports; what it
    returns, if it returns, is the id of that operation or [None]. *)
Theorem found_normalization_is_never_created_again :
  forall (E : Env) (existing_connection_id : json)
         (destination : InitializedAirbyteDestination.t)
         (normalization_config : option bool) (workspace_id : json)
         (w w1 : World) (t1 : list call) (existing_id : json),
    existing_basic_norm_op_id existing_connection_id w = (w1, t1, Return existing_id) ->
    truthy existing_id = true ->
    Forall (fun c => requests ["/operations/create"] c = false)
           (trace_of (reconcile_normalization existing_connection_id destination
                        normalization_config workspace_id w))
    /\ forall w' t operation_id,
         reconcile_normalization existing_connection_id destination
           normalization_config workspace_id w = (w', t, Return operation_id) ->
         operation_id = existing_id \/ operation_id = JNull.
Proof.
  intros E existing_connection_id destination normalization_config workspace_id
         w w1 t1 existing_id.
  apply found_operation_is_kept.
Qed.

(** The hypotheses of X6 hold of the connection [c-1], which carries
    [op-1]. *)
Lemma found_normalization_is_never_created_again_witness :
  Forall (fun c => requests ["/operations/create"] c = false)
         (trace_of (@reconcile_normalization normalized (JStr "c-1") existing_D1 None
                      (JStr "ws") 0%nat))
  /\ forall w' t operation_id,
       @reconcile_normalization normalized (JStr "c-1") existing_D1 None
         (JStr "ws") 0%nat = (w', t, Return operation_id) ->
       operation_id = JStr "op-1" \/ operation_id = JNull.
Proof.
  eapply (@found_normalization_is_never_created_again normalized (JStr "c-1")
            existing_D1 None (JStr "ws") 0%nat);
    vm_compute; reflexivity.
Defined.

(* ===================================================================== *)
(** ** A connection without a source or a destination *)
(* ===================================================================== *)

Section Malformed.
Context {E : Env}.

(** A comprehension over the configured connections calls nothing, and
    raises as soon as one of them lacks the field it reads. *)
Lemma comprehension_is_pure {A B : Type} (field : A -> option B) (key : B -> string)
    (objects : list A) :
  forall (acc : dict B) (w : World),
    exists r,
      for_each objects
        (fun d conn => x <- attr (field conn) "name" ;; ret (dict_set d (key x) x))
        acc w = (w, [], r)
      /\ (forallb (fun conn => is_some (field conn)) objects = false ->
          r = Raise (AttributeError "name")).
Proof.
  induction objects as [| conn objects IH]; intros acc w.
  - exists (Return acc). split; [reflexivity | discriminate].
  - cbn [for_each forallb]. destruct (field conn) as [x |] eqn:Hfield.
    + destruct (IH (dict_set acc (key x) x) w) as (r & Hrun & Hr).
      exists r. split.
      * unfold bind at 1. unfold bind at 1. cbn. rewrite Hrun. reflexivity.
      * cbn. exact Hr.
    + exists (Raise (AttributeError "name")). split; reflexivity.
Qed.

Lemma lacking_field {A B : Type} (field : A -> option B) (objects : list A) conn :
  In conn objects -> field conn = None ->
  forallb (fun conn => is_some (field conn)) objects = false.
Proof.
  intros Hin Hnone. destruct (forallb _ objects) eqn:Hall; [| reflexivity].
  rewrite forallb_forall in Hall. specialize (Hall conn Hin).
  rewrite Hnone in Hall. discriminate.
Qed.

Lemma observe_malformed objects conn (w : World) :
  In conn objects ->
  AirbyteConnection.source conn = None \/ AirbyteConnection.destination conn = None ->
  observe objects w = (w, [], Raise (AttributeError "name")).
Proof.
  intros Hin Hlacks. unfold observe, config_sources_of, config_dests_of.
  destruct (comprehension_is_pure AirbyteConnection.source AirbyteSource.name
              objects [] w) as (rs & Hs & Hrs).
  unfold bind at 1. rewrite Hs.
  destruct (forallb (fun c => is_some (AirbyteConnection.source c)) objects) eqn:Hall.
  - destruct Hlacks as [Hnone | Hnone].
    + rewrite (lacking_field AirbyteConnection.source objects conn Hin Hnone) in Hall.
      discriminate.
    + destruct rs as [sources | e].
      * destruct (comprehension_is_pure AirbyteConnection.destination
                    AirbyteDestination.name objects [] w) as (rd & Hd & Hrd).
        unfold bind at 1. rewrite Hd.
        rewrite (Hrd (lacking_field AirbyteConnection.destination objects conn
                        Hin Hnone)).
        reflexivity.
      * exfalso. clear - Hs Hall.
        revert Hs Hall. generalize (@nil (string * AirbyteSource.t)).
        induction objects as [| c objects IH]; intros acc Hs Hall.
        -- discriminate.
        -- cbn [for_each forallb] in Hs, Hall.
           destruct (AirbyteConnection.source c) as [x |]; [| discriminate].
           unfold bind at 1 in Hs. unfold bind at 1 in Hs. cbn in Hs.
           destruct (for_each objects _ _ w) as [[w2 t2] r2] eqn:Hrest.
           injection Hs as -> Ht ->. destruct t2; [| discriminate].
           eapply IH; eauto.
  - rewrite (Hrs eq_refl). reflexivity.
Qed.

End Malformed.

(** X7.  When one of the configured connections has no source or no
    destination, [reconcile_config] raises the [AttributeError] of the
    comprehensions at its head: the instance is left as it was and no call
    at all has been made on the resource. *)
Theorem connection_lacking_an_end_stops_before_any_call :
  forall (E : Env) (objects : list AirbyteConnection.t)
         (conn : AirbyteConnection.t) (dry_run should_delete : bool) (w : World),
    In conn objects ->
    AirbyteConnection.source conn = None \/ AirbyteConnection.destination conn = None ->
    reconcile_config objects dry_run should_delete w
    = (w, [], Raise (AttributeError "name")).
Proof.
  intros E objects conn dry_run should_delete w Hin Hlacks.
  unfold reconcile_config, bind.
  rewrite (observe_malformed objects conn w Hin Hlacks). reflexivity.
Qed.

(** The hypotheses of X7 hold of a connection that names a source but no
    destination. *)
Lemma connection_lacking_an_end_stops_before_any_call_witness :
  @reconcile_config matching
    [connection "C0" S1 None; AirbyteConnection.mk "C1" (Some S1) None users None]
    false true 0%nat
  = (0%nat, [], Raise (AttributeError "name")).
Proof.
  apply (@connection_lacking_an_end_stops_before_any_call matching
           [connection "C0" S1 None; AirbyteConnection.mk "C1" (Some S1) None users None]
           (AirbyteConnection.mk "C1" (Some S1) None users None) false true 0%nat).
  - right. left. reflexivity.
  - right. reflexivity.
Defined.

(* ===================================================================== *)
(** ** What is written is what is configured *)
(* ===================================================================== *)

Section Writes.
Context {E : Env}.

Lemma all_calls_bind_where {A B} (P : call -> Prop) (Q : A -> Prop)
    (m : M A) (f : A -> M B) :
  all_calls P m -> returns Q m -> (forall a, Q a -> all_calls P (f a)) ->
  all_calls P (bind m f).
Proof.
  intros Hm HQ Hf. apply all_calls_bind_returned; [exact Hm |].
  intros a w w1 t1 Hrun. apply Hf. eapply HQ. exact Hrun.
Qed.

Lemma found_definition_not_null (c : call) :
  returns (fun j => j <> JNull) (found <- perform c ;; not_none found).
Proof.
  intros w w' t j Hrun.
  apply bind_returns in Hrun as (? & ? & found & ? & _ & Hrun & _).
  eapply not_none_not_null. exact Hrun.
Qed.

Lemma then_ret_returns {A B} (m : M A) (x : B) :
  returns (fun b => b = x) (m ;; ret x).
Proof.
  intros w w' t b Hrun.
  apply bind_returns in Hrun as (? & ? & ? & ? & _ & Hrun & _).
  now apply ret_returns in Hrun.
Qed.

Lemma reconcile_sources_writes config_sources existing_sources workspace_id
    dry_run should_delete :
  all_calls (source_written_as_configured config_sources existing_sources workspace_id)
    (reconcile_sources config_sources existing_sources workspace_id dry_run
       should_delete).
Proof.
  unfold reconcile_sources. apply all_calls_for_each. intros [initialized diff] name.
  unfold reconcile_sources_body.
  destruct (dict_get existing_sources name) as [e |] eqn:He;
    destruct (dict_get config_sources name) as [c |] eqn:Hc;
    [destruct (source_must_be_recreated c (InitializedAirbyteSource.source e)) eqn:Hr
    | | | ];
    destruct should_delete eqn:Hsd;
    repeat first
      [ match goal with
        | |- all_calls _ (bind (bind (perform (get_source_definition_by_name _ _)) _) _) =>
            apply all_calls_bind_where with (Q := fun j => j <> JNull);
            [| apply found_definition_not_null | intros defn_id Hdefn]
        | |- all_calls _ (bind (bind (unless_dry_run _ _ _) (fun _ => ret ?x)) _) =>
            apply all_calls_bind_where with (Q := fun b => b = x);
            [| apply then_ret_returns | intros ? ->]
        end
      | calls_step ];
    (split; intros data Heq; try discriminate; injection Heq as <-;
     first [ exists name, c, e; repeat split; try assumption; intros; congruence
           | exists name, c, defn_id; repeat split; try assumption; intros;
             congruence ]).
Qed.

Lemma reconcile_destinations_writes config_destinations existing_destinations
    workspace_id dry_run should_delete :
  all_calls
    (destination_written_as_configured config_destinations existing_destinations
       workspace_id)
    (reconcile_destinations config_destinations existing_destinations workspace_id
       dry_run should_delete).
Proof.
  unfold reconcile_destinations. apply all_calls_for_each.
  intros [initialized diff] name.
  unfold reconcile_destinations_body.
  destruct (dict_get existing_destinations name) as [e |] eqn:He;
    destruct (dict_get config_destinations name) as [c |] eqn:Hc;
    [destruct (destination_must_be_recreated c
                 (InitializedAirbyteDestination.destination e)) eqn:Hr
    | | | ];
    destruct should_delete eqn:Hsd;
    repeat first
      [ match goal with
        | |- all_calls _ (bind (perform (get_destination_definition_by_name _ _)) _) =>
            apply all_calls_bind; [| intros defn_id]
        end
      | calls_step ];
    (split; intros data Heq; try discriminate; injection Heq as <-;
     first [ exists name, c, e; repeat split; try assumption; intros; congruence
           | exists name, c, defn_id; repeat split; try assumption; intros;
             congruence ]).
Qed.

End Writes.

(** X8.  Every [/sources/update] request of [reconcile_sources] carries the
    id of an observed source whose configuration of the same name need not
    be recreated, together with the configured name and configuration and
    nothing else.  Every [/sources/create] request is for a configured
    source that is not observed or must be recreated, and carries a
    definition id that is not [None], the workspace, and the configured
    name and configuration. *)
Theorem sources_are_written_as_configured :
  forall (E : Env) (config_sources : dict AirbyteSource.t)
         (existing_sources : dict InitializedAirbyteSource.t)
         (workspace_id : json) (dry_run should_delete : bool),
    all_calls (source_written_as_configured config_sources existing_sources
                 workspace_id)
      (reconcile_sources config_sources existing_sources workspace_id dry_run
         should_delete).
Proof. intros E. exact reconcile_sources_writes. Qed.

(** X9.  Every [/destinations/update] request of [reconcile_destinations]
    carries the id of an observed destination whose configuration of the
    same name need not be recreated, with the configured name and
    configuration.  Every [/destinations/create] request is for a
    configured destination of a name that is not observed: a destination
    that must be recreated is never created in the same run. *)
Theorem destinations_are_written_as_configured :
  forall (E : Env) (config_destinations : dict AirbyteDestination.t)
         (existing_destinations : dict InitializedAirbyteDestination.t)
         (workspace_id : json) (dry_run should_delete : bool),
    all_calls (destination_written_as_configured config_destinations
                 existing_destinations workspace_id)
      (reconcile_destinations config_destinations existing_destinations
         workspace_id dry_run should_delete).
Proof. intros E. exact reconcile_destinations_writes. Qed.

(* ===================================================================== *)
(** ** The connection that is created *)
(* ===================================================================== *)

Section Created.
Context {E : Env}.

Lemma attr_returns {A} (x : option A) name (w w' : World) t a :
  attr x name w = (w', t, Return a) -> x = Some a.
Proof.
  destruct x; simpl; unfold ret, raise; intros H; [| discriminate].
  now injection H as _ _ ->.
Qed.

Lemma index_returns {V} (d : dict V) key (w w' : World) t v :
  index d key w = (w', t, Return v) -> dict_get d key = Some v.
Proof.
  unfold index. destruct (dict_get d key); unfold ret, raise; intros H;
    [| discriminate].
  now injection H as _ _ ->.
Qed.

Lemma connection_base_json_shape existing_connections init_sources init_dests
    workspace_id dry_run conn_name config_conn (w w' : World) t base_json :
  connection_base_json existing_connections init_sources init_dests
    workspace_id dry_run conn_name config_conn w = (w', t, Return base_json) ->
  exists operation_ids configured_streams,
    base_json = [("name", JStr conn_name);
                 ("namespaceDefinition", JStr "source");
                 ("namespaceFormat", JStr "${SOURCE_NAMESPACE}");
                 ("prefix", JStr "");
                 ("operationIds", JList operation_ids);
                 ("syncCatalog", JDict [("streams", JList configured_streams)]);
                 ("scheduleType", JStr "manual");
                 ("status", JStr "active")].
Proof.
  unfold connection_base_json. intros H.
  apply bind_returns in H as (w1 & t1 & op & t2 & _ & H & _).
  apply bind_returns in H as (w2 & t3 & streams & t4 & _ & H & _).
  apply ret_returns in H. subst base_json. eauto.
Qed.

Lemma send_connection_creates init_sources init_dests conn_name config_conn
    base_json (w w' : World) t :
  send_connection init_sources init_dests false conn_name config_conn None
    base_json w = (w', t, Return tt) ->
  exists configured_source configured_destination source destination catalog_id,
    AirbyteConnection.source config_conn = Some configured_source
    /\ AirbyteConnection.destination config_conn = Some configured_destination
    /\ dict_get init_sources (AirbyteSource.name configured_source) = Some source
    /\ dict_get init_dests (AirbyteDestination.name configured_destination)
       = Some destination
    /\ In (make_request "/connections/create"
             (JDict (base_json
                     ++ [("sourceCatalogId", catalog_id);
                         ("sourceId", InitializedAirbyteSource.source_id source);
                         ("destinationId",
                          InitializedAirbyteDestination.destination_id
                            destination)]))) t.
Proof.
  unfold send_connection. intros H.
  apply bind_returns in H as (w1 & t1 & cs & t1' & Hcs & H & ->).
  apply bind_returns in H as (w2 & t2 & source & t2' & Hsource & H & ->).
  apply bind_returns in H as (w3 & t3 & cd & t3' & Hcd & H & ->).
  apply bind_returns in H as (w4 & t4 & destination & t4' & Hdestination & H & ->).
  apply bind_returns in H as (w5 & t5 & catalog_id & t5' & _ & H & ->).
  apply bind_returns in H as (w6 & t6 & created & t6' & Hcreate & _ & ->).
  apply perform_trace in Hcreate. subst t6.
  exists cs, cd, source, destination, catalog_id.
  repeat split;
    eauto using attr_returns, index_returns.
  rewrite !in_app_iff. simpl. auto 20.
Qed.

End Created.

(** X10.  When the post-phase of a real run returns, every configured
    connection that its listing of connections does not have was created:
    among the calls is a [/connections/create] request that carries the
    name of the connection, and as [sourceId] and [destinationId] the ids
    that [reconcile_sources] and [reconcile_destinations] recorded under
    the names of the source and the destination it is configured with. *)
Theorem missing_connection_is_created_between_the_recorded_ends :
  forall (E : Env) (config_connections : dict AirbyteConnection.t)
         (init_sources : dict InitializedAirbyteSource.t)
         (init_dests : dict InitializedAirbyteDestination.t)
         (workspace_id : json) (w : World)
         (existing_connections : dict InitializedAirbyteConnection.t)
         (conn_name : string) (config_conn : AirbyteConnection.t),
    outcome_of (fetch_connections init_sources init_dests workspace_id w)
    = Return existing_connections ->
    In (conn_name, config_conn) config_connections ->
    dict_get existing_connections conn_name = None ->
    outcome_of (reconcile_connections_post config_connections init_sources
                  init_dests workspace_id false w) = Return tt ->
    exists configured_source configured_destination source destination data,
      AirbyteConnection.source config_conn = Some configured_source
      /\ AirbyteConnection.destination config_conn = Some configured_destination
      /\ dict_get init_sources (AirbyteSource.name configured_source) = Some source
      /\ dict_get init_dests (AirbyteDestination.name configured_destination)
         = Some destination
      /\ In (make_request "/connections/create" data)
            (trace_of (reconcile_connections_post config_connections init_sources
                         init_dests workspace_id false w))
      /\ getitem data "name" = Return (JStr conn_name)
      /\ getitem data "sourceId"
         = Return (InitializedAirbyteSource.source_id source)
      /\ getitem data "destinationId"
         = Return (InitializedAirbyteDestination.destination_id destination).
Proof.
  intros E config_connections init_sources init_dests workspace_id w
         existing_connections conn_name config_conn Hfetch Hin Hmissing Hpost.
  destruct (reconcile_connections_post config_connections init_sources init_dests
              workspace_id false w) as [[w' t] r] eqn:Hrun.
  simpl in Hpost. subst r. change (trace_of (w', t, Return tt)) with t.
  unfold reconcile_connections_post in Hrun.
  apply bind_returns in Hrun as (w1 & t1 & listed & t2 & Hlisted & Hloop & ->).
  rewrite Hlisted in Hfetch. simpl in Hfetch. injection Hfetch as ->.
  destruct (for_each_passes _ _ _ _ _ Hloop Hin)
    as ([] & w0 & w0' & t0 & [] & Hbody & Hsub).
  unfold reconcile_connections_post_body in Hbody. rewrite Hmissing in Hbody.
  apply bind_returns in Hbody as (w2 & t3 & base_json & t4 & Hbase & Hsend & ->).
  apply connection_base_json_shape in Hbase as (operation_ids & streams & ->).
  apply send_connection_creates in Hsend
    as (cs & cd & source & destination & catalog_id
        & Hcs & Hcd & Hsource & Hdestination & Hcreate).
  exists cs, cd, source, destination. eexists.
  repeat split; try eassumption.
  - apply in_or_app. right. apply Hsub. apply in_or_app. right. exact Hcreate.
  - reflexivity.
  - reflexivity.
  - reflexivity.
Qed.

(** The hypotheses of X10 hold in [retyped] once the connection [C1] has
    been deleted and the source [S1] recreated. *)
Lemma missing_connection_is_created_between_the_recorded_ends_witness :
  exists configured_source configured_destination source destination data,
    AirbyteConnection.source (connection "C1" S1_retyped None)
    = Some configured_source
    /\ AirbyteConnection.destination (connection "C1" S1_retyped None)
       = Some configured_destination
    /\ dict_get [("S1", recreated_S1)] (AirbyteSource.name configured_source)
       = Some source
    /\ dict_get [("D1", existing_D1)] (AirbyteDestination.name configured_destination)
       = Some destination
    /\ In (make_request "/connections/create" data)
          (trace_of (@reconcile_connections_post retyped
                       [("C1", connection "C1" S1_retyped None)]
                       [("S1", recreated_S1)] [("D1", existing_D1)]
                       (JStr "ws") false 1%nat))
    /\ getitem data "name" = Return (JStr "C1")
    /\ getitem data "sourceId" = Return (InitializedAirbyteSource.source_id source)
    /\ getitem data "destinationId"
       = Return (InitializedAirbyteDestination.destination_id destination).
Proof.
  apply (@missing_connection_is_created_between_the_recorded_ends retyped
           [("C1", connection "C1" S1_retyped None)]
           [("S1", recreated_S1)] [("D1", existing_D1)] (JStr "ws") 1%nat
           [] "C1" (connection "C1" S1_retyped None)).
  - vm_compute. reflexivity.
  - left. reflexivity.
  - reflexivity.
  - vm_compute. reflexivity.
Defined.

(* ===================================================================== *)
(** ** Loading assets *)
(* ===================================================================== *)

Section Loading.
Context {E : Env}.

Lemma read_only_not_mutating (t : list call) :
  Forall read_only t -> Forall (fun c => mutating c = false) t.
Proof. apply Forall_impl. now intros c [H _]. Qed.

Lemma same_diff_dry_and_real objects should_delete (w w1 w2 : World) t1 t2
    diff1 diff2 :
  reconcile_config objects true should_delete w = (w1, t1, Return diff1) ->
  reconcile_config objects false should_delete w = (w2, t2, Return diff2) ->
  diff1 = diff2.
Proof.
  intros Hdry Hreal.
  apply reconcile_config_diff in Hdry
    as (o1 & wa1 & ta1 & ec1 & wb1 & tb1 & Hobs1 & Hfetch1 & ->).
  apply reconcile_config_diff in Hreal
    as (o2 & wa2 & ta2 & ec2 & wb2 & tb2 & Hobs2 & Hfetch2 & ->).
  rewrite Hobs1 in Hobs2. injection Hobs2 as <- <- <-.
  rewrite Hfetch1 in Hfetch2. injection Hfetch2 as <- <- <-.
  reflexivity.
Qed.

End Loading.

(** X11.  When [_get_connections] ends in the [ValueError] that reports a
    diff, that diff is the non-empty diff of the dry run, the parent loader
    was not entered, and the instance has received no create, update or
    delete request: the calls made and the state reached are those of the
    dry run. *)
Theorem drifted_instance_is_refused_untouched :
  forall (E : Env) (A : Type) (connections : list AirbyteConnection.t)
         (super_get_connections : M A) (w : World) (diff : ManagedElementDiff),
    snd (_get_connections connections super_get_connections w) = ValueError diff ->
    is_empty diff = false
    /\ reconcile_config connections true false w
       = (fst (_get_connections connections super_get_connections w), Return diff)
    /\ Forall (fun c => mutating c = false)
         (snd (fst (_get_connections connections super_get_connections w))).
Proof.
  intros E A connections super_get_connections w diff.
  unfold _get_connections.
  pose proof (reconcile_config_dry connections false w) as Hdry.
  destruct (reconcile_config connections true false w) as [[w1 t1] [d | e]];
    [| discriminate].
  change (trace_of (w1, t1, Return d)) with t1 in Hdry.
  destruct (is_empty d) eqn:Hempty; simpl.
  - destruct (super_get_connections w1) as [[w2 t2] [found | e]]; discriminate.
  - intros H. injection H as <-.
    repeat split; [exact Hempty | now apply read_only_not_mutating].
Qed.

(** The hypothesis of X11 holds in [retyped], whatever the parent loader
    is. *)
Lemma drifted_instance_is_refused_untouched_witness :
  is_empty retyped_diff = false
  /\ @reconcile_config retyped retyped_objects true false 0%nat
     = (fst (@_get_connections retyped unit retyped_objects (ret tt) 0%nat),
        Return retyped_diff)
  /\ Forall (fun c => mutating c = false)
       (snd (fst (@_get_connections retyped unit retyped_objects (ret tt) 0%nat))).
Proof.
  apply (@drifted_instance_is_refused_untouched retyped unit retyped_objects
           (ret tt) 0%nat retyped_diff).
  vm_compute. reflexivity.
Defined.

(** X12.  When [_get_connections] returns connections, they are what the
    parent loader returned from the state the dry run left; the dry run
    returned an empty diff and made no create, update or delete request;
    and a real run of [reconcile_config] from the state [_get_connections]
    started in, if it returns, reports an empty diff as well. *)
Theorem loaded_instance_is_in_sync :
  forall (E : Env) (A : Type) (connections : list AirbyteConnection.t)
         (super_get_connections : M A) (w : World) (found : A),
    snd (_get_connections connections super_get_connections w) = Loaded found ->
    exists w1 t1 diff,
      reconcile_config connections true false w = (w1, t1, Return diff)
      /\ is_empty diff = true
      /\ Forall (fun c => mutating c = false) t1
      /\ outcome_of (super_get_connections w1) = Return found
      /\ fst (_get_connections connections super_get_connections w)
         = (world_of (super_get_connections w1),
            t1 ++ trace_of (super_get_connections w1))
      /\ forall w' t' diff',
           reconcile_config connections false false w = (w', t', Return diff') ->
           is_empty diff' = true.
Proof.
  intros E A connections super_get_connections w found.
  unfold _get_connections.
  pose proof (reconcile_config_dry connections false w) as Hdry.
  pose proof (same_diff_dry_and_real connections false w) as Hsame.
  destruct (reconcile_config connections true false w) as [[w1 t1] [d | e]];
    [| discriminate].
  change (trace_of (w1, t1, Return d)) with t1 in Hdry.
  destruct (is_empty d) eqn:Hempty; simpl; [| discriminate].
  destruct (super_get_connections w1) as [[w2 t2] [found' | e]] eqn:Hsuper;
    [| discriminate].
  intros H. injection H as ->.
  exists w1, t1, d.
  split; [reflexivity |]. split; [exact Hempty |].
  split; [now apply read_only_not_mutating |].
  split; [now rewrite Hsuper |]. split; [now rewrite Hsuper |].
  intros w' t' diff' Hreal.
  now rewrite <- (Hsame w1 w' t1 t' d diff' eq_refl Hreal).
Qed.

(** The hypothesis of X12 holds in [matching], with a parent loader that
    lists the connections. *)
Lemma loaded_instance_is_in_sync_witness :
  exists w1 t1 diff,
    @reconcile_config matching matching_objects true false 0%nat
    = (w1, t1, Return diff)
    /\ is_empty diff = true
    /\ Forall (fun c => mutating c = false) t1
    /\ outcome_of (@perform matching (list_connections (JStr "ws")) w1)
       = Return (JDict [("connections", JList [connection_json "S1" []])])
    /\ fst (@_get_connections matching json matching_objects
              (perform (list_connections (JStr "ws"))) 0%nat)
       = (world_of (@perform matching (list_connections (JStr "ws")) w1),
          t1 ++ trace_of (@perform matching (list_connections (JStr "ws")) w1))
    /\ forall w' t' diff',
         @reconcile_config matching matching_objects false false 0%nat
         = (w', t', Return diff') ->
         is_empty diff' = true.
Proof.
  apply (@loaded_instance_is_in_sync matching json matching_objects
           (perform (list_connections (JStr "ws"))) 0%nat
           (JDict [("connections", JList [connection_json "S1" []])])).
  vm_compute. reflexivity.
Defined.

(* ===================================================================== *)
(** ** Streams that cannot be read, and streams that are not there *)
(* ===================================================================== *)

Section UnreadableStreams.

Lemma configured_streams_of_cases base_streams stream_config :
  configured_streams_of base_streams stream_config
  = match first_stream_error base_streams with
    | Some e => Raise e
    | None => Return (merge base_streams stream_config)
    end.
Proof.
  unfold merge. induction base_streams as [| stream rest IH]; [reflexivity |].
  cbn [configured_streams_of first_stream_error filter].
  unfold stream_error, mentioned at 1.
  destruct (stream_name stream) as [[| b | n | name | l | d] | e] eqn:Hname;
    simpl; try exact IH; try reflexivity.
  destruct (dict_mem stream_config name) eqn:Hmem; [| exact IH].
  destruct (dict_mem_get _ _ Hmem) as (config & Hconfig).
  destruct (stream_name_is_dict _ Hname) as (descriptor & ->).
  unfold gen_configured_stream_json. rewrite Hname. simpl. rewrite Hconfig.
  simpl. rewrite IH.
  destruct (first_stream_error rest); [reflexivity |].
  simpl. unfold with_sync_modes at 1. now rewrite Hname, Hconfig.
Qed.

Lemma with_sync_modes_name stream_config stream :
  stream_name (with_sync_modes stream_config stream) = stream_name stream.
Proof.
  unfold with_sync_modes.
  destruct stream as [| | | | | descriptor]; try reflexivity.
  destruct (stream_name (JDict descriptor)) as [[| | | name | |] |] eqn:Hname;
    try exact Hname.
  destruct (dict_get stream_config name) as [config |]; [| exact Hname].
  rewrite <- Hname. unfold stream_name.
  destruct (merged_sync_modes descriptor config) as (_ & _ & Hother).
  cbv zeta in Hother. now rewrite (Hother "stream") by discriminate.
Qed.

End UnreadableStreams.

(** X13.  The comprehension that builds [configured_streams] raises
    exactly when the discovered catalog has a stream whose name cannot be
    read or cannot be hashed, with the exception of the first such stream
    and whether or not that stream is configured; otherwise it returns the
    discovered streams whose name is a key of [stream_config], each with
    the configured sync modes.  A stream whose name is [None], a boolean or
    a number is passed over. *)
Theorem configured_streams_raise_at_the_first_unreadable_stream :
  forall (base_streams : list json) (stream_config : dict AirbyteSyncMode.t),
    configured_streams_of base_streams stream_config
    = match first_stream_error base_streams with
      | Some e => Raise e
      | None => Return (merge base_streams stream_config)
      end.
Proof. exact configured_streams_of_cases. Qed.

(** X14.  A key of [stream_config] that names no stream of the discovered
    catalog is dropped without an error: whenever the comprehension
    returns, no stream of that name is among the configured streams, every
    configured stream has the name of a discovered stream, and there are no
    more of them than the catalog has. *)
Theorem configured_stream_missing_from_the_catalog_is_dropped :
  forall (base_streams : list json) (stream_config : dict AirbyteSyncMode.t)
         (configured_streams : list json) (name : string),
    (forall stream, In stream base_streams ->
                    stream_name stream <> Return (JStr name)) ->
    configured_streams_of base_streams stream_config = Return configured_streams ->
    (forall stream, In stream configured_streams ->
                    stream_name stream <> Return (JStr name))
    /\ (forall stream, In stream configured_streams ->
          exists discovered,
            In discovered base_streams
            /\ stream_name stream = stream_name discovered)
    /\ length configured_streams <= length base_streams.
Proof.
  intros base_streams stream_config configured_streams name Habsent Hrun.
  rewrite configured_streams_of_cases in Hrun.
  destruct (first_stream_error base_streams); [discriminate |].
  injection Hrun as <-. unfold merge.
  assert (Hfrom : forall stream,
             In stream (map (with_sync_modes stream_config)
                          (filter (mentioned stream_config) base_streams)) ->
             exists discovered,
               In discovered base_streams
               /\ stream_name stream = stream_name discovered).
  { intros stream Hin. apply in_map_iff in Hin as (discovered & <- & Hin).
    apply filter_In in Hin as [Hin _].
    exists discovered. split; [exact Hin | apply with_sync_modes_name]. }
  split; [| split].
  - intros stream Hin. destruct (Hfrom stream Hin) as (discovered & Hd & ->).
    now apply Habsent.
  - exact Hfrom.
  - rewrite length_map. apply filter_length_le.
Qed.

(** The hypotheses of X14 hold of a catalog with [orders] and [users] and
    a configuration that asks for [users] and for [payments]. *)
Lemma configured_stream_missing_from_the_catalog_is_dropped_witness :
  (forall stream,
      In stream [with_sync_modes users_and_payments (discovered "users")] ->
      stream_name stream <> Return (JStr "payments"))
  /\ (forall stream,
        In stream [with_sync_modes users_and_payments (discovered "users")] ->
        exists found,
          In found [discovered "orders"; discovered "users"]
          /\ stream_name stream = stream_name found)
  /\ length [with_sync_modes users_and_payments (discovered "users")]
     <= length [discovered "orders"; discovered "users"].
Proof.
  apply (@configured_stream_missing_from_the_catalog_is_dropped
           [discovered "orders"; discovered "users"] users_and_payments
           [with_sync_modes users_and_payments (discovered "users")] "payments").
  - intros stream [<- | [<- | []]]; vm_compute; discriminate.
  - vm_compute. reflexivity.
Defined.

(* ===================================================================== *)
(** ** What the diff does not show *)
(* ===================================================================== *)

(** X15.  [diff_sources] and [diff_destinations] compare the
    configurations only: a configured entity and an observed one with the
    same configuration give an empty diff, whatever their names and types
    are, so a change of type, for which the entity is recreated, is not in
    the diff. *)
Theorem change_of_type_is_not_in_the_diff :
  (forall configured existing : AirbyteSource.t,
      dict_wf (AirbyteSource.source_configuration configured) = true ->
      AirbyteSource.source_configuration existing
      = AirbyteSource.source_configuration configured ->
      diff_sources (Some configured) (Some existing) = empty_diff)
  /\ (forall configured existing : AirbyteDestination.t,
        dict_wf (AirbyteDestination.destination_configuration configured) = true ->
        AirbyteDestination.destination_configuration existing
        = AirbyteDestination.destination_configuration configured ->
        diff_destinations (Some configured) (Some existing) = empty_diff).
Proof.
  split; intros configured existing Hwf Hsame.
  - unfold diff_sources. rewrite Hsame. now rewrite diff_dicts_self.
  - unfold diff_destinations. rewrite Hsame. now rewrite diff_dicts_self.
Qed.

(** The hypotheses of X15 hold of [S1] and [D1] and what they are with
    another type. *)
Lemma change_of_type_is_not_in_the_diff_witness :
  diff_sources (Some S1_retyped) (Some S1) = empty_diff
  /\ diff_destinations (Some D1_retyped) (Some D1) = empty_diff.
Proof.
  destruct change_of_type_is_not_in_the_diff as [Hsources Hdestinations].
  split.
  - apply Hsources; reflexivity.
  - apply Hdestinations; reflexivity.
Defined.

(* ===================================================================== *)
(** ** A source that is recreated *)
(* ===================================================================== *)

Section Recreated.
Context {E : Env}.

Lemma for_each_passes_at {A S} (body : S -> A -> M S) x :
  forall xs acc w w' t r,
    for_each xs body acc w = (w', t, Return r) -> In x xs ->
    exists acc0 w0 w0' t0 r0 before after,
      body acc0 x w0 = (w0', t0, Return r0) /\ t = before ++ t0 ++ after.
Proof.
  induction xs as [| y xs IH]; intros acc w w' t r Hrun Hin; [contradiction |].
  simpl in Hrun.
  apply bind_returns in Hrun as (w1 & t1 & acc' & t2 & Hy & Hrest & ->).
  destruct Hin as [-> | Hin].
  - exists acc, w, w1, t1, acc', [], t2. split; [exact Hy | reflexivity].
  - destruct (IH _ _ _ _ _ Hrest Hin)
      as (acc0 & w0 & w0' & t0 & r0 & before & after & Hx & ->).
    exists acc0, w0, w0', t0, r0, (t1 ++ before), after.
    split; [exact Hx | now rewrite app_assoc].
Qed.

Lemma ret_run {A} (a b : A) (w w' : World) t :
  ret a w = (w', t, Return b) -> t = [] /\ b = a.
Proof. unfold ret. intros H. injection H as _ <- <-. auto. Qed.

Lemma not_none_run j (w w' : World) t j' :
  not_none j w = (w', t, Return j') -> t = [] /\ j' = j.
Proof.
  destruct j; simpl; unfold ret, raise; intros H; try discriminate;
    injection H as _ <- <-; auto.
Qed.

Lemma lift_run {A} (o : outcome A) (w w' : World) t a :
  lift o w = (w', t, Return a) -> t = [] /\ o = Return a.
Proof. unfold lift. intros H. injection H as _ <- ->. auto. Qed.

Lemma sources_body_recreates config_sources existing_sources workspace_id
    should_delete acc name configured existing (w w' : World) t r :
  dict_get config_sources name = Some configured ->
  dict_get existing_sources name = Some existing ->
  source_must_be_recreated configured (InitializedAirbyteSource.source existing)
  = true ->
  reconcile_sources_body config_sources existing_sources workspace_id false
    should_delete acc name w = (w', t, Return r) ->
  exists defn_id,
    defn_id <> JNull
    /\ t = [delete_source existing;
            get_source_definition_by_name (AirbyteSource.source_type configured)
              workspace_id;
            make_request "/sources/create"
              (JDict [("sourceDefinitionId", defn_id);
                      ("workspaceId", workspace_id);
                      ("name", JStr (AirbyteSource.name configured));
                      ("connectionConfiguration",
                       JDict (AirbyteSource.source_configuration configured))])].
Proof.
  intros Hc He Hr Hrun. destruct acc as [initialized diff].
  unfold reconcile_sources_body in Hrun. cbv zeta in Hrun.
  rewrite Hc, He, Hr in Hrun.
  assert (Hbody :
    ('(initialized_sources, existing_source) <-
       (unless_dry_run false "/sources/delete"
          (JDict [("sourceId", InitializedAirbyteSource.source_id existing)]) ;;
        ret (dict_set initialized name existing,
             @None InitializedAirbyteSource.t)) ;;
     defn_id <-
       (found <- perform (get_source_definition_by_name
                            (AirbyteSource.source_type configured) workspace_id) ;;
        not_none found) ;;
     source_id <-
       match existing_source with
       | Some existing0 =>
           unless_dry_run false "/sources/update"
             (JDict [("sourceId", InitializedAirbyteSource.source_id existing0);
                     ("name", JStr (AirbyteSource.name configured));
                     ("connectionConfiguration",
                      JDict (AirbyteSource.source_configuration configured))]) ;;
           ret (InitializedAirbyteSource.source_id existing0)
       | None =>
           create_result <-
             request "/sources/create"
               (JDict [("sourceDefinitionId", defn_id);
                       ("workspaceId", workspace_id);
                       ("name", JStr (AirbyteSource.name configured));
                       ("connectionConfiguration",
                        JDict (AirbyteSource.source_configuration configured))]) ;;
           lift (getitem create_result "sourceId")
       end ;;
     ret (dict_set initialized_sources name
            (InitializedAirbyteSource.mk configured source_id defn_id),
          join diff
            (diff_sources (Some configured)
               (Some (InitializedAirbyteSource.source existing))))) w
    = (w', t, Return r)).
  { destruct should_delete; exact Hrun. }
  clear Hrun.
  apply bind_returns in Hbody as (w1 & t1 & a & t1' & Hdelete & Hbody & ->).
  apply bind_returns in Hdelete as (w2 & t2 & [] & t2' & Hdelete & Hkept & ->).
  apply ret_run in Hkept as [-> ->].
  unfold unless_dry_run in Hdelete.
  apply bind_returns in Hdelete as (w3 & t3 & j & t3' & Hdelete & Htt & ->).
  apply perform_trace in Hdelete. apply ret_run in Htt as [-> _]. subst t3.
  apply bind_returns in Hbody as (w4 & t4 & defn_id & t4' & Hdefn & Hbody & ->).
  apply bind_returns in Hdefn as (w5 & t5 & found & t5' & Hlookup & Hfound & ->).
  apply perform_trace in Hlookup. subst t5.
  assert (Hnot_null : defn_id <> JNull)
    by (eapply not_none_not_null; exact Hfound).
  apply not_none_run in Hfound as [-> ->].
  apply bind_returns in Hbody as (w6 & t6 & source_id & t6' & Hcreate & Hbody & ->).
  apply ret_run in Hbody as [-> _].
  apply bind_returns in Hcreate as (w7 & t7 & created & t7' & Hcreate & Hid & ->).
  apply lift_run in Hid as [-> _].
  unfold request in Hcreate.
  apply bind_returns in Hcreate as (w8 & t8 & answer & t8' & Hcreate & Hsome & ->).
  apply perform_trace in Hcreate. apply not_none_run in Hsome as [-> _]. subst t8.
  exists found. split; [exact Hnot_null | reflexivity].
Qed.

End Recreated.

(** X16.  When a real run of [reconcile_sources] returns, every configured
    source whose observed namesake must be recreated was handled by three
    calls in a row: the delete request for the observed source, the lookup
    of the definition of the configured type, and a create request that
    carries the definition found, which is not [None], the workspace, and
    the configured name and configuration. *)
Theorem recreated_source_is_deleted_then_created :
  forall (E : Env) (config_sources : dict AirbyteSource.t)
         (existing_sources : dict InitializedAirbyteSource.t)
         (workspace_id : json) (should_delete : bool) (w : World)
         (name : string) (configured : AirbyteSource.t)
         (existing : InitializedAirbyteSource.t)
         (result : dict InitializedAirbyteSource.t * ManagedElementDiff),
    dict_get config_sources name = Some configured ->
    dict_get existing_sources name = Some existing ->
    source_must_be_recreated configured (InitializedAirbyteSource.source existing)
    = true ->
    outcome_of (reconcile_sources config_sources existing_sources workspace_id
                  false should_delete w) = Return result ->
    exists before defn_id after,
      defn_id <> JNull
      /\ trace_of (reconcile_sources config_sources existing_sources workspace_id
                     false should_delete w)
         = before
           ++ [delete_source existing;
               get_source_definition_by_name (AirbyteSource.source_type configured)
                 workspace_id;
               make_request "/sources/create"
                 (JDict [("sourceDefinitionId", defn_id);
                         ("workspaceId", workspace_id);
                         ("name", JStr (AirbyteSource.name configured));
                         ("connectionConfiguration",
                          JDict (AirbyteSource.source_configuration configured))])]
           ++ after.
Proof.
  intros E config_sources existing_sources workspace_id should_delete w name
         configured existing result Hc He Hr Hreturns.
  destruct (reconcile_sources config_sources existing_sources workspace_id false
              should_delete w) as [[w' t] r] eqn:Hrun.
  simpl in Hreturns. subst r. change (trace_of (w', t, Return result)) with t.
  unfold reconcile_sources in Hrun.
  assert (Hin : In name (set_order (dict_keys config_sources
                                    ++ dict_keys existing_sources))).
  { apply set_order_In. apply in_or_app. left. eapply in_dict_keys. exact Hc. }
  destruct (for_each_passes_at _ _ _ _ _ Hrun Hin)
    as (acc0 & w0 & w0' & t0 & r0 & before & after & Hbody & ->).
  eapply sources_body_recreates in Hbody; [| exact Hc | exact He | exact Hr].
  destruct Hbody as (defn_id & Hnot_null & ->).
  exists before, defn_id, after. split; [exact Hnot_null | reflexivity].
Qed.

(** The hypotheses of X16 hold in [retyped], where [S1] changed its
    type. *)
Lemma recreated_source_is_deleted_then_created_witness :
  exists before defn_id after,
    defn_id <> JNull
    /\ trace_of (@reconcile_sources retyped [("S1", S1_retyped)]
                   [("S1", existing_S1)] (JStr "ws") false false 0%nat)
       = before
         ++ [delete_source existing_S1;
             get_source_definition_by_name (AirbyteSource.source_type S1_retyped)
               (JStr "ws");
             make_request "/sources/create"
               (JDict [("sourceDefinitionId", defn_id);
                       ("workspaceId", JStr "ws");
                       ("name", JStr (AirbyteSource.name S1_retyped));
                       ("connectionConfiguration",
                        JDict (AirbyteSource.source_configuration S1_retyped))])]
         ++ after.
Proof.
  apply (@recreated_source_is_deleted_then_created retyped [("S1", S1_retyped)]
           [("S1", existing_S1)] (JStr "ws") false 0%nat "S1" S1_retyped existing_S1
           ([("S1", recreated_S1)], empty_diff)).
  - reflexivity.
  - reflexivity.
  - reflexivity.
  - vm_compute. reflexivity.
Defined.
